(** * monitorlib: alert dispatch ([monitorlib/collectd.py]) and the
      notification forwarder ([monitorlib/bin/collectd_notify.py])

    A shallow embedding of the two Python modules.  Python byte strings are
    [string]; dictionaries with string keys are [gmap string string];
    module globals, the file system, the external services and the effects
    performed are the fields of a [world] threaded through an exception
    monad. *)

From Stdlib Require Import String Ascii List Bool Arith Lia.
From stdpp Require Import base option gmap strings pretty.
Import ListNotations.

Local Open Scope list_scope.

(** ** Python string primitives *)

Module Py.

Definition dquote : ascii := "034"%char.
Definition backslash : ascii := "092"%char.
Definition newline : ascii := "010"%char.

(** [bool(s)] for a string. *)
Definition truthy (s : string) : bool :=
  match s with EmptyString => false | String _ _ => true end.

(** [bool(x)] for an optional argument whose default is [False] or
    [None]. *)
Definition truthy_opt (o : option string) : bool :=
  match o with Some s => truthy s | None => false end.

Fixpoint startswith (p s : string) : bool :=
  match p, s with
  | EmptyString, _ => true
  | String a p', String b s' => if Ascii.eqb a b then startswith p' s' else false
  | String _ _, EmptyString => false
  end.

(** [needle in hay]. *)
Fixpoint contains (needle hay : string) : bool :=
  startswith needle hay ||
  match hay with
  | EmptyString => false
  | String _ hay' => contains needle hay'
  end.

Definition upper_char (c : ascii) : ascii :=
  let n := nat_of_ascii c in
  if (97 <=? n) && (n <=? 122) then ascii_of_nat (n - 32) else c.

(** [s.upper()] on ASCII text. *)
Fixpoint upper (s : string) : string :=
  match s with
  | EmptyString => EmptyString
  | String c s' => String (upper_char c) (upper s')
  end.

Definition lower_char (c : ascii) : ascii :=
  let n := nat_of_ascii c in
  if (65 <=? n) && (n <=? 90) then ascii_of_nat (n + 32) else c.

Fixpoint lower (s : string) : string :=
  match s with
  | EmptyString => EmptyString
  | String c s' => String (lower_char c) (lower s')
  end.

(** [s.split(sep)] for a one-character separator: [k] separators give
    [k + 1] fields, so the result is never empty. *)
Fixpoint split (sep : ascii) (s : string) : list string :=
  match s with
  | EmptyString => [EmptyString]
  | String c s' =>
      if Ascii.eqb c sep then EmptyString :: split sep s'
      else match split sep s' with
           | [] => [String c EmptyString]
           | f :: fs => String c f :: fs
           end
  end.

(** [s.lstrip(c)] for a one-character argument. *)
Fixpoint lstrip (c : ascii) (s : string) : string :=
  match s with
  | EmptyString => EmptyString
  | String a s' => if Ascii.eqb a c then lstrip c s' else s
  end.

(** [fh.readline()] on a freshly opened file of content [s]: the first
    line with its newline, if it has one. *)
Fixpoint readline (s : string) : string :=
  match s with
  | EmptyString => EmptyString
  | String c s' =>
      if Ascii.eqb c newline then String c EmptyString
      else String c (readline s')
  end.

(** Text that Python 2 converts between [str] and [unicode] without
    raising: every byte is below 128. *)
Fixpoint is_ascii (s : string) : bool :=
  match s with
  | EmptyString => true
  | String c s' => (nat_of_ascii c <? 128) && is_ascii s'
  end.

(** [xs[i]]. *)
Definition index {A} (xs : list A) (i : nat) : option A := nth_error xs i.

End Py.

(** ** [json.loads] on flat objects

    [dispatch_alert] builds its event by decoding a text that it formats
    itself: an object whose four members are string literals.  The decoder
    below follows the standard library's [JSONObject] and [scanstring]
    (strict mode) on that fragment: objects whose member values are ASCII
    string literals without [\u] escapes.  A text that leaves the fragment
    (another kind of value, a byte above 127, a [\u] escape) is answered
    [Beyond]: the embedding says nothing about it. *)

Module Json.

Inductive scan (A : Type) : Type :=
| Scanned (a : A)      (* decoded *)
| Malformed            (* json raises ValueError *)
| Beyond.              (* outside the modelled fragment *)
Arguments Scanned {A} a.
Arguments Malformed {A}.
Arguments Beyond {A}.

(** [WHITESPACE = ' \t\n\r'] *)
Definition is_ws (c : ascii) : bool :=
  match c with
  | " "%char | "009"%char | "010"%char | "013"%char => true
  | _ => false
  end.

Fixpoint skip_ws (s : string) : string :=
  match s with
  | EmptyString => EmptyString
  | String c s' => if is_ws c then skip_ws s' else s
  end.

(** The [BACKSLASH] table of the decoder. *)
Definition unescape (c : ascii) : option ascii :=
  match c with
  | "034"%char => Some "034"%char
  | "092"%char => Some "092"%char
  | "/"%char => Some "/"%char
  | "b"%char => Some "008"%char
  | "f"%char => Some "012"%char
  | "n"%char => Some "010"%char
  | "r"%char => Some "013"%char
  | "t"%char => Some "009"%char
  | _ => None
  end.

Definition is_control (c : ascii) : bool := nat_of_ascii c <? 32.
Definition is_ascii (c : ascii) : bool := nat_of_ascii c <? 128.

Definition push (c : ascii) (r : scan (string * string)) : scan (string * string) :=
  match r with
  | Scanned (v, rest) => Scanned (String c v, rest)
  | Malformed => Malformed
  | Beyond => Beyond
  end.

(** [scanstring(s, end, strict=True)]: [s] starts just after the opening
    quote; the result is the decoded literal and the text after its
    closing quote. *)
Fixpoint scanstring (s : string) : scan (string * string) :=
  match s with
  | EmptyString => Malformed
  | String c rest =>
      if Ascii.eqb c Py.dquote then Scanned (EmptyString, rest)
      else if Ascii.eqb c Py.backslash then
        match rest with
        | EmptyString => Malformed
        | String e rest' =>
            match unescape e with
            | Some d => push d (scanstring rest')
            | None => if Ascii.eqb e "u"%char then Beyond else Malformed
            end
        end
      else if is_control c then Malformed
      else if is_ascii c then push c (scanstring rest)
      else Beyond
  end.

(** First characters on which the scanner tries a value that is not a
    string literal (object, array, [null], [true], [false], a number,
    [NaN], [Infinity]). *)
Definition starts_other_value (c : ascii) : bool :=
  match c with
  | "{"%char | "["%char | "n"%char | "t"%char | "f"%char
  | "N"%char | "I"%char | "-"%char => true
  | _ => let n := nat_of_ascii c in (48 <=? n) && (n <=? 57)
  end.

(** The member loop of [JSONObject]: [s] starts just after the opening
    quote of a property name.  Every round consumes text, so any fuel
    above the length of the text is enough. *)
Fixpoint members (fuel : nat) (s : string) (acc : gmap string string)
  : scan (gmap string string * string) :=
  match fuel with
  | 0 => Beyond
  | S fuel' =>
      match scanstring s with
      | Scanned (key, s1) =>
          match skip_ws s1 with
          | String ":"%char s2 =>
              match skip_ws s2 with
              | String c s3 =>
                  if Ascii.eqb c Py.dquote then
                    match scanstring s3 with
                    | Scanned (value, s4) =>
                        let acc' := <[key := value]> acc in
                        match skip_ws s4 with
                        | String "}"%char s5 => Scanned (acc', s5)
                        | String ","%char s5 =>
                            match skip_ws s5 with
                            | String c' s6 =>
                                if Ascii.eqb c' Py.dquote
                                then members fuel' s6 acc'
                                else Malformed
                            | EmptyString => Malformed
                            end
                        | _ => Malformed
                        end
                    | Malformed => Malformed
                    | Beyond => Beyond
                    end
                  else if starts_other_value c then Beyond
                  else Malformed
              | EmptyString => Malformed
              end
          | _ => Malformed
          end
      | Malformed => Malformed
      | Beyond => Beyond
      end
  end.

(** After the value only whitespace may follow ("Extra data"). *)
Definition finish (d : gmap string string) (rest : string) : scan (gmap string string) :=
  match skip_ws rest with
  | EmptyString => Scanned d
  | String _ _ => Malformed
  end.

(** [json.loads(s)]. *)
Definition loads (s : string) : scan (gmap string string) :=
  match skip_ws s with
  | EmptyString => Malformed
  | String "{"%char s1 =>
      match skip_ws s1 with
      | EmptyString => Malformed
      | String "}"%char s2 => finish ∅ s2
      | String c s2 =>
          if Ascii.eqb c Py.dquote then
            match members (S (String.length s2)) s2 ∅ with
            | Scanned (d, rest) => finish d rest
            | Malformed => Malformed
            | Beyond => Beyond
            end
          else Malformed
      end
  | String c _ =>
      if Ascii.eqb c Py.dquote || starts_other_value c then Beyond else Malformed
  end.

End Json.

(** ** The process and its surroundings *)

Inductive exn : Type :=
| ValueError
| KeyError (key : string)
| NameError (name : string)
| IndexError
| IOError
| RedisError          (* redis.ConnectionError, redis.TimeoutError *)
| PagerDutyError      (* anything raised inside monitorlib.pagerduty *)
| SMTPError           (* socket.error or smtplib.SMTPException *)
| URLError            (* urllib2.URLError, urllib2.HTTPError *)
| SystemExit (code : nat)
| SyntaxError.        (* raised by the compiler, before the file runs *)

Inductive loglevel : Type := DEBUG | INFO | ERROR.

(** The dictionary built by [set_redis_config]. *)
Record redis_config : Type := {
  writer : string;
  reader : string;
  writer_port : string;
  reader_port : string;
  passwd : string;
  db : string }.

(** The object returned by [redis.Redis(host, port, db, password,
    socket_timeout=...)]; creating it opens no connection. *)
Record connection : Type := {
  conn_host : string;
  conn_port : string;
  conn_db : string;
  conn_password : string;
  socket_timeout : nat }.

Inductive pd_store_config : Type :=
| PdRedis (conf : redis_config)
| PdFile (path : string).

(** What a run does to the outside, in order. *)
Inductive effect : Type :=
| Logging (level : loglevel) (text : string)
| Print (text : string)
| RedisGet (conn : connection) (key : string)
| Popen (command : string)
| FileWrite (path content : string)
| PagerSetDatastore (kind : string) (config : pd_store_config)
| PagerAuthenticate (key : string)
| PagerEvent (action summary : string)
| SmtpConnect (host : string)
| SmtpSendmail (from to subject : string) (body : gmap string string)
| UrlOpen (url : string) (body : gmap string string)
| SocketConnect (host port : string)
| SocketSendall (payload : gmap string string)
| PrintMapping (d : gmap string string).

(** Module-level names of [collectd.py].  [FQDN], [INTERVAL] and [CALLER]
    are bound at import; [DATASTORE] starts as [None]; the others exist
    only once their setter has run ([None] here: the name is not in
    [globals()]). *)
Record globals : Type := {
  FQDN : string;
  INTERVAL : string;
  CALLER : string;
  DATASTORE : option string;
  PD_KEY : option string;
  REDIS_CONFIG : option redis_config;
  STATE_DIR : option string;
  PD_STORAGE_CONFIGURED : bool }.

Inductive node : Type :=
| Dir (writable : bool)
| File (readable writable : bool) (content : string).

(** The services the process talks to.  Each flag says whether the call
    goes through; when it does not, the call raises. *)
Record environment : Type := {
  redis_module : bool;                    (* [import redis] succeeded *)
  redis_reachable : bool;
  redis_store : gmap string string;
  USER : option string;                   (* [os.getenv('USER')] *)
  chown_grants : option (bool * bool);    (* access to the file after
                                             [sudo chown], if it worked *)
  pd_set_datastore : option bool;         (* its return value, if any *)
  pd_authenticate_ok : bool;
  pd_event_ok : bool;
  smtp_connect_ok : bool;
  smtp_sendmail_ok : bool;
  urlopen_ok : bool;
  socket_ok : bool }.

Record world : Type := {
  globs : globals;
  env : environment;
  fs : gmap string node }.

Definition with_globs (g : globals) (w : world) : world :=
  {| globs := g; env := env w; fs := fs w |}.

Definition with_fs (f : gmap string node) (w : world) : world :=
  {| globs := globs w; env := env w; fs := f |}.

(** ** The monad: state, effects written in order, exceptions *)

Inductive result (A : Type) : Type :=
| Ok (a : A)
| Raise (e : exn)
| Unmodelled.        (* the run left the modelled fragment: see [Json]
                        and [unmodelled] *)
Arguments Ok {A} a.
Arguments Raise {A} e.
Arguments Unmodelled {A}.

Definition M (A : Type) : Type := world -> result A * world * list effect.

Definition ret {A} (a : A) : M A := fun w => (Ok a, w, []).

Definition bind {A B} (m : M A) (k : A -> M B) : M B :=
  fun w =>
    match m w with
    | (Ok a, w1, e1) =>
        match k a w1 with
        | (r, w2, e2) => (r, w2, e1 ++ e2)
        end
    | (Raise x, w1, e1) => (Raise x, w1, e1)
    | (Unmodelled, w1, e1) => (Unmodelled, w1, e1)
    end.

Definition raise {A} (x : exn) : M A := fun w => (Raise x, w, []).

(** The values decoded by [json.loads] are [unicode] with the standard
    library and [str] with simplejson, so an operation that mixes them with
    a byte string holding a byte above 127 raises or not according to the
    library installed.  Such runs, and the texts [Json] answers [Beyond]
    on, end here: the embedding says nothing about them. *)
Definition unmodelled {A} : M A := fun w => (Unmodelled, w, []).
Definition perform (e : effect) : M unit := fun w => (Ok tt, w, [e]).
Definition get_world : M world := fun w => (Ok w, w, []).
Definition put_world (w' : world) : M unit := fun _ => (Ok tt, w', []).

Notation "'let*' x ':=' c1 'in' c2" := (bind c1 (fun x => c2))
  (at level 10, x name, c1 at level 100, c2 at level 200).
Notation "c1 ;; c2" := (bind c1 (fun _ => c2))
  (at level 100, c2 at level 200, right associativity).

Definition result_of {A} (o : result A * world * list effect) : result A := fst (fst o).
Definition world_of {A} (o : result A * world * list effect) : world := snd (fst o).
Definition effects_of {A} (o : result A * world * list effect) : list effect := snd o.

(** [prepend es o]: the outcome [o], after the effects [es]. *)
Definition prepend {A} (es : list effect) (o : result A * world * list effect)
  : result A * world * list effect :=
  (result_of o, world_of o, es ++ effects_of o).

(** *** Primitives shared by both modules *)

Definition logging (level : loglevel) (text : string) : M unit :=
  perform (Logging level text).

(** [d[k]] *)
Definition getitem (d : gmap string string) (k : string) : M string :=
  match d !! k with
  | Some v => ret v
  | None => raise (KeyError k)
  end.

Definition json_loads (text : string) : M (gmap string string) :=
  match Json.loads text with
  | Json.Scanned d => ret d
  | Json.Malformed => raise ValueError
  | Json.Beyond => unmodelled
  end.

(** [urllib2.urlopen(urllib2.Request(url, json.dumps(message), ...))] and
    reading the response. *)
Definition urlopen (url : string) (message : gmap string string) : M unit :=
  perform (UrlOpen url message) ;;
  let* w := get_world in
  if urlopen_ok (env w) then ret tt else raise URLError.

(** *** The file system, as far as the state files need it

    Paths are keys.  Causes of [IOError] other than a missing or
    inaccessible node (a full disk, a directory that cannot be searched)
    are left out. *)

Definition os_path_exists (path : string) : M bool :=
  let* w := get_world in
  ret (match fs w !! path with Some _ => true | None => false end).

(** [os.access(path, os.W_OK)] *)
Definition os_access_W_OK (path : string) : M bool :=
  let* w := get_world in
  ret (match fs w !! path with
       | Some (Dir wr) => wr
       | Some (File _ wr _) => wr
       | None => false
       end).

Definition has_slash (s : string) : bool := Py.contains "/" s.

(** The directory a new file [path] would be created in. *)
Fixpoint dirname (path : string) : string :=
  match path with
  | EmptyString => EmptyString
  | String c rest => if has_slash rest then String c (dirname rest) else EmptyString
  end.

(** [with open(path, 'r') as fh: fh.readline()] *)
Definition read_first_line (path : string) : M string :=
  let* w := get_world in
  match fs w !! path with
  | Some (File true _ content) => ret (Py.readline content)
  | _ => raise IOError
  end.

(** [open(path, 'w')]: an existing file is truncated, a missing one is
    created in its directory. *)
Definition open_for_writing (path : string) : M unit :=
  let* w := get_world in
  match fs w !! path with
  | Some (File r true _) =>
      put_world (with_fs (<[path := File r true EmptyString]> (fs w)) w)
  | Some (File _ false _) => raise IOError
  | Some (Dir _) => raise IOError
  | None =>
      match fs w !! dirname path with
      | Some (Dir true) =>
          put_world (with_fs (<[path := File true true EmptyString]> (fs w)) w)
      | _ => raise IOError
      end
  end.

(** [fh.write(content)] and the close that follows, on the file just
    opened at [path]. *)
Definition fh_write (path content : string) : M unit :=
  let* w := get_world in
  match fs w !! path with
  | Some (File r wr _) =>
      put_world (with_fs (<[path := File r wr content]> (fs w)) w) ;;
      perform (FileWrite path content)
  | _ => raise IOError
  end.

(** ** [monitorlib/collectd.py] *)

Module Collectd.

Definition set_globals (f : globals -> globals) : M unit :=
  let* w := get_world in put_world (with_globs (f (globs w)) w).

Definition set_datastore (store : option string) : M unit :=
  set_globals (fun g =>
    {| FQDN := FQDN g; INTERVAL := INTERVAL g; CALLER := CALLER g;
       DATASTORE := store; PD_KEY := PD_KEY g;
       REDIS_CONFIG := REDIS_CONFIG g; STATE_DIR := STATE_DIR g;
       PD_STORAGE_CONFIGURED := PD_STORAGE_CONFIGURED g |}).

Definition set_pagerduty_key (key : string) : M unit :=
  set_globals (fun g =>
    {| FQDN := FQDN g; INTERVAL := INTERVAL g; CALLER := CALLER g;
       DATASTORE := DATASTORE g; PD_KEY := Some key;
       REDIS_CONFIG := REDIS_CONFIG g; STATE_DIR := STATE_DIR g;
       PD_STORAGE_CONFIGURED := PD_STORAGE_CONFIGURED g |}).

Definition set_redis_config
    (writer_host reader_host writer_port reader_port password db : string) : M unit :=
  set_globals (fun g =>
    {| FQDN := FQDN g; INTERVAL := INTERVAL g; CALLER := CALLER g;
       DATASTORE := DATASTORE g; PD_KEY := PD_KEY g;
       REDIS_CONFIG := Some {| writer := writer_host; reader := reader_host;
                               writer_port := writer_port;
                               reader_port := reader_port;
                               passwd := password; db := db |};
       STATE_DIR := STATE_DIR g;
       PD_STORAGE_CONFIGURED := PD_STORAGE_CONFIGURED g |}) ;;
  set_datastore (Some "redis").

(** [def set_state_dir(dir="/tmp")] *)
Definition set_state_dir (dir : string) : M unit :=
  set_globals (fun g =>
    {| FQDN := FQDN g; INTERVAL := INTERVAL g; CALLER := CALLER g;
       DATASTORE := DATASTORE g; PD_KEY := PD_KEY g;
       REDIS_CONFIG := REDIS_CONFIG g; STATE_DIR := Some dir;
       PD_STORAGE_CONFIGURED := PD_STORAGE_CONFIGURED g |}).

Definition mark_pd_storage_configured : M unit :=
  set_globals (fun g =>
    {| FQDN := FQDN g; INTERVAL := INTERVAL g; CALLER := CALLER g;
       DATASTORE := DATASTORE g; PD_KEY := PD_KEY g;
       REDIS_CONFIG := REDIS_CONFIG g; STATE_DIR := STATE_DIR g;
       PD_STORAGE_CONFIGURED := true |}).

Definition post_to_url (message : gmap string string) (url : string) : M unit :=
  urlopen url message.

(** Modelled from the spec: the module [monitorlib/pagerduty.py] is not
    among the sources.  Section 1 of the specification gives the pager
    client the capabilities "authenticate(key)" and "event(action,
    summary)"; [set_datastore(kind, config)] is known from its call in
    [set_pagerduty_store], which tests its return value.  Each is an
    effect whose outcome the environment decides. *)
Definition pagerduty_set_datastore (kind : string) (config : pd_store_config) : M bool :=
  perform (PagerSetDatastore kind config) ;;
  let* w := get_world in
  match pd_set_datastore (env w) with
  | Some b => ret b
  | None => raise PagerDutyError
  end.

Definition pagerduty_authenticate (key : string) : M unit :=
  perform (PagerAuthenticate key) ;;
  let* w := get_world in
  if pd_authenticate_ok (env w) then ret tt else raise PagerDutyError.

Definition pagerduty_event (action summary : string) : M unit :=
  perform (PagerEvent action summary) ;;
  let* w := get_world in
  if pd_event_ok (env w) then ret tt else raise PagerDutyError.

Definition set_pagerduty_store (kind : string) (config : pd_store_config) : M unit :=
  let* configured := pagerduty_set_datastore kind config in
  if configured then mark_pd_storage_configured else ret tt.

(** Lines 148-154: "if not already done, call config function to set
    defaults". *)
Definition ensure_pagerduty_store : M unit :=
  let* w := get_world in
  if negb (PD_STORAGE_CONFIGURED (globs w)) then
    match REDIS_CONFIG (globs w) with
    | Some conf => set_pagerduty_store "redis" (PdRedis conf)
    | None =>
        match STATE_DIR (globs w) with
        | Some dir =>
            set_pagerduty_store "file"
              (PdFile (Py.lstrip "/" dir +:+ "/incident_keys"))
        | None => ret tt
        end
    end
  else ret tt.

Definition send_to_pagerduty (key : string) (message : gmap string string) : M unit :=
  ensure_pagerduty_store ;;
  pagerduty_authenticate key ;;
  let* host := getitem message "host" in
  let* plugin := getitem message "plugin" in
  let* severity := getitem message "severity" in
  let* text := getitem message "message" in
  let send_string :=
    host +:+ " " +:+ plugin +:+ ": " +:+ Py.upper severity +:+ " " +:+ text in
  let* severity := getitem message "severity" in
  if Py.contains "okay" severity then
    pagerduty_event "resolve" send_string
  else
    (* ['failure' or 'warning' in message['serverity']]: the left operand
       of [or] is a non-empty string, so the right one is not evaluated *)
    let* cond :=
      if Py.truthy "failure" then ret true
      else let* s := getitem message "serverity" in
           ret (Py.contains "warning" s) in
    if cond then pagerduty_event "trigger" send_string else ret tt.

Definition send_to_email (address : string) (message : gmap string string) : M unit :=
  perform (Print ("emailing:  " +:+ address)) ;;
  let* host := getitem message "host" in
  let* plugin := getitem message "plugin" in
  let* text := getitem message "message" in
  let alert_subject := host +:+ " " +:+ plugin +:+ ": " +:+ text in
  let me := "collectd@krux.com" in
  let you := address in
  let* severity := getitem message "severity" in
  let subject := "[collectd] " +:+ Py.upper severity +:+ " " +:+ alert_subject in
  perform (SmtpConnect "localhost") ;;
  let* w := get_world in
  if negb (smtp_connect_ok (env w)) then raise SMTPError
  else
    perform (SmtpSendmail me you subject message) ;;
    if smtp_sendmail_ok (env w) then ret tt else raise SMTPError.

(** [subprocess.Popen(command, shell=True, ...).communicate()] *)
Definition cmd (command : string) : M unit := perform (Popen command).

(** What [sudo chown <user> <path>] leaves behind: the access the
    environment grants, if the command worked. *)
Definition chown_takes_effect (path : string) : M unit :=
  let* w := get_world in
  match chown_grants (env w), fs w !! path with
  | Some (r, wr), Some (File _ _ content) =>
      put_world (with_fs (<[path := File r wr content]> (fs w)) w)
  | _, _ => ret tt
  end.

Definition redis_Redis (host port db password : string) (timeout : nat) : M connection :=
  let* w := get_world in
  if redis_module (env w) then
    ret {| conn_host := host; conn_port := port; conn_db := db;
           conn_password := password; socket_timeout := timeout |}
  else raise (NameError "redis").

(** [bool(conn)]: the client class defines neither [__nonzero__] nor
    [__len__]. *)
Definition conn_truthy (conn : connection) : bool := true.

Definition conn_get (conn : connection) (key : string) : M (option string) :=
  perform (RedisGet conn key) ;;
  let* w := get_world in
  if redis_reachable (env w) then ret (redis_store (env w) !! key)
  else raise RedisError.

(** [value and ('*' in value or message['plugin'] in value)] *)
Definition acks_cover (value : option string) (message : gmap string string) : M bool :=
  match value with
  | None => ret false
  | Some v =>
      if Py.truthy v then
        if Py.contains "*" v then ret true
        else let* plugin := getitem message "plugin" in
             if Py.is_ascii v then ret (Py.contains plugin v)
             else unmodelled
      else ret false
  end.

Definition check_redis_alerts_disabled (message : gmap string string) : M bool :=
  let* w := get_world in
  match REDIS_CONFIG (globs w) with
  | None => raise (NameError "REDIS_CONFIG")
  | Some conf =>
      let* conn := redis_Redis (reader conf) (reader_port conf) (db conf) (passwd conf) 2 in
      if negb (conn_truthy conn) then ret false
      else
        let* global_acks := conn_get conn "global" in
        let* hit := acks_cover global_acks message in
        if hit then ret true
        else
          let* host := getitem message "host" in
          let* result := conn_get conn host in
          let* hit := acks_cover result message in
          if hit then ret true else ret false
  end.

(** [FQDN.split('.')[0]] *)
Definition short_hostname (fqdn : string) : string :=
  match Py.split "." fqdn with
  | label :: _ => label
  | [] => EmptyString
  end.

Definition quoted (s : string) : string :=
  String Py.dquote s +:+ String Py.dquote EmptyString.

(** The text handed to [json.loads]: the format string of
    [dispatch_alert] with its four [%s] filled in. *)
Definition event_text (host plugin severity message : string) : string :=
  "{" +:+ quoted "host" +:+ ": " +:+ quoted host +:+ ", " +:+
  quoted "plugin" +:+ ": " +:+ quoted plugin +:+ ", " +:+
  quoted "severity" +:+ ": " +:+ quoted severity +:+ ", " +:+
  quoted "message" +:+ ": " +:+ quoted message +:+ "}".

(** [DATASTORE and 'redis' in DATASTORE] *)
Definition datastore_is_redis (store : option string) : bool :=
  match store with
  | Some s => Py.truthy s && Py.contains "redis" s
  | None => false
  end.

(** Lines 246-258: the [state] variable, from the state file. *)
Definition last_state (state_file : string) (message : gmap string string) : M string :=
  let* present := os_path_exists state_file in
  if present then
    let* writable := os_access_W_OK state_file in
    (if negb writable then
       let* w := get_world in
       let user := match USER (env w) with Some u => u | None => "None" end in
       cmd ("sudo chown " +:+ user +:+ " " +:+ state_file) ;;
       chown_takes_effect state_file
     else ret tt) ;;
    let* prev_state := read_first_line state_file in
    let* severity := getitem message "severity" in
    if negb (Py.is_ascii prev_state) then unmodelled
    else if negb (Py.contains prev_state severity) then ret "transitioned"
    else ret "new"
  else ret "new".

(** Lines 228-231: the condition under which [dispatch_alert] bails out
    as suppressed. *)
Definition alerts_disabled (message : gmap string string) : M bool :=
  let* w := get_world in
  if datastore_is_redis (DATASTORE (globs w)) then
    match REDIS_CONFIG (globs w) with
    | None => logging ERROR "must call redis_config(), first" ;; ret false
    | Some _ => check_redis_alerts_disabled message
    end
  else ret false.

(** Lines 260-262: "write the current state". *)
Definition write_state (state_file : string) (message : gmap string string) : M unit :=
  open_for_writing state_file ;;
  let* severity := getitem message "severity" in
  fh_write state_file severity.

(** Lines 264-277: the sinks, given the [state] variable. *)
Definition fan_out (state : string) (message : gmap string string)
    (page : bool) (email url : option string) : M unit :=
  (if page && Py.contains "transitioned" state then
     let* w := get_world in
     match PD_KEY (globs w) with
     | None => logging ERROR "must call set_pagerduty_key(), first"
     | Some key => send_to_pagerduty key message
     end
   else ret tt) ;;
  (if Py.truthy_opt email && Py.contains "transitioned" state then
     match email with
     | Some address => send_to_email address message
     | None => ret tt
     end
   else ret tt) ;;
  (if Py.truthy_opt url then
     match url with
     | Some u => post_to_url message u
     | None => ret tt
     end
   else ret tt).

Definition dispatch_alert (severity message : string)
    (page : bool) (email url : option string) : M unit :=
  let* w := get_world in
  let* message :=
    json_loads (event_text (short_hostname (FQDN (globs w))) (CALLER (globs w))
                           severity message) in
  let* disabled := alerts_disabled message in
  if disabled then
    let* host := getitem message "host" in
    let* plugin := getitem message "plugin" in
    logging INFO ("alerting disabled, supressing alert for: " +:+ host +:+ ", " +:+ plugin)
  else
    (match STATE_DIR (globs w) with
     | None => set_state_dir "/tmp"
     | Some _ => ret tt
     end) ;;
    let* w := get_world in
    match STATE_DIR (globs w) with
    | None => raise (NameError "STATE_DIR")
    | Some state_dir =>
        let* plugin := getitem message "plugin" in
        let state_file := state_dir +:+ "/" +:+ plugin in
        let* dir_exists := os_path_exists state_dir in
        let* dir_writable :=
          if dir_exists then os_access_W_OK state_dir else ret false in
        if negb dir_exists || negb dir_writable then
          logging ERROR "state_dir: no such file or directory, or unwritable"
        else
          let* state := last_state state_file message in
          write_state state_file message ;;
          fan_out state message page email url
    end.

Definition failure (text : string) (page : bool) (email url : option string) : M unit :=
  dispatch_alert "failure" text page email url.

Definition warning (text : string) (page : bool) (email url : option string) : M unit :=
  dispatch_alert "warning" text page email url.

Definition ok (text : string) (page : bool) (email url : option string) : M unit :=
  dispatch_alert "okay" text page email url.

(** [metric(path, value)] for an integer [value], which [%s] prints in
    decimal. *)
Definition metric (path : string) (value : Z) : M string :=
  let* w := get_world in
  ret ("PUTVAL " +:+ FQDN (globs w) +:+ "/" +:+ path +:+ " interval=" +:+
       INTERVAL (globs w) +:+ " N:" +:+ pretty value).

End Collectd.

(** ** [monitorlib/bin/collectd_notify.py]

    Line 100 of the file reads [else] without its colon.  The compiler
    rejects the whole file, so the script as shipped ends with a
    SyntaxError before its first statement and none of its functions is
    ever defined.  [convert_to_json], [send_to_socket] and [post_to_url]
    are the function bodies as they are written; [main] is the script as
    the interpreter treats it. *)

Module CollectdNotify.

(** [line.split(":")[1].lstrip(' ')] *)
Definition field (line : string) : result string :=
  match Py.index (Py.split ":" line) 1 with
  | Some f => Ok (Py.lstrip " " f)
  | None => Raise IndexError
  end.

(** The body of the [for] loop: one line, applied to [output]. *)
Definition convert_line (output : gmap string string) (line : string)
  : result (gmap string string) :=
  if Py.contains "Severity" line then
    match field line with
    | Ok v => Ok (<["Severity" := v]> output)
    | Raise e => Raise e
    | Unmodelled => Unmodelled
    end
  else if Py.contains "Time" line then
    match field line with
    | Ok v => Ok (<["Time" := v]> output)
    | Raise e => Raise e
    | Unmodelled => Unmodelled
    end
  else if Py.contains "Host" line then
    match field line with
    | Ok v => Ok (<["Host" := v]> output)
    | Raise e => Raise e
    | Unmodelled => Unmodelled
    end
  else if 0 <? String.length line then Ok (<["Message" := line]> output)
  else Ok output.

Fixpoint convert_lines (lines : list string) (output : gmap string string)
  : result (gmap string string) :=
  match lines with
  | [] => Ok output
  | line :: rest =>
      match convert_line output line with
      | Ok output' => convert_lines rest output'
      | Raise e => Raise e
      | Unmodelled => Unmodelled
      end
  end.

Definition convert_to_json (message : string) : result (gmap string string) :=
  convert_lines (Py.split Py.newline message) ∅.

(** The [try] covers [int(port)], the connect and the send; the bare
    [except] turns any failure into a log line. *)
Definition send_to_socket (message : gmap string string) (host port : string) : M unit :=
  perform (SocketConnect host port) ;;
  let* w := get_world in
  if socket_ok (env w) then perform (SocketSendall message)
  else logging ERROR ("sending data to " +:+ host +:+ " failed").

Definition post_to_url (message : gmap string string) (url : string) : M unit :=
  urlopen url message.

Record options : Type := {
  debug : bool;
  http_server : option string;
  server : option string }.

(** The script, whatever its options and its standard input: the
    [__main__] block (lines 73-101) is never entered, because the [else]
    of line 100 has no colon and the file does not compile. *)
Definition main (opts : options) (stdin : string) : M unit :=
  raise SyntaxError.

(** The status the interpreter exits with: 0 at the end of the script, the
    argument of [sys.exit], 1 after an exception nobody caught. *)
Definition exit_code (r : result unit) : option nat :=
  match r with
  | Ok _ => Some 0
  | Raise (SystemExit n) => Some n
  | Raise _ => Some 1
  | Unmodelled => None
  end.

End CollectdNotify.

(** ** The specification's own wording, for comparison *)

Module Spec.

Inductive classification : Type := FirstObservation | Unchanged | Transitioned.

(** Section 4.4: "case-insensitive, substring-tolerant compare ...
    whether previous is contained in current's text". *)
Definition classify (previous : option string) (current : string) : classification :=
  match previous with
  | None => FirstObservation
  | Some s =>
      if Py.contains (Py.lower s) (Py.lower current) then Unchanged
      else Transitioned
  end.

(** Section 4.2: "if present and equal to [*] or containing plugin". *)
Definition directive_covers (value : option string) (plugin : string) : bool :=
  match value with
  | None => false
  | Some v => String.eqb v "*" || Py.contains plugin v
  end.

Definition is_suppressed (store : gmap string string) (host plugin : string) : bool :=
  directive_covers (store !! "global") plugin
  || directive_covers (store !! host) plugin.

(** Section 6: "split on the first colon and store the trimmed
    remainder". *)
Fixpoint after_first_colon (line : string) : string :=
  match line with
  | EmptyString => EmptyString
  | String c rest => if Ascii.eqb c ":" then rest else after_first_colon rest
  end.

Fixpoint trim_leading (s : string) : string :=
  match s with
  | EmptyString => EmptyString
  | String c rest => if Ascii.is_space c then trim_leading rest else s
  end.

Definition remainder (line : string) : string :=
  trim_leading (after_first_colon line).

End Spec.

(** ** Vocabulary of the properties *)

Definition is_pager_effect (e : effect) : bool :=
  match e with
  | PagerSetDatastore _ _ | PagerAuthenticate _ | PagerEvent _ _ => true
  | _ => false
  end.

Definition is_email_effect (e : effect) : bool :=
  match e with
  | Print _ | SmtpConnect _ | SmtpSendmail _ _ _ _ => true
  | _ => false
  end.

Definition is_webhook_effect (e : effect) : bool :=
  match e with UrlOpen _ _ => true | _ => false end.

Definition is_sink_effect (e : effect) : bool :=
  is_pager_effect e || is_email_effect e || is_webhook_effect e.

Definition is_pager_event (e : effect) : bool :=
  match e with PagerEvent _ _ => true | _ => false end.

Definition is_file_write (e : effect) : bool :=
  match e with FileWrite _ _ => true | _ => false end.

Definition is_logging (e : effect) : bool :=
  match e with Logging _ _ => true | _ => false end.

Definition is_popen (e : effect) : bool :=
  match e with Popen _ => true | _ => false end.

(** What the suppression step of [dispatch_alert] may do: query the store,
    or complain that [set_redis_config] was not called. *)
Definition is_lookup_effect (e : effect) : bool :=
  match e with
  | RedisGet _ _ => true
  | Logging ERROR text => String.eqb text "must call redis_config(), first"
  | _ => false
  end.

(** What the sinks may do: their calls, and the complaint that
    [set_pagerduty_key] was not called. *)
Definition is_fan_out_effect (e : effect) : bool :=
  match e with
  | Logging ERROR text => String.eqb text "must call set_pagerduty_key(), first"
  | _ => is_sink_effect e
  end.

Definition is_lookup_exn (x : exn) : bool :=
  match x with
  | RedisError | NameError _ | KeyError _ => true
  | _ => false
  end.

Definition is_storage_exn (x : exn) : bool :=
  match x with
  | IOError | KeyError _ => true
  | _ => false
  end.

Definition is_sink_exn (x : exn) : bool :=
  match x with
  | PagerDutyError | SMTPError | URLError => true
  | _ => false
  end.

(** Whether the call behind a sink effect goes through in environment
    [e]. *)
Definition call_succeeds (e : environment) (eff : effect) : bool :=
  match eff with
  | PagerSetDatastore _ _ =>
      match pd_set_datastore e with Some _ => true | None => false end
  | PagerAuthenticate _ => pd_authenticate_ok e
  | PagerEvent _ _ => pd_event_ok e
  | SmtpConnect _ => smtp_connect_ok e
  | SmtpSendmail _ _ _ _ => smtp_sendmail_ok e
  | UrlOpen _ _ => urlopen_ok e
  | _ => true
  end.

(** The effects that follow the first sink call that does not go through,
    if there is one. *)
Fixpoint after_first_failure (e : environment) (effs : list effect)
  : option (list effect) :=
  match effs with
  | [] => None
  | eff :: rest =>
      if call_succeeds e eff then after_first_failure e rest else Some rest
  end.

Definition is_pager_exn (x : exn) : bool :=
  match x with PagerDutyError => true | _ => false end.

Definition is_smtp_exn (x : exn) : bool :=
  match x with SMTPError => true | _ => false end.

Definition is_url_exn (x : exn) : bool :=
  match x with URLError => true | _ => false end.

Definition is_pd_key_log (e : effect) : bool :=
  match e with
  | Logging ERROR text => String.eqb text "must call set_pagerduty_key(), first"
  | _ => false
  end.

(** How a run over the sinks may end in environment [e]: normally, when
    every call went through; with a sink's exception, when the last call
    made is the first that did not go through; with a [KeyError], when
    every call made went through. *)
Definition sink_outcome {A} (e : environment) (r : result A) (effs : list effect) : Prop :=
  match r with
  | Ok _ => after_first_failure e effs = None
  | Raise x =>
      if is_sink_exn x then after_first_failure e effs = Some []
      else after_first_failure e effs = None /\ exists k, x = KeyError k
  | Unmodelled => False
  end.

(** A step of a sink, run in world [w]: it leaves the environment and the
    files alone, its effects are of its [kind], it ends as [sink_outcome]
    says, and the sink exceptions it raises are among [raises]. *)
Definition sink_run {A} (kind : effect -> bool) (raises : exn -> bool) (w : world)
    (o : result A * world * list effect) : Prop :=
  env (world_of o) = env w /\ fs (world_of o) = fs w
  /\ forallb kind (effects_of o) = true
  /\ sink_outcome (env w) (result_of o) (effects_of o)
  /\ match result_of o with
     | Raise x => is_sink_exn x = true -> raises x = true
     | _ => True
     end.

(** The world once [dispatch_alert] has made sure [STATE_DIR] is set. *)
Definition with_state_dir (w : world) : world :=
  match STATE_DIR (globs w) with
  | None => world_of (Collectd.set_state_dir "/tmp" w)
  | Some _ => w
  end.

(** The two log lines that precede the early [return None]s of
    [dispatch_alert]. *)
Definition suppression_message (host plugin : string) : string :=
  "alerting disabled, supressing alert for: " +:+ host +:+ ", " +:+ plugin.

Definition is_suppression_log (e : effect) : bool :=
  match e with
  | Logging INFO text => Py.startswith "alerting disabled, supressing alert for: " text
  | _ => false
  end.

Definition state_dir_message : string :=
  "state_dir: no such file or directory, or unwritable".

Definition is_state_dir_log (e : effect) : bool :=
  match e with
  | Logging ERROR text => String.eqb text state_dir_message
  | _ => false
  end.

(** Effects that are neither a sink's, nor a state write, nor one of the
    two log lines above. *)
Definition is_quiet (e : effect) : bool :=
  negb (is_sink_effect e) && negb (is_file_write e)
  && negb (is_suppression_log e) && negb (is_state_dir_log e).

Definition suppressed (effs : list effect) : bool := existsb is_suppression_log effs.
Definition storage_aborted (effs : list effect) : bool := existsb is_state_dir_log effs.

(** The text [dispatch_alert] decodes in world [w]. *)
Definition event_source (w : world) (severity text : string) : string :=
  Collectd.event_text (Collectd.short_hostname (FQDN (globs w))) (CALLER (globs w))
                      severity text.

(** The state directory in force: [STATE_DIR], or the default of
    [set_state_dir]. *)
Definition state_dir_of (w : world) : string :=
  match STATE_DIR (globs w) with Some d => d | None => "/tmp" end.

Definition state_file_of (w : world) (plugin : string) : string :=
  state_dir_of w +:+ "/" +:+ plugin.

(** [os.path.exists(d) and os.access(d, os.W_OK)] *)
Definition dir_usable (f : gmap string node) (d : string) : bool :=
  match f !! d with
  | Some (Dir wr) => wr
  | Some (File _ wr _) => wr
  | None => false
  end.

(** What [last_state] reads as previous state: the first line of the state
    file, if there is one. *)
Definition previous_state (f : gmap string node) (path : string) : option string :=
  match f !! path with
  | Some (File _ _ content) => Some (Py.readline content)
  | _ => None
  end.

(** A file that [last_state] can read and [write_state] can open as it
    stands: a readable and writable file whose first line is ASCII, or no
    file yet where one can be created. *)
Definition file_ready (f : gmap string node) (path : string) : bool :=
  match f !! path with
  | Some (File true true content) => Py.is_ascii (Py.readline content)
  | Some _ => false
  | None =>
      match f !! dirname path with
      | Some (Dir true) => true
      | _ => false
      end
  end.

(** The state file of [plugin] in the state directory [dir] is ready: it
    is a readable and writable file whose first line is ASCII, or there is
    no such file yet, [dir] is a writable directory and the plugin's name
    has no slash. *)
Definition state_file_ready (f : gmap string node) (dir plugin : string) : bool :=
  match f !! (dir +:+ "/" +:+ plugin) with
  | Some (File true true content) => Py.is_ascii (Py.readline content)
  | Some _ => false
  | None =>
      negb (has_slash plugin)
      && match f !! dir with
         | Some (Dir true) => true
         | _ => false
         end
  end.

(** The three classes of the specification, told apart the way
    [last_state] does: by the presence of the state file and by [in]. *)
Definition classification_of (previous : option string) (severity : string)
  : Spec.classification :=
  match previous with
  | None => Spec.FirstObservation
  | Some p => if Py.contains p severity then Spec.Unchanged else Spec.Transitioned
  end.

(** The value of the [state] variable in each class. *)
Definition state_text (c : Spec.classification) : string :=
  match c with
  | Spec.FirstObservation => "new"
  | Spec.Unchanged => "new"
  | Spec.Transitioned => "transitioned"
  end.

(** The three severities of the public functions [ok], [warning] and
    [failure], with the text each passes to [dispatch_alert]. *)
Inductive severity_level : Type := SevOk | SevWarning | SevFailure.

Definition severity_text (l : severity_level) : string :=
  match l with
  | SevOk => "okay"
  | SevWarning => "warning"
  | SevFailure => "failure"
  end.

(** A suppression value that covers [plugin], as [acks_cover] decides. *)
Definition directive_matches (value : option string) (plugin : string) : bool :=
  match value with
  | Some v => Py.truthy v && (Py.contains "*" v || Py.contains plugin v)
  | None => false
  end.

(** Characters a JSON string literal holds as they are. *)
Definition json_plain_char (c : ascii) : bool :=
  let n := nat_of_ascii c in
  (32 <=? n) && (n <? 128) && negb (Ascii.eqb c Py.dquote) && negb (Ascii.eqb c Py.backslash).

Fixpoint json_plain (s : string) : bool :=
  match s with
  | EmptyString => true
  | String c s' => json_plain_char c && json_plain s'
  end.

(** The text between the first and the second colon of a line (up to the
    end of the line when there is one colon only). *)
Fixpoint until_colon (s : string) : string :=
  match s with
  | EmptyString => EmptyString
  | String c rest => if Ascii.eqb c ":" then EmptyString else String c (until_colon rest)
  end.

Fixpoint second_field (line : string) : option string :=
  match line with
  | EmptyString => None
  | String c rest => if Ascii.eqb c ":" then Some (until_colon rest) else second_field rest
  end.

(** The key a line goes under, by the order of the tests in
    [convert_to_json]. *)
Definition line_key (line : string) : option string :=
  if Py.contains "Severity" line then Some "Severity"
  else if Py.contains "Time" line then Some "Time"
  else if Py.contains "Host" line then Some "Host"
  else if 0 <? String.length line then Some "Message"
  else None.

Definition is_message_line (line : string) : bool :=
  match line_key line with
  | Some k => String.eqb k "Message"
  | None => false
  end.

(** Whether a line goes under [key]. *)
Definition has_key (key line : string) : bool :=
  match line_key line with
  | Some k => String.eqb k key
  | None => false
  end.

(** The value a line is stored with: the line itself under [Message],
    [line.split(":")[1].lstrip(' ')] under the other keys; none for a blank
    line, and none where [[1]] is out of range. *)
Definition line_value (line : string) : option string :=
  match line_key line with
  | Some k =>
      if String.eqb k "Message" then Some line
      else match second_field line with
           | Some f => Some (Py.lstrip " " f)
           | None => None
           end
  | None => None
  end.

(** A line on which [convert_to_json] raises: it goes under [Severity],
    [Time] or [Host] and has no colon. *)
Definition breaks (line : string) : bool :=
  match line_key line, line_value line with
  | Some _, None => true
  | _, _ => false
  end.

(** ** Sample processes *)

Module Sample.

Definition globals0 : globals :=
  {| FQDN := "web1.example.com"; INTERVAL := "60"; CALLER := "check_disk.py";
     DATASTORE := None; PD_KEY := Some "0123abcd"; REDIS_CONFIG := None;
     STATE_DIR := None; PD_STORAGE_CONFIGURED := false |}.

Definition env0 : environment :=
  {| redis_module := true; redis_reachable := true; redis_store := ∅;
     USER := Some "collectd"; chown_grants := None;
     pd_set_datastore := Some true; pd_authenticate_ok := true;
     pd_event_ok := true; smtp_connect_ok := true; smtp_sendmail_ok := true;
     urlopen_ok := true; socket_ok := true |}.

(** A host whose [/tmp] is writable and holds no state file yet. *)
Definition fresh : world :=
  {| globs := globals0; env := env0; fs := {[ "/tmp" := Dir true ]} |}.

(** The same host after an earlier [ok]. *)
Definition after_ok : world :=
  {| globs := globals0; env := env0;
     fs := {[ "/tmp" := Dir true; "/tmp/check_disk.py" := File true true "okay" ]} |}.

(** A state file left by another tool, in capitals. *)
Definition after_OKAY : world :=
  {| globs := globals0; env := env0;
     fs := {[ "/tmp" := Dir true; "/tmp/check_disk.py" := File true true "OKAY" ]} |}.

(** No state directory at all. *)
Definition no_state_dir : world :=
  {| globs := globals0; env := env0; fs := ∅ |}.

Definition env_no_smtp : environment :=
  {| redis_module := true; redis_reachable := true; redis_store := ∅;
     USER := Some "collectd"; chown_grants := None;
     pd_set_datastore := Some true; pd_authenticate_ok := true;
     pd_event_ok := true; smtp_connect_ok := false; smtp_sendmail_ok := true;
     urlopen_ok := true; socket_ok := true |}.

(** [after_ok] on a host without a local mail server. *)
Definition after_ok_no_smtp : world :=
  {| globs := globals0; env := env_no_smtp;
     fs := {[ "/tmp" := Dir true; "/tmp/check_disk.py" := File true true "okay" ]} |}.

Definition env_pager_down : environment :=
  {| redis_module := true; redis_reachable := true; redis_store := ∅;
     USER := Some "collectd"; chown_grants := None;
     pd_set_datastore := Some true; pd_authenticate_ok := false;
     pd_event_ok := true; smtp_connect_ok := true; smtp_sendmail_ok := true;
     urlopen_ok := true; socket_ok := true |}.

(** [after_ok] with a pager key the pager service refuses. *)
Definition after_ok_pager_down : world :=
  {| globs := globals0; env := env_pager_down;
     fs := {[ "/tmp" := Dir true; "/tmp/check_disk.py" := File true true "okay" ]} |}.

Definition redis_conf : redis_config :=
  {| writer := "redis-w"; reader := "redis-r"; writer_port := "6379";
     reader_port := "6379"; passwd := "secret"; db := "db0" |}.

Definition globals_redis : globals :=
  {| FQDN := "myhost.example.com"; INTERVAL := "60"; CALLER := "diskcheck";
     DATASTORE := Some "redis"; PD_KEY := None; REDIS_CONFIG := Some redis_conf;
     STATE_DIR := Some "/var/tmp"; PD_STORAGE_CONFIGURED := false |}.

Definition env_with_store (reachable : bool) (store : gmap string string) : environment :=
  {| redis_module := true; redis_reachable := reachable; redis_store := store;
     USER := Some "collectd"; chown_grants := None;
     pd_set_datastore := Some true; pd_authenticate_ok := true;
     pd_event_ok := true; smtp_connect_ok := true; smtp_sendmail_ok := true;
     urlopen_ok := true; socket_ok := true |}.

Definition with_store (reachable : bool) (store : gmap string string) : world :=
  {| globs := globals_redis; env := env_with_store reachable store;
     fs := {[ "/var/tmp" := Dir true ]} |}.

Definition event (host plugin severity text : string) : gmap string string :=
  {[ "host" := host; "plugin" := plugin; "severity" := severity; "message" := text ]}.

(** Two messages a check script may well pass: a Windows path, and a
    text that quotes a word. *)
Definition windows_path : string := "C:" +:+ String Py.backslash "temp is full".

Definition quoting : string :=
  "x" +:+ String Py.dquote (", " +:+ String Py.dquote ("note" +:+
    String Py.dquote (": " +:+ String Py.dquote "y"))).

Definition nl : string := String Py.newline EmptyString.

(** The notification of the specification's example. *)
Definition notification : string :=
  "Severity: FAILURE" +:+ nl +:+ "Time: 100" +:+ nl +:+ "Host: h.example.com"
  +:+ nl +:+ nl +:+ "Disk full".

Definition no_options : CollectdNotify.options :=
  {| CollectdNotify.debug := false; CollectdNotify.http_server := None;
     CollectdNotify.server := None |}.

End Sample.

(** * Properties *)

(** ** Strings *)

Lemma append_cons (c : ascii) (s t : string) : String c s +:+ t = String c (s +:+ t).
Proof. reflexivity. Qed.

Lemma append_empty_l (t : string) : EmptyString +:+ t = t.
Proof. reflexivity. Qed.

Lemma startswith_empty (s : string) : Py.startswith EmptyString s = true.
Proof. destruct s; reflexivity. Qed.

Lemma contains_empty (s : string) : Py.contains EmptyString s = true.
Proof. destruct s; reflexivity. Qed.

Lemma startswith_refl (s : string) : Py.startswith s s = true.
Proof.
  induction s as [|c s IH]; [reflexivity|].
  simpl. rewrite Ascii.eqb_refl. exact IH.
Qed.

Lemma contains_refl (s : string) : Py.contains s s = true.
Proof.
  destruct s as [|c s]; [reflexivity|].
  unfold Py.contains; fold Py.contains.
  rewrite startswith_refl. reflexivity.
Qed.

Lemma split_head (s : string) :
  exists fields, Py.split ":" s = until_colon s :: fields.
Proof.
  induction s as [|c s [fields IH]]; simpl.
  - eexists; reflexivity.
  - destruct (Ascii.eqb c ":").
    + eexists; reflexivity.
    + rewrite IH. eexists; reflexivity.
Qed.

Lemma split_second (line : string) :
  Py.index (Py.split ":" line) 1 = second_field line.
Proof.
  unfold Py.index.
  induction line as [|c s IH]; simpl; [reflexivity|].
  destruct (Ascii.eqb c ":").
  - destruct (split_head s) as [fields ->]. reflexivity.
  - destruct (split_head s) as [fields E]. rewrite E in *. exact IH.
Qed.

(** ** The forwarder's parser *)

Lemma field_second (line : string) :
  CollectdNotify.field line =
  match second_field line with
  | Some f => Ok (Py.lstrip " " f)
  | None => Raise IndexError
  end.
Proof. unfold CollectdNotify.field. rewrite split_second. reflexivity. Qed.

Lemma convert_line_keyed (output : gmap string string) (line key : string) :
  line_key line = Some key -> key <> "Message" ->
  CollectdNotify.convert_line output line =
  match second_field line with
  | Some f => Ok (<[key := Py.lstrip " " f]> output)
  | None => Raise IndexError
  end.
Proof.
  unfold line_key, CollectdNotify.convert_line. intros Hk Hne.
  rewrite field_second.
  repeat match type of Hk with
  | (if ?b then _ else _) = _ => destruct b
  end; inversion Hk; subst; try congruence;
  destruct (second_field line); reflexivity.
Qed.

Lemma convert_line_message (output : gmap string string) (line : string) :
  is_message_line line = true ->
  CollectdNotify.convert_line output line = Ok (<["Message" := line]> output).
Proof.
  unfold is_message_line, line_key, CollectdNotify.convert_line.
  destruct (Py.contains "Severity" line); [discriminate|].
  destruct (Py.contains "Time" line); [discriminate|].
  destruct (Py.contains "Host" line); [discriminate|].
  destruct (0 <? String.length line); [reflexivity | discriminate].
Qed.

Lemma convert_line_keeps_message (output output' : gmap string string) (line : string) :
  is_message_line line = false ->
  CollectdNotify.convert_line output line = Ok output' ->
  output' !! "Message" = output !! "Message".
Proof.
  unfold is_message_line, line_key, CollectdNotify.convert_line.
  rewrite field_second.
  destruct (Py.contains "Severity" line).
  { destruct (second_field line); intros _ [= <-]. now rewrite lookup_insert_ne. }
  destruct (Py.contains "Time" line).
  { destruct (second_field line); intros _ [= <-]. now rewrite lookup_insert_ne. }
  destruct (Py.contains "Host" line).
  { destruct (second_field line); intros _ [= <-]. now rewrite lookup_insert_ne. }
  destruct (0 <? String.length line); [discriminate|].
  now intros _ [= <-].
Qed.

Lemma convert_lines_keep_message (lines : list string) :
  forall output output' : gmap string string,
  forallb (fun l => negb (is_message_line l)) lines = true ->
  CollectdNotify.convert_lines lines output = Ok output' ->
  output' !! "Message" = output !! "Message".
Proof.
  induction lines as [|line rest IH]; simpl; intros output output' Hall Hrun.
  - now inversion Hrun.
  - apply andb_prop in Hall as [Hline Hrest].
    apply negb_true_iff in Hline.
    destruct (CollectdNotify.convert_line output line) as [mid| |] eqn:E; try discriminate.
    rewrite (IH mid output' Hrest Hrun).
    eapply convert_line_keeps_message; eauto.
Qed.

Lemma convert_lines_app (before after : list string) :
  forall output output' : gmap string string,
  CollectdNotify.convert_lines (before ++ after) output = Ok output' ->
  exists mid, CollectdNotify.convert_lines before output = Ok mid
              /\ CollectdNotify.convert_lines after mid = Ok output'.
Proof.
  induction before as [|line rest IH]; simpl; intros output output' Hrun.
  - eauto.
  - destruct (CollectdNotify.convert_line output line) as [mid| |]; try discriminate.
    eauto.
Qed.

Lemma last_message_line_survives (before after : list string) (line : string)
    (output : gmap string string) :
  is_message_line line = true ->
  forallb (fun l => negb (is_message_line l)) after = true ->
  CollectdNotify.convert_lines (before ++ line :: after) ∅ = Ok output ->
  output !! "Message" = Some line.
Proof.
  intros Hline Hafter Hrun.
  apply convert_lines_app in Hrun as (mid & _ & Hrun).
  simpl in Hrun. rewrite (convert_line_message _ _ Hline) in Hrun.
  rewrite (convert_lines_keep_message _ _ _ Hafter Hrun).
  apply lookup_insert_eq.
Qed.

Lemma convert_line_spec (output : gmap string string) (line : string) :
  CollectdNotify.convert_line output line =
  match line_key line, line_value line with
  | Some k, Some v => Ok (<[k := v]> output)
  | Some _, None => Raise IndexError
  | None, _ => Ok output
  end.
Proof.
  unfold line_value, line_key, CollectdNotify.convert_line.
  rewrite field_second.
  destruct (Py.contains "Severity" line).
  { destruct (second_field line); reflexivity. }
  destruct (Py.contains "Time" line).
  { destruct (second_field line); reflexivity. }
  destruct (Py.contains "Host" line).
  { destruct (second_field line); reflexivity. }
  destruct (0 <? String.length line); reflexivity.
Qed.

Lemma has_key_iff (key line : string) :
  has_key key line = true <-> line_key line = Some key.
Proof.
  unfold has_key. destruct (line_key line) as [k|]; [|split; discriminate].
  rewrite String.eqb_eq. split; congruence.
Qed.

Lemma convert_lines_keep_key (key : string) (lines : list string) :
  forall output output' : gmap string string,
  forallb (fun l => negb (has_key key l)) lines = true ->
  CollectdNotify.convert_lines lines output = Ok output' ->
  output' !! key = output !! key.
Proof.
  induction lines as [|line rest IH]; simpl; intros output output' Hall Hrun.
  - now inversion Hrun.
  - apply andb_prop in Hall as [Hline Hrest].
    apply negb_true_iff in Hline.
    rewrite convert_line_spec in Hrun.
    destruct (line_key line) as [k|] eqn:Hk.
    + destruct (line_value line) as [v|]; [|discriminate].
      rewrite (IH _ _ Hrest Hrun).
      apply lookup_insert_ne. intros ->.
      apply has_key_iff in Hk. congruence.
    + apply (IH _ _ Hrest Hrun).
Qed.

Lemma last_line_of_a_key_survives (key line : string) (before after : list string)
    (output : gmap string string) :
  line_key line = Some key ->
  forallb (fun l => negb (has_key key l)) after = true ->
  CollectdNotify.convert_lines (before ++ line :: after) ∅ = Ok output ->
  output !! key = line_value line.
Proof.
  intros Hline Hafter Hrun.
  apply convert_lines_app in Hrun as (mid & _ & Hrun).
  simpl in Hrun. rewrite convert_line_spec, Hline in Hrun.
  destruct (line_value line) as [v|]; [|discriminate].
  rewrite (convert_lines_keep_key _ _ _ _ Hafter Hrun).
  apply lookup_insert_eq.
Qed.

Lemma convert_lines_outcome (lines : list string) :
  forall output : gmap string string,
  if existsb breaks lines
  then CollectdNotify.convert_lines lines output = Raise IndexError
  else exists parsed, CollectdNotify.convert_lines lines output = Ok parsed.
Proof.
  induction lines as [|line rest IH]; simpl; intros output.
  - eauto.
  - rewrite convert_line_spec. unfold breaks.
    destruct (line_key line) as [k|]; [destruct (line_value line) as [v|]|];
      cbn [orb]; solve [apply IH | reflexivity].
Qed.

(** C9.  The script as shipped stops at the SyntaxError of its line 100:
    whatever the options and the standard input, nothing is logged, parsed,
    printed or sent, and the interpreter exits with status 1; so empty
    standard input exits with status 1 without any delivery, as every
    other input does.  The body of [convert_to_json], as it is written,
    treats the lines of its input in order.  A line that contains
    [Severity], else [Time], else [Host] (tested in this order) is stored
    under that key with the text between its first and its second colon
    (up to the end of the line when it has one colon only), leading spaces
    removed; any other non-empty line is stored whole under [Message].
    For each key the last line of the input that goes under it is the one
    that survives, a key no line goes under is absent, and the result is
    an [IndexError] exactly when some line that goes under [Severity],
    [Time] or [Host] has no colon.  The notification of the
    specification's example parses to its four fields. *)
Theorem convert_to_json_line_by_line :
  forall (output : gmap string string) (keyed key line stdin : string)
         (before after : list string) (parsed : gmap string string)
         (opts : CollectdNotify.options) (w : world),
    CollectdNotify.main opts stdin w = (Raise SyntaxError, w, [])
    /\ CollectdNotify.exit_code (result_of (CollectdNotify.main opts stdin w)) = Some 1
    /\ (line_key keyed = Some key -> key <> "Message" ->
        CollectdNotify.convert_line output keyed =
        match second_field keyed with
        | Some f => Ok (<[key := Py.lstrip " " f]> output)
        | None => Raise IndexError
        end)
    /\ (is_message_line line = true ->
        CollectdNotify.convert_line output line = Ok (<["Message" := line]> output))
    /\ (Py.split Py.newline stdin = before ++ line :: after ->
        line_key line = Some key ->
        forallb (fun l => negb (has_key key l)) after = true ->
        CollectdNotify.convert_to_json stdin = Ok parsed ->
        parsed !! key = line_value line)
    /\ (forallb (fun l => negb (has_key key l)) (Py.split Py.newline stdin) = true ->
        CollectdNotify.convert_to_json stdin = Ok parsed ->
        parsed !! key = None)
    /\ (if existsb breaks (Py.split Py.newline stdin)
        then CollectdNotify.convert_to_json stdin = Raise IndexError
        else exists d, CollectdNotify.convert_to_json stdin = Ok d)
    /\ CollectdNotify.convert_to_json Sample.notification =
       Ok {[ "Severity" := "FAILURE"; "Time" := "100";
             "Host" := "h.example.com"; "Message" := "Disk full" ]}.
Proof.
  intros output keyed key line stdin before after parsed opts w.
  split; [reflexivity|].
  split; [reflexivity|].
  split; [apply convert_line_keyed|].
  split; [apply convert_line_message|].
  split.
  { unfold CollectdNotify.convert_to_json. intros ->.
    apply last_line_of_a_key_survives. }
  split.
  { unfold CollectdNotify.convert_to_json. intros Hall Hrun.
    rewrite (convert_lines_keep_key _ _ _ _ Hall Hrun). apply lookup_empty. }
  split; [apply convert_lines_outcome|].
  vm_compute; reflexivity.
Qed.

Lemma convert_to_json_line_by_line_witness :
  CollectdNotify.convert_line ∅ "Time: 12:30" = Ok {[ "Time" := "12" ]}
  /\ CollectdNotify.convert_line ∅ "Disk full" = Ok {[ "Message" := "Disk full" ]}
  /\ ({[ "Time" := "100"; "Message" := "Disk full" ]} : gmap string string)
       !! "Message" = line_value "Disk full"
  /\ ({[ "Time" := "100"; "Message" := "Disk full" ]} : gmap string string)
       !! "Host" = None.
Proof.
  pose proof (convert_to_json_line_by_line ∅ "Time: 12:30" "Time" "Disk full"
                ("Disk almost full" +:+ Sample.nl +:+ "Disk full" +:+ Sample.nl
                 +:+ "Time: 100")
                ["Disk almost full"] ["Time: 100"]
                {[ "Time" := "100"; "Message" := "Disk full" ]}
                Sample.no_options Sample.fresh) as (_ & _ & Hkeyed & Hmsg & _).
  pose proof (convert_to_json_line_by_line ∅ "Time: 12:30" "Message" "Disk full"
                ("Disk almost full" +:+ Sample.nl +:+ "Disk full" +:+ Sample.nl
                 +:+ "Time: 100")
                ["Disk almost full"] ["Time: 100"]
                {[ "Time" := "100"; "Message" := "Disk full" ]}
                Sample.no_options Sample.fresh) as (_ & _ & _ & _ & Hlast & _).
  pose proof (convert_to_json_line_by_line ∅ "Time: 12:30" "Host" "Disk full"
                ("Disk almost full" +:+ Sample.nl +:+ "Disk full" +:+ Sample.nl
                 +:+ "Time: 100")
                ["Disk almost full"] ["Time: 100"]
                {[ "Time" := "100"; "Message" := "Disk full" ]}
                Sample.no_options Sample.fresh) as (_ & _ & _ & _ & _ & Habsent & _).
  split; [apply Hkeyed; [reflexivity | discriminate]|].
  split; [apply Hmsg; reflexivity|].
  split; [apply Hlast; vm_compute; reflexivity|].
  apply Habsent; vm_compute; reflexivity.
Defined.

(** C9 fails on the code as shipped: on the notification of the
    specification's example the script neither parses nor forwards nor
    prints anything, and exits with status 1 on this input as on the empty
    one. *)
Lemma forwarder_script_does_not_start :
  let o := CollectdNotify.main Sample.no_options Sample.notification Sample.fresh in
  result_of o = Raise SyntaxError
  /\ effects_of o = []
  /\ CollectdNotify.exit_code (result_of o) = Some 1
  /\ CollectdNotify.exit_code
       (result_of (CollectdNotify.main Sample.no_options EmptyString Sample.fresh))
     = Some 1.
Proof. repeat split. Qed.

(** The function body, for its part, does not store the text after the
    first colon: the value ends at the second colon. *)
Lemma convert_to_json_stops_at_second_colon :
  Spec.remainder "Host: fe80::1" = "fe80::1"
  /\ CollectdNotify.convert_to_json "Host: fe80::1" = Ok {[ "Host" := "fe80" ]}
  /\ CollectdNotify.convert_to_json "Host: fe80::1"
     <> Ok {[ "Host" := Spec.remainder "Host: fe80::1" ]}.
Proof.
  split; [reflexivity|].
  split; [vm_compute; reflexivity|].
  intros H.
  assert (E : CollectdNotify.convert_to_json "Host: fe80::1" = Ok {[ "Host" := "fe80" ]})
    by (vm_compute; reflexivity).
  rewrite E in H.
  apply (f_equal (fun r : result (gmap string string) =>
                    match r with Ok m => m !! "Host" | _ => None end)) in H.
  rewrite !lookup_singleton_eq in H. discriminate.
Qed.

(** ** Running the monad *)

Lemma prepend_nil {A} (o : result A * world * list effect) : prepend [] o = o.
Proof. destruct o as [[r w] es]. reflexivity. Qed.

Lemma prepend_prepend {A} (e1 e2 : list effect) (o : result A * world * list effect) :
  prepend e1 (prepend e2 o) = prepend (e1 ++ e2) o.
Proof. destruct o as [[r w] es]. unfold prepend; simpl. now rewrite app_assoc. Qed.

Lemma result_of_prepend {A} es (o : result A * world * list effect) :
  result_of (prepend es o) = result_of o.
Proof. reflexivity. Qed.

Lemma world_of_prepend {A} es (o : result A * world * list effect) :
  world_of (prepend es o) = world_of o.
Proof. reflexivity. Qed.

Lemma effects_of_prepend {A} es (o : result A * world * list effect) :
  effects_of (prepend es o) = es ++ effects_of o.
Proof. reflexivity. Qed.

Lemma prepend_triple {A} es (r : result A) (w : world) (es' : list effect) :
  prepend es (r, w, es') = (r, w, es ++ es').
Proof. reflexivity. Qed.

Lemma bind_run {A B} (m : M A) (k : A -> M B) (w : world) :
  bind m k w =
  match result_of (m w) with
  | Ok a => prepend (effects_of (m w)) (k a (world_of (m w)))
  | Raise x => (Raise x, world_of (m w), effects_of (m w))
  | Unmodelled => (Unmodelled, world_of (m w), effects_of (m w))
  end.
Proof.
  unfold bind, prepend, result_of, world_of, effects_of.
  destruct (m w) as [[[a|x|] w1] e1]; try reflexivity.
  simpl. destruct (k a w1) as [[r w2] e2]. reflexivity.
Qed.

Lemma bind_ret {A B} (a : A) (k : A -> M B) (w : world) : bind (ret a) k w = k a w.
Proof. rewrite bind_run. simpl. apply prepend_nil. Qed.

Lemma bind_raise {A B} (x : exn) (k : A -> M B) (w : world) :
  bind (raise x) k w = (Raise x, w, []).
Proof. reflexivity. Qed.

Lemma bind_unmodelled {A B} (k : A -> M B) (w : world) :
  bind unmodelled k w = (Unmodelled, w, []).
Proof. reflexivity. Qed.

Lemma bind_perform {B} (e : effect) (k : unit -> M B) (w : world) :
  bind (perform e) k w = prepend [e] (k tt w).
Proof. rewrite bind_run. reflexivity. Qed.

Lemma bind_logging {B} (l : loglevel) (t : string) (k : unit -> M B) (w : world) :
  bind (logging l t) k w = prepend [Logging l t] (k tt w).
Proof. apply bind_perform. Qed.

Lemma bind_get_world {B} (k : world -> M B) (w : world) : bind get_world k w = k w w.
Proof. rewrite bind_run. simpl. apply prepend_nil. Qed.

Lemma bind_put_world {B} (w' : world) (k : unit -> M B) (w : world) :
  bind (put_world w') k w = k tt w'.
Proof. rewrite bind_run. simpl. apply prepend_nil. Qed.

Lemma bind_bind {A B C} (m : M A) (f : A -> M B) (g : B -> M C) (w : world) :
  bind (bind m f) g w = bind m (fun a => bind (f a) g) w.
Proof.
  unfold bind.
  destruct (m w) as [[[a|x|] w1] e1]; try reflexivity.
  destruct (f a w1) as [[[b|x|] w2] e2]; try reflexivity.
  destruct (g b w2) as [[r w3] e3]. now rewrite app_assoc.
Qed.

Lemma bind_getitem {B} (d : gmap string string) (key v : string)
    (k : string -> M B) (w : world) :
  d !! key = Some v -> bind (getitem d key) k w = k v w.
Proof. intros H. unfold getitem. rewrite H. apply bind_ret. Qed.

Lemma bind_getitem_missing {B} (d : gmap string string) (key : string)
    (k : string -> M B) (w : world) :
  d !! key = None -> bind (getitem d key) k w = (Raise (KeyError key), w, []).
Proof. intros H. unfold getitem. rewrite H. reflexivity. Qed.

Lemma run_logging (l : loglevel) (t : string) (w : world) :
  logging l t w = (Ok tt, w, [Logging l t]).
Proof. reflexivity. Qed.

Lemma run_ret {A} (a : A) (w : world) : ret a w = (Ok a, w, []).
Proof. reflexivity. Qed.

Lemma run_raise {A} (x : exn) (w : world) : @raise A x w = (Raise x, w, []).
Proof. reflexivity. Qed.

Lemma run_perform (e : effect) (w : world) : perform e w = (Ok tt, w, [e]).
Proof. reflexivity. Qed.

Create Rewrite HintDb run.
#[local] Hint Rewrite @bind_bind @bind_ret @bind_raise @bind_unmodelled @bind_perform
  @bind_logging @bind_get_world @bind_put_world @run_ret @run_raise run_perform
  run_logging @prepend_triple @prepend_prepend @result_of_prepend @world_of_prepend
  @effects_of_prepend : run.

Ltac run := autorewrite with run; cbn [globs env fs with_fs with_globs app].

(** The same, leaving [prepend] in place. *)
Create Rewrite HintDb steps.
#[local] Hint Rewrite @bind_bind @bind_ret @bind_raise @bind_unmodelled @bind_perform
  @bind_logging @bind_get_world @bind_put_world @prepend_prepend : steps.

Ltac steps := autorewrite with steps; cbn [globs env fs with_fs with_globs app].

Ltac step_as a x w1 e1 E :=
  rewrite bind_run;
  match goal with
  | |- context [result_of (?m ?w)] =>
      destruct (m w) as [[[a|x|] w1] e1] eqn:E;
      cbn [result_of world_of effects_of fst snd]
  end.

(** ** The pager sink *)

Lemma set_pagerduty_store_run (kind : string) (config : pd_store_config) (w : world) :
  let o := Collectd.set_pagerduty_store kind config w in
  env (world_of o) = env w /\ fs (world_of o) = fs w
  /\ effects_of o = [PagerSetDatastore kind config]
  /\ match pd_set_datastore (env w) with
     | Some _ => result_of o = Ok tt
     | None => result_of o = Raise PagerDutyError
     end.
Proof.
  unfold Collectd.set_pagerduty_store, Collectd.pagerduty_set_datastore.
  run.
  destruct (pd_set_datastore (env w)) as [[|]|]; run.
  - unfold Collectd.mark_pd_storage_configured, Collectd.set_globals.
    run. unfold put_world. cbn. auto.
  - cbn. auto.
  - cbn. auto.
Qed.

Lemma ensure_pagerduty_store_run (w : world) :
  let o := Collectd.ensure_pagerduty_store w in
  env (world_of o) = env w /\ fs (world_of o) = fs w
  /\ forallb is_pager_effect (effects_of o) = true
  /\ existsb is_pager_event (effects_of o) = false
  /\ (result_of o = Ok tt \/ result_of o = Raise PagerDutyError)
  /\ (pd_set_datastore (env w) <> None -> result_of o = Ok tt).
Proof.
  unfold Collectd.ensure_pagerduty_store. run.
  assert (Hstore : forall kind config,
    let o := Collectd.set_pagerduty_store kind config w in
    env (world_of o) = env w /\ fs (world_of o) = fs w
    /\ forallb is_pager_effect (effects_of o) = true
    /\ existsb is_pager_event (effects_of o) = false
    /\ (result_of o = Ok tt \/ result_of o = Raise PagerDutyError)
    /\ (pd_set_datastore (env w) <> None -> result_of o = Ok tt)).
  { intros kind config.
    destruct (set_pagerduty_store_run kind config w) as (He & Hf & Heff & Hres).
    cbv zeta. rewrite Heff. repeat split; auto.
    - destruct (pd_set_datastore (env w)); auto.
    - destruct (pd_set_datastore (env w)); congruence. }
  destruct (PD_STORAGE_CONFIGURED (globs w)); cbn [negb].
  - cbn. auto 10.
  - destruct (REDIS_CONFIG (globs w)); [apply Hstore|].
    destruct (STATE_DIR (globs w)); [apply Hstore|].
    cbn. auto 10.
Qed.

(** The events of one invocation of the pager sink on an event that has
    its four fields, once [ensure_pagerduty_store] and [authenticate] have
    gone through. *)
Lemma send_to_pagerduty_events (w : world) (key : string)
    (message : gmap string string) (host plugin severity text : string) :
  message !! "host" = Some host ->
  message !! "plugin" = Some plugin ->
  message !! "severity" = Some severity ->
  message !! "message" = Some text ->
  pd_authenticate_ok (env w) = true ->
  pd_set_datastore (env w) <> None ->
  List.filter is_pager_event
         (effects_of (Collectd.send_to_pagerduty key message w)) =
  [PagerEvent (if Py.contains "okay" severity then "resolve" else "trigger")
     (host +:+ " " +:+ plugin +:+ ": " +:+ Py.upper severity +:+ " " +:+ text)].
Proof.
  intros Hh Hp Hs Ht Hauth Hds.
  unfold Collectd.send_to_pagerduty.
  destruct (ensure_pagerduty_store_run w) as (He & _ & _ & Hnone & _ & Hok).
  specialize (Hok Hds).
  step_as a x w1 e1 E; cbn [result_of world_of effects_of fst snd] in *;
    try discriminate.
  unfold Collectd.pagerduty_authenticate. run.
  rewrite He, Hauth. run.
  rewrite (bind_getitem _ _ _ _ _ Hh), (bind_getitem _ _ _ _ _ Hp),
    (bind_getitem _ _ _ _ _ Hs), (bind_getitem _ _ _ _ _ Ht),
    (bind_getitem _ _ _ _ _ Hs).
  rewrite List.filter_app.
  assert (Hpre : List.filter is_pager_event e1 = []).
  { clear -Hnone. induction e1 as [|e es IH]; [reflexivity|].
    cbn in Hnone. apply orb_false_elim in Hnone as [He Hes].
    cbn. rewrite He. auto. }
  rewrite Hpre. cbn [app].
  destruct (Py.contains "okay" severity).
  - unfold Collectd.pagerduty_event. run.
    destruct (pd_event_ok (env w1)); reflexivity.
  - cbn [Py.truthy]. run.
    unfold Collectd.pagerduty_event. run.
    destruct (pd_event_ok (env w1)); reflexivity.
Qed.

Lemma no_pager_event (l : list effect) :
  existsb is_pager_event l = false -> List.filter is_pager_event l = [].
Proof.
  induction l as [|e es IH]; [reflexivity|].
  cbn. intros H. apply orb_false_elim in H as [He Hes].
  rewrite He. auto.
Qed.

(** Whatever the pager client answers, one invocation sends at most one
    event, and that event is the one the severity text calls for. *)
Lemma send_to_pagerduty_at_most_one (w : world) (key : string)
    (message : gmap string string) :
  let events :=
    List.filter is_pager_event (effects_of (Collectd.send_to_pagerduty key message w)) in
  events = []
  \/ exists host plugin severity text,
       message !! "host" = Some host /\ message !! "plugin" = Some plugin
       /\ message !! "severity" = Some severity /\ message !! "message" = Some text
       /\ events =
          [PagerEvent (if Py.contains "okay" severity then "resolve" else "trigger")
             (host +:+ " " +:+ plugin +:+ ": " +:+ Py.upper severity +:+ " " +:+ text)].
Proof.
  cbv zeta. unfold Collectd.send_to_pagerduty.
  destruct (ensure_pagerduty_store_run w) as (_ & _ & _ & Hnone & _ & _).
  apply no_pager_event in Hnone.
  step_as a x w1 e1 E; cbn [result_of world_of effects_of fst snd] in *;
    try (left; exact Hnone).
  rewrite effects_of_prepend, List.filter_app, Hnone. cbn [app].
  unfold Collectd.pagerduty_authenticate. run.
  destruct (pd_authenticate_ok (env w1)); run; [|left; reflexivity].
  destruct (message !! "host") as [host|] eqn:Hh;
    [rewrite (bind_getitem _ _ _ _ _ Hh)
    |rewrite (bind_getitem_missing _ _ _ _ Hh); left; reflexivity].
  destruct (message !! "plugin") as [plugin|] eqn:Hp;
    [rewrite (bind_getitem _ _ _ _ _ Hp)
    |rewrite (bind_getitem_missing _ _ _ _ Hp); left; reflexivity].
  destruct (message !! "severity") as [severity|] eqn:Hs;
    [rewrite (bind_getitem _ _ _ _ _ Hs)
    |rewrite (bind_getitem_missing _ _ _ _ Hs); left; reflexivity].
  destruct (message !! "message") as [text|] eqn:Ht;
    [rewrite (bind_getitem _ _ _ _ _ Ht)
    |rewrite (bind_getitem_missing _ _ _ _ Ht); left; reflexivity].
  rewrite (bind_getitem _ _ _ _ _ Hs).
  right. exists host, plugin, severity, text. repeat (split; [reflexivity|]).
  destruct (Py.contains "okay" severity).
  - unfold Collectd.pagerduty_event. run.
    destruct (pd_event_ok (env w1)); reflexivity.
  - cbn [Py.truthy]. run.
    unfold Collectd.pagerduty_event. run.
    destruct (pd_event_ok (env w1)); reflexivity.
Qed.

(** C8.  What the pager sink sends, in every invocation.  The event sent,
    if any, is [resolve] when the severity text contains [okay] and
    [trigger] for every other severity text; at most one event is sent;
    and exactly one is sent when the event has its four fields and the
    pager client answers up to there.  So on the three severities of [ok],
    [warning] and [failure] a [resolve] event is sent only for ok and a
    [trigger] event only for warning or failure. *)
Theorem pager_event_by_severity :
  forall (w : world) (key : string) (message : gmap string string),
    let effs := effects_of (Collectd.send_to_pagerduty key message w) in
    (forall action summary,
       In (PagerEvent action summary) effs ->
       exists severity,
         message !! "severity" = Some severity
         /\ action = (if Py.contains "okay" severity then "resolve" else "trigger"))
    /\ length (List.filter is_pager_event effs) <= 1
    /\ (forall host plugin severity text,
          message !! "host" = Some host ->
          message !! "plugin" = Some plugin ->
          message !! "severity" = Some severity ->
          message !! "message" = Some text ->
          pd_authenticate_ok (env w) = true ->
          pd_set_datastore (env w) <> None ->
          List.filter is_pager_event effs =
          [PagerEvent (if Py.contains "okay" severity then "resolve" else "trigger")
             (host +:+ " " +:+ plugin +:+ ": " +:+ Py.upper severity +:+ " " +:+ text)])
    /\ (forall level,
          message !! "severity" = Some (severity_text level) ->
          ((exists summary, In (PagerEvent "resolve" summary) effs) -> level = SevOk)
          /\ ((exists summary, In (PagerEvent "trigger" summary) effs) ->
              level = SevWarning \/ level = SevFailure)).
Proof.
  intros w key message effs.
  assert (Hin : forall action summary,
            In (PagerEvent action summary) effs <->
            In (PagerEvent action summary) (List.filter is_pager_event effs)).
  { intros action summary. rewrite List.filter_In. cbn. tauto. }
  assert (Hsent : forall action summary,
            In (PagerEvent action summary) effs ->
            exists severity,
              message !! "severity" = Some severity
              /\ action = (if Py.contains "okay" severity then "resolve" else "trigger")).
  { intros action summary H. apply Hin in H.
    destruct (send_to_pagerduty_at_most_one w key message)
      as [Hnone | (host & plugin & severity & text & _ & _ & Hs & _ & Hone)];
      fold effs in Hnone || fold effs in Hone.
    - rewrite Hnone in H. destruct H.
    - rewrite Hone in H. destruct H as [H|[]].
      exists severity. split; [exact Hs|]. congruence. }
  split; [exact Hsent|].
  split.
  { destruct (send_to_pagerduty_at_most_one w key message)
      as [Hnone | (host & plugin & severity & text & _ & _ & _ & _ & Hone)];
      fold effs in Hnone || fold effs in Hone.
    - rewrite Hnone. cbn. lia.
    - rewrite Hone. cbn. lia. }
  split.
  { intros host plugin severity text Hh Hp Hs Ht Hauth Hds.
    apply send_to_pagerduty_events; assumption. }
  intros level Hs. split.
  - intros [summary H]. destruct (Hsent _ _ H) as (severity & Hs' & Ha).
    assert (severity = severity_text level) as -> by congruence.
    destruct level; cbn in Ha; congruence.
  - intros [summary H]. destruct (Hsent _ _ H) as (severity & Hs' & Ha).
    assert (severity = severity_text level) as -> by congruence.
    destruct level; cbn in Ha; try discriminate; auto.
Qed.

Lemma pager_event_by_severity_witness :
  List.filter is_pager_event
    (effects_of (Collectd.send_to_pagerduty "0123abcd"
       (Sample.event "web1" "check_disk.py" "failure" "disk full") Sample.after_ok)) =
  [PagerEvent "trigger" "web1 check_disk.py: FAILURE disk full"].
Proof.
  exact (proj1 (proj2 (proj2
           (pager_event_by_severity Sample.after_ok "0123abcd"
              (Sample.event "web1" "check_disk.py" "failure" "disk full"))))
           "web1" "check_disk.py" "failure" "disk full"
           eq_refl eq_refl eq_refl eq_refl eq_refl ltac:(discriminate)).
Defined.

(** C8 fails outside the three severities: a severity that is neither
    warning nor failure, and does not contain [okay], triggers.  The
    [elif] of line 163 tests ['failure' or ...], which is true whatever the
    severity, and never reads the key [serverity] it names, which no event
    has. *)
Lemma pager_triggers_on_any_other_severity :
  let message := Sample.event "web1" "check_disk.py" "unknown" "?" in
  let o := Collectd.send_to_pagerduty "0123abcd" message Sample.after_ok in
  message !! "severity" = Some "unknown"
  /\ message !! "serverity" = None
  /\ result_of o = Ok tt
  /\ List.filter is_pager_event (effects_of o) =
     [PagerEvent "trigger" "web1 check_disk.py: UNKNOWN ?"].
Proof. repeat split; vm_compute; reflexivity. Qed.

(** ** The suppression lookup *)

Lemma acks_cover_run (value : option string) (message : gmap string string)
    (plugin : string) (w : world) :
  message !! "plugin" = Some plugin ->
  (forall v, value = Some v -> Py.is_ascii v = true) ->
  Collectd.acks_cover value message w = (Ok (directive_matches value plugin), w, []).
Proof.
  intros Hp Hascii. unfold Collectd.acks_cover, directive_matches.
  destruct value as [v|]; [|reflexivity].
  destruct (Py.truthy v); [|reflexivity].
  destruct (Py.contains "*" v); [reflexivity|].
  rewrite (bind_getitem _ _ _ _ _ Hp), (Hascii v eq_refl). reflexivity.
Qed.

Lemma acks_cover_quiet (value : option string) (message : gmap string string) (w : world) :
  let o := Collectd.acks_cover value message w in
  world_of o = w /\ effects_of o = []
  /\ match result_of o with Raise x => is_lookup_exn x = true | _ => True end.
Proof.
  unfold Collectd.acks_cover.
  destruct value as [v|]; [|now repeat split].
  destruct (Py.truthy v); [|now repeat split].
  destruct (Py.contains "*" v); [now repeat split|].
  unfold getitem. destruct (message !! "plugin"); run.
  - destruct (Py.is_ascii v); now repeat split.
  - now repeat split.
Qed.

Lemma conn_get_run (conn : connection) (key : string) (w : world) :
  Collectd.conn_get conn key w =
  (if redis_reachable (env w) then Ok (redis_store (env w) !! key) else Raise RedisError,
   w, [RedisGet conn key]).
Proof.
  unfold Collectd.conn_get. run.
  destruct (redis_reachable (env w)); reflexivity.
Qed.

Lemma check_redis_alerts_disabled_run (w : world) (conf : redis_config)
    (message : gmap string string) (host plugin : string) :
  REDIS_CONFIG (globs w) = Some conf ->
  redis_module (env w) = true ->
  redis_reachable (env w) = true ->
  message !! "host" = Some host ->
  message !! "plugin" = Some plugin ->
  (forall v, redis_store (env w) !! "global" = Some v -> Py.is_ascii v = true) ->
  (forall v, redis_store (env w) !! host = Some v -> Py.is_ascii v = true) ->
  result_of (Collectd.check_redis_alerts_disabled message w) =
  Ok (directive_matches (redis_store (env w) !! "global") plugin
      || directive_matches (redis_store (env w) !! host) plugin).
Proof.
  intros Hconf Hmod Hreach Hh Hp Hag Hah.
  unfold Collectd.check_redis_alerts_disabled, Collectd.redis_Redis.
  run. rewrite Hconf. run. rewrite Hmod. run.
  cbn [Collectd.conn_truthy negb].
  rewrite bind_run, conn_get_run, Hreach. cbn [result_of world_of effects_of fst snd].
  rewrite bind_run, (acks_cover_run _ _ _ _ Hp Hag).
  cbn [result_of world_of effects_of fst snd].
  destruct (directive_matches (redis_store (env w) !! "global") plugin);
    [reflexivity|].
  run. rewrite (bind_getitem _ _ _ _ _ Hh).
  rewrite bind_run, conn_get_run, Hreach. cbn [result_of world_of effects_of fst snd].
  rewrite bind_run, (acks_cover_run _ _ _ _ Hp Hah).
  cbn [result_of world_of effects_of fst snd].
  destruct (directive_matches (redis_store (env w) !! host) plugin); reflexivity.
Qed.

(** C6 (as amended).  With the store answering, the suppression query
    returns true if and only if the value under [global] is present, not
    empty, and contains [*] or the plugin name, or else the value under the
    host is present, not empty, and contains [*] or the plugin name.  In
    particular [global = "*"] suppresses every host and plugin, and a host
    record ["diskcheck"] (no [global] record) suppresses [diskcheck] on
    that host and not [netcheck]. *)
Theorem suppression_query_matches_directives :
  forall (w : world) (conf : redis_config) (message : gmap string string)
         (host plugin : string),
    REDIS_CONFIG (globs w) = Some conf ->
    redis_module (env w) = true ->
    redis_reachable (env w) = true ->
    message !! "host" = Some host ->
    message !! "plugin" = Some plugin ->
    (forall v, redis_store (env w) !! "global" = Some v -> Py.is_ascii v = true) ->
    (forall v, redis_store (env w) !! host = Some v -> Py.is_ascii v = true) ->
    let store := redis_store (env w) in
    let answer := result_of (Collectd.check_redis_alerts_disabled message w) in
    answer = Ok (directive_matches (store !! "global") plugin
                 || directive_matches (store !! host) plugin)
    /\ (store !! "global" = Some "*" -> answer = Ok true)
    /\ (store !! "global" = None -> store !! host = Some "diskcheck" ->
        (plugin = "diskcheck" -> answer = Ok true)
        /\ (plugin = "netcheck" -> answer = Ok false)).
Proof.
  intros w conf message host plugin Hconf Hmod Hreach Hh Hp Hag Hah store answer.
  assert (Hrun : answer = Ok (directive_matches (store !! "global") plugin
                              || directive_matches (store !! host) plugin))
    by (eapply check_redis_alerts_disabled_run; eauto).
  split; [exact Hrun|]. split.
  - intros Hg. rewrite Hrun, Hg. reflexivity.
  - intros Hg Hhost. rewrite Hrun, Hg, Hhost.
    split; intros ->; reflexivity.
Qed.

Lemma suppression_query_matches_directives_witness :
  let w := Sample.with_store true {[ "myhost" := "diskcheck" ]} in
  let answer := result_of (Collectd.check_redis_alerts_disabled
                             (Sample.event "myhost" "netcheck" "failure" "link down") w) in
  answer = Ok false.
Proof.
  intros w answer.
  assert (Hg : forall v, redis_store (env w) !! "global" = Some v -> Py.is_ascii v = true).
  { intros v Hv. vm_compute in Hv. discriminate. }
  assert (Hh : forall v, redis_store (env w) !! "myhost" = Some v -> Py.is_ascii v = true).
  { intros v Hv. vm_compute in Hv. injection Hv as <-. reflexivity. }
  pose proof (suppression_query_matches_directives w Sample.redis_conf
                (Sample.event "myhost" "netcheck" "failure" "link down")
                "myhost" "netcheck" eq_refl eq_refl eq_refl eq_refl eq_refl Hg Hh)
    as (_ & _ & H).
  exact (proj2 (H eq_refl eq_refl) eq_refl).
Defined.

(** C6 as stated fails on a value that contains [*] without being [*]:
    the query answers true where the specification's rule answers false. *)
Lemma suppression_query_star_inside_value :
  let w := Sample.with_store true {[ "global" := "cpu*" ]} in
  result_of (Collectd.check_redis_alerts_disabled
               (Sample.event "myhost" "diskcheck" "failure" "disk full") w) = Ok true
  /\ Spec.is_suppressed (redis_store (env w)) "myhost" "diskcheck" = false.
Proof. split; vm_compute; reflexivity. Qed.

Lemma check_redis_alerts_disabled_effects (w : world) (message : gmap string string) :
  let o := Collectd.check_redis_alerts_disabled message w in
  world_of o = w
  /\ forallb (fun e => match e with
                       | RedisGet conn _ => socket_timeout conn =? 2
                       | _ => false
                       end) (effects_of o) = true
  /\ match result_of o with Raise x => is_lookup_exn x = true | _ => True end.
Proof.
  unfold Collectd.check_redis_alerts_disabled, Collectd.redis_Redis. run.
  destruct (REDIS_CONFIG (globs w)) as [conf|]; [|now repeat split].
  run. destruct (redis_module (env w)); run; [|now repeat split].
  cbn [Collectd.conn_truthy negb].
  rewrite bind_run, conn_get_run.
  destruct (redis_reachable (env w)); cbn [result_of world_of effects_of fst snd];
    [|now repeat split].
  rewrite bind_run.
  destruct (acks_cover_quiet (redis_store (env w) !! "global") message w)
    as (Hw & He & Hr).
  rewrite Hw, He.
  destruct (result_of (Collectd.acks_cover _ message w)) as [[|]| |];
    try (now repeat split).
  run. unfold getitem. destruct (message !! "host") as [host|]; run;
    [|now repeat split].
  rewrite bind_run, conn_get_run.
  destruct (redis_reachable (env w)); cbn [result_of world_of effects_of fst snd];
    [|now repeat split].
  rewrite bind_run.
  destruct (acks_cover_quiet (redis_store (env w) !! host) message w)
    as (Hw' & He' & Hr').
  rewrite Hw', He'.
  destruct (result_of (Collectd.acks_cover _ message w)) as [[|]| |];
    now repeat split.
Qed.

(** C7 (as amended).  Every query of a suppression lookup goes through a
    client created with a socket timeout of 2; the lookup changes nothing
    in the process and writes no log line; and when the store answers, the
    lookup returns a boolean. *)
Theorem suppression_lookup_timeout_and_answer :
  forall (w : world) (message : gmap string string),
    let o := Collectd.check_redis_alerts_disabled message w in
    (forall conn key, In (RedisGet conn key) (effects_of o) -> socket_timeout conn = 2)
    /\ existsb is_logging (effects_of o) = false
    /\ world_of o = w
    /\ (forall conf host plugin,
          REDIS_CONFIG (globs w) = Some conf ->
          redis_module (env w) = true ->
          redis_reachable (env w) = true ->
          message !! "host" = Some host ->
          message !! "plugin" = Some plugin ->
          (forall v, redis_store (env w) !! "global" = Some v -> Py.is_ascii v = true) ->
          (forall v, redis_store (env w) !! host = Some v -> Py.is_ascii v = true) ->
          exists answer : bool, result_of o = Ok answer).
Proof.
  intros w message o.
  destruct (check_redis_alerts_disabled_effects w message) as (Hw & Heff & _).
  fold o in Hw, Heff.
  rewrite forallb_forall in Heff.
  split; [|split; [|split]].
  - intros conn key Hin. specialize (Heff _ Hin). cbn in Heff.
    now apply Nat.eqb_eq in Heff.
  - destruct (existsb is_logging (effects_of o)) eqn:E; [|reflexivity].
    apply existsb_exists in E as (e & Hin & He).
    specialize (Heff _ Hin). destruct e; discriminate.
  - exact Hw.
  - intros conf host plugin Hconf Hmod Hreach Hh Hp Hag Hah.
    eexists. eapply check_redis_alerts_disabled_run; eauto.
Qed.

Lemma suppression_lookup_timeout_and_answer_witness :
  exists answer : bool,
    result_of (Collectd.check_redis_alerts_disabled
                 (Sample.event "myhost" "diskcheck" "failure" "disk full")
                 (Sample.with_store true {[ "global" := "*" ]})) = Ok answer.
Proof.
  assert (Hg : forall v, ({[ "global" := "*" ]} : gmap string string) !! "global" = Some v ->
                         Py.is_ascii v = true).
  { intros v Hv. vm_compute in Hv. injection Hv as <-. reflexivity. }
  assert (Hh : forall v, ({[ "global" := "*" ]} : gmap string string) !! "myhost" = Some v ->
                         Py.is_ascii v = true).
  { intros v Hv. vm_compute in Hv. discriminate. }
  exact (proj2 (proj2 (proj2
           (suppression_lookup_timeout_and_answer
              (Sample.with_store true {[ "global" := "*" ]})
              (Sample.event "myhost" "diskcheck" "failure" "disk full"))))
           Sample.redis_conf "myhost" "diskcheck"
           eq_refl eq_refl eq_refl eq_refl eq_refl Hg Hh).
Defined.

(** C7 as stated fails when the store cannot be reached: the lookup
    raises, logs nothing, and [failure] passes the exception on to its
    caller. *)
Lemma suppression_lookup_raises_when_unreachable :
  let w := Sample.with_store false ∅ in
  let message := Sample.event "myhost" "diskcheck" "failure" "disk full" in
  result_of (Collectd.check_redis_alerts_disabled message w) = Raise RedisError
  /\ existsb is_logging
       (effects_of (Collectd.check_redis_alerts_disabled message w)) = false
  /\ result_of (Collectd.failure "disk full" false None None w) = Raise RedisError.
Proof. repeat split; vm_compute; reflexivity. Qed.

(** ** Decoding the event *)

Lemma append_assoc (a b c : string) : (a +:+ b) +:+ c = a +:+ (b +:+ c).
Proof.
  induction a as [|x a IH]; [reflexivity|].
  rewrite !append_cons. now rewrite IH.
Qed.

Lemma quoted_append (s rest : string) :
  Collectd.quoted s +:+ rest = String Py.dquote (s +:+ String Py.dquote rest).
Proof.
  unfold Collectd.quoted.
  rewrite !append_cons, append_assoc, append_cons, append_empty_l.
  reflexivity.
Qed.

Lemma json_plain_char_scan (c : ascii) :
  json_plain_char c = true ->
  Ascii.eqb c Py.dquote = false /\ Ascii.eqb c Py.backslash = false
  /\ Json.is_control c = false /\ Json.is_ascii c = true.
Proof.
  unfold json_plain_char, Json.is_control, Json.is_ascii. intros H.
  apply andb_prop in H as [H Hb]. apply andb_prop in H as [H Hq].
  apply andb_prop in H as [Hlo Hhi].
  apply negb_true_iff in Hb, Hq. apply Nat.leb_le in Hlo.
  repeat split; auto. apply Nat.ltb_ge. exact Hlo.
Qed.

(** A literal made of plain characters decodes to itself. *)
Lemma scanstring_plain (s rest : string) :
  json_plain s = true ->
  Json.scanstring (s +:+ String Py.dquote rest) = Json.Scanned (s, rest).
Proof.
  induction s as [|c s IH]; intros Hplain.
  - rewrite append_empty_l. reflexivity.
  - cbn [json_plain] in Hplain. apply andb_prop in Hplain as [Hc Hs].
    destruct (json_plain_char_scan c Hc) as (Hq & Hb & Hctl & Hasc).
    rewrite append_cons. cbn [Json.scanstring].
    rewrite Hq, Hb, Hctl, Hasc, (IH Hs). reflexivity.
Qed.

Ltac chars :=
  repeat (rewrite append_cons || rewrite append_empty_l);
  cbn [Json.skip_ws Json.is_ws Py.dquote Ascii.eqb Bool.eqb andb].

(** One round of the member loop, on a member that is followed by
    another. *)
Lemma members_step (fuel : nat) (key value rest : string) (acc : gmap string string) :
  json_plain key = true -> json_plain value = true ->
  Json.members (S fuel)
    (key +:+ String Py.dquote (": " +:+ String Py.dquote
       (value +:+ String Py.dquote (", " +:+ String Py.dquote rest)))) acc =
  Json.members fuel rest (<[key := value]> acc).
Proof.
  intros Hk Hv. cbn [Json.members].
  rewrite (scanstring_plain _ _ Hk). chars.
  rewrite (scanstring_plain _ _ Hv). chars.
  reflexivity.
Qed.

(** The last round, on a member followed by the closing brace. *)
Lemma members_last (fuel : nat) (key value rest : string) (acc : gmap string string) :
  json_plain key = true -> json_plain value = true ->
  Json.members (S fuel)
    (key +:+ String Py.dquote (": " +:+ String Py.dquote
       (value +:+ String Py.dquote (String "}" rest)))) acc =
  Json.Scanned (<[key := value]> acc, rest).
Proof.
  intros Hk Hv. cbn [Json.members].
  rewrite (scanstring_plain _ _ Hk). chars.
  rewrite (scanstring_plain _ _ Hv). chars.
  reflexivity.
Qed.

Lemma skip_ws_length (s : string) : String.length (Json.skip_ws s) <= String.length s.
Proof.
  induction s as [|c s IH]; cbn [Json.skip_ws String.length]; [lia|].
  destruct (Json.is_ws c); cbn [String.length]; lia.
Qed.

Lemma scanstring_shorter (n : nat) :
  forall s v rest, String.length s <= n ->
    Json.scanstring s = Json.Scanned (v, rest) -> String.length rest < String.length s.
Proof.
  induction n as [|n IH]; intros s v rest Hn Hscan.
  - destruct s; [discriminate | cbn in Hn; lia].
  - destruct s as [|c s]; [discriminate|].
    cbn [Json.scanstring] in Hscan. cbn [String.length] in *.
    destruct (Ascii.eqb c Py.dquote).
    { injection Hscan as _ <-. lia. }
    destruct (Ascii.eqb c Py.backslash).
    { destruct s as [|e s]; [discriminate|].
      destruct (Json.unescape e).
      - destruct (Json.scanstring s) as [[v' rest']| |] eqn:E; try discriminate.
        cbn in Hscan. injection Hscan as _ <-.
        cbn [String.length] in Hn.
        assert (String.length rest' < String.length s) by (eapply IH; eauto; lia).
        cbn [String.length]. lia.
      - destruct (Ascii.eqb e "u"); discriminate. }
    destruct (Json.is_control c); [discriminate|].
    destruct (Json.is_ascii c); [|discriminate].
    destruct (Json.scanstring s) as [[v' rest']| |] eqn:E; try discriminate.
    cbn in Hscan. injection Hscan as _ <-.
    assert (String.length rest' < String.length s) by (eapply IH; eauto; lia).
    lia.
Qed.

(** The fuel of the member loop never runs out: above the length of the
    text, its amount does not matter. *)
Lemma members_fuel (fuel : nat) :
  forall fuel' s acc,
    String.length s < fuel -> String.length s < fuel' ->
    Json.members fuel s acc = Json.members fuel' s acc.
Proof.
  induction fuel as [|fuel IH]; intros fuel' s acc Hf Hf'; [lia|].
  destruct fuel' as [|fuel']; [lia|].
  cbn [Json.members].
  destruct (Json.scanstring s) as [[key s1]| |] eqn:Ekey; try reflexivity.
  pose proof (scanstring_shorter _ s key s1 (le_n _) Ekey) as H1.
  pose proof (skip_ws_length s1) as H2.
  destruct (Json.skip_ws s1) as [|c1 s2]; [reflexivity|].
  cbn [String.length] in H2.
  destruct (Ascii.eqb c1 ":") eqn:Ecolon.
  2:{ destruct c1 as [[] [] [] [] [] [] [] []]; try reflexivity; discriminate. }
  apply Ascii.eqb_eq in Ecolon. subst c1.
  pose proof (skip_ws_length s2) as H3.
  destruct (Json.skip_ws s2) as [|c s3]; [reflexivity|].
  cbn [String.length] in H3.
  destruct (Ascii.eqb c Py.dquote); [|reflexivity].
  destruct (Json.scanstring s3) as [[value s4]| |] eqn:Evalue; try reflexivity.
  pose proof (scanstring_shorter _ s3 value s4 (le_n _) Evalue) as H4.
  pose proof (skip_ws_length s4) as H5.
  destruct (Json.skip_ws s4) as [|c4 s5]; [reflexivity|].
  cbn [String.length] in H5.
  destruct (Ascii.eqb c4 ",") eqn:Ecomma.
  2:{ destruct c4 as [[] [] [] [] [] [] [] []]; try reflexivity; discriminate. }
  apply Ascii.eqb_eq in Ecomma. subst c4.
  pose proof (skip_ws_length s5) as H6.
  destruct (Json.skip_ws s5) as [|c' s6]; [reflexivity|].
  cbn [String.length] in H6.
  destruct (Ascii.eqb c' Py.dquote); [|reflexivity].
  apply IH; lia.
Qed.

Lemma event_text_shape (host plugin severity text : string) :
  Collectd.event_text host plugin severity text =
  String "{" (String Py.dquote
    ("host" +:+ String Py.dquote (": " +:+ String Py.dquote
       (host +:+ String Py.dquote (", " +:+ String Py.dquote
    ("plugin" +:+ String Py.dquote (": " +:+ String Py.dquote
       (plugin +:+ String Py.dquote (", " +:+ String Py.dquote
    ("severity" +:+ String Py.dquote (": " +:+ String Py.dquote
       (severity +:+ String Py.dquote (", " +:+ String Py.dquote
    ("message" +:+ String Py.dquote (": " +:+ String Py.dquote
       (text +:+ String Py.dquote "}")))))))))))))))).
Proof.
  unfold Collectd.event_text.
  rewrite !quoted_append. reflexivity.
Qed.

(** The first three members of the event text, whatever the message. *)
Lemma loads_event_prefix (host plugin severity text : string) :
  json_plain host = true -> json_plain plugin = true -> json_plain severity = true ->
  exists fuel,
    Json.loads (Collectd.event_text host plugin severity text) =
    match Json.members (S fuel)
            ("message" +:+ String Py.dquote (": " +:+ String Py.dquote
               (text +:+ String Py.dquote "}")))
            (<["severity" := severity]> (<["plugin" := plugin]> (<["host" := host]> ∅)))
    with
    | Json.Scanned (d, rest) => Json.finish d rest
    | Json.Malformed => Json.Malformed
    | Json.Beyond => Json.Beyond
    end.
Proof.
  intros Hh Hp Hs. rewrite event_text_shape.
  unfold Json.loads.
  cbn [Json.skip_ws Json.is_ws Py.dquote Ascii.eqb Bool.eqb andb].
  match goal with
  | |- context [String.length ("host" +:+ ?x)] =>
      change (String.length ("host" +:+ x)) with (S (S (S (S (String.length x)))));
      generalize (String.length x); intros fuel
  end.
  exists (S fuel).
  rewrite (members_step _ "host" host _ _ eq_refl Hh).
  rewrite (members_step _ "plugin" plugin _ _ eq_refl Hp).
  rewrite (members_step _ "severity" severity _ _ eq_refl Hs).
  reflexivity.
Qed.

(** An event whose four fields are plain text decodes to those fields. *)
Lemma loads_event (host plugin severity text : string) :
  json_plain host = true -> json_plain plugin = true ->
  json_plain severity = true -> json_plain text = true ->
  Json.loads (Collectd.event_text host plugin severity text) =
  Json.Scanned (<["message" := text]> (<["severity" := severity]>
                  (<["plugin" := plugin]> (<["host" := host]> ∅)))).
Proof.
  intros Hh Hp Hs Ht.
  destruct (loads_event_prefix host plugin severity text Hh Hp Hs) as [fuel ->].
  rewrite (members_last _ "message" text _ _ eq_refl Ht). reflexivity.
Qed.

(** A message that is one double quote ends the literal early: the text
    is not JSON. *)
Lemma loads_lone_quote (host plugin severity : string) :
  json_plain host = true -> json_plain plugin = true -> json_plain severity = true ->
  Json.loads (Collectd.event_text host plugin severity (String Py.dquote EmptyString)) =
  Json.Malformed.
Proof.
  intros Hh Hp Hs.
  destruct (loads_event_prefix host plugin severity (String Py.dquote EmptyString)
              Hh Hp Hs) as [fuel ->].
  cbn [Json.members].
  rewrite (scanstring_plain "message" _ eq_refl). chars.
  reflexivity.
Qed.

Lemma event_fields (host plugin severity text : string) :
  let message : gmap string string :=
    <["message" := text]> (<["severity" := severity]>
      (<["plugin" := plugin]> (<["host" := host]> ∅))) in
  message !! "host" = Some host /\ message !! "plugin" = Some plugin
  /\ message !! "severity" = Some severity /\ message !! "message" = Some text.
Proof.
  cbv zeta.
  split; [|split; [|split]]; rewrite ?lookup_insert_ne by discriminate;
    apply lookup_insert_eq.
Qed.

(** ** The steps of a dispatch *)

Lemma alerts_disabled_run (message : gmap string string) (w : world) :
  let o := Collectd.alerts_disabled message w in
  world_of o = w
  /\ forallb is_lookup_effect (effects_of o) = true
  /\ match result_of o with Raise x => is_lookup_exn x = true | _ => True end.
Proof.
  unfold Collectd.alerts_disabled. run.
  destruct (Collectd.datastore_is_redis (DATASTORE (globs w))); [|now repeat split].
  destruct (REDIS_CONFIG (globs w)) as [conf|] eqn:Hconf; [|run; now repeat split].
  destruct (check_redis_alerts_disabled_effects w message) as (Hw & Heff & Hr).
  cbv zeta. split; [exact Hw|]. split; [|exact Hr].
  apply forallb_forall. intros e Hin.
  rewrite forallb_forall in Heff. specialize (Heff e Hin).
  destruct e; try discriminate. reflexivity.
Qed.

Lemma alerts_disabled_without_redis (message : gmap string string) (w : world) :
  Collectd.datastore_is_redis (DATASTORE (globs w)) = false ->
  Collectd.alerts_disabled message w = (Ok false, w, []).
Proof.
  intros H. unfold Collectd.alerts_disabled. run. rewrite H. reflexivity.
Qed.

Lemma previous_state_insert (f : gmap string node) (path : string) (r wr : bool)
    (content : string) :
  previous_state (<[path := File r wr content]> f) path = Some (Py.readline content).
Proof. unfold previous_state. now rewrite lookup_insert_eq. Qed.

Lemma last_state_run (state_file : string) (message : gmap string string) (w : world) :
  let o := Collectd.last_state state_file message w in
  globs (world_of o) = globs w /\ env (world_of o) = env w
  /\ (forall p, p <> state_file -> fs (world_of o) !! p = fs w !! p)
  /\ forallb is_popen (effects_of o) = true
  /\ match result_of o with
     | Ok state =>
         forall severity, message !! "severity" = Some severity ->
           state = state_text (classification_of (previous_state (fs w) state_file) severity)
     | Raise x => is_storage_exn x = true
     | Unmodelled => True
     end.
Proof.
  unfold Collectd.last_state, os_path_exists, os_access_W_OK. run.
  unfold previous_state.
  destruct (fs w !! state_file) as [[wr|r wr content]|] eqn:Hfile; run;
    rewrite ?Hfile.
  - (* a directory in the place of the state file *)
    assert (Hread : forall w', fs w' !! state_file = Some (Dir wr) ->
              forall k : string -> M string,
                bind (read_first_line state_file) k w' = (Raise IOError, w', [])).
    { intros w' Hw' k. unfold read_first_line. run. now rewrite Hw'. }
    destruct wr; cbn [negb]; run.
    + rewrite (Hread w Hfile). now repeat split.
    + unfold Collectd.cmd, Collectd.chown_takes_effect. run. rewrite Hfile.
      destruct (chown_grants (env w)) as [[r' wr']|]; run;
        rewrite (Hread w Hfile); now repeat split.
  - (* a state file *)
    assert (Hread : forall w' r' wr', fs w' !! state_file = Some (File r' wr' content) ->
              forall k : string -> M string,
                bind (read_first_line state_file) k w' =
                if r' then k (Py.readline content) w' else (Raise IOError, w', [])).
    { intros w' r' wr' Hw' k. unfold read_first_line. run. rewrite Hw'.
      destruct r'; run; reflexivity. }
    assert (Htail : forall w', globs w' = globs w -> env w' = env w ->
              (forall p, p <> state_file -> fs w' !! p = fs w !! p) ->
              forall es, forallb is_popen es = true ->
              let o := prepend es
                (bind (getitem message "severity") (fun severity =>
                   if negb (Py.is_ascii (Py.readline content)) then unmodelled
                   else if negb (Py.contains (Py.readline content) severity)
                        then ret "transitioned" else ret "new") w') in
              globs (world_of o) = globs w /\ env (world_of o) = env w
              /\ (forall p, p <> state_file -> fs (world_of o) !! p = fs w !! p)
              /\ forallb is_popen (effects_of o) = true
              /\ match result_of o with
                 | Ok state =>
                     forall severity, message !! "severity" = Some severity ->
                       state = state_text (classification_of
                                 (Some (Py.readline content)) severity)
                 | Raise x => is_storage_exn x = true
                 | Unmodelled => True
                 end).
    { intros w' Hg He Hf es Hes. unfold getitem.
      destruct (message !! "severity") as [severity|]; run.
      - destruct (Py.is_ascii (Py.readline content)); cbn [negb]; run.
        + unfold classification_of.
          destruct (Py.contains (Py.readline content) severity) eqn:Hc;
            cbn [negb]; run; cbn; rewrite app_nil_r; repeat split; auto;
            intros s [= <-]; rewrite Hc; reflexivity.
        + cbn. rewrite app_nil_r. now repeat split.
      - cbn. rewrite app_nil_r. now repeat split. }
    destruct wr; cbn [negb]; steps.
    + rewrite (Hread w r true Hfile).
      destruct r; [|now repeat split].
      specialize (Htail w eq_refl eq_refl (fun _ _ => eq_refl) [] eq_refl).
      rewrite prepend_nil in Htail. exact Htail.
    + unfold Collectd.cmd, Collectd.chown_takes_effect. steps. rewrite Hfile.
      destruct (chown_grants (env w)) as [[r' wr']|]; steps.
      * rewrite (Hread _ r' wr') by (cbn; apply lookup_insert_eq).
        destruct r'.
        -- apply Htail; try reflexivity.
           intros p Hp. cbn. now rewrite lookup_insert_ne.
        -- cbn. repeat split; auto.
           intros p Hp. now rewrite lookup_insert_ne.
      * rewrite (Hread w r false Hfile).
        destruct r.
        -- apply Htail; try reflexivity.
        -- now repeat split.
  - now repeat split.
Qed.

Lemma write_state_run (path : string) (message : gmap string string) (w : world) :
  let o := Collectd.write_state path message w in
  globs (world_of o) = globs w /\ env (world_of o) = env w
  /\ (forall p, p <> path -> fs (world_of o) !! p = fs w !! p)
  /\ match result_of o with
     | Ok _ =>
         exists r wr severity,
           message !! "severity" = Some severity
           /\ fs (world_of o) !! path = Some (File r wr severity)
           /\ effects_of o = [FileWrite path severity]
     | Raise x => is_storage_exn x = true /\ effects_of o = []
     | Unmodelled => False
     end.
Proof.
  unfold Collectd.write_state, open_for_writing, fh_write. run.
  assert (Hrest : forall r wr,
    let f' := <[path := File r wr EmptyString]> (fs w) in
    let o := bind (getitem message "severity") (fun severity =>
               bind get_world (fun w0 =>
                 match fs w0 !! path with
                 | Some (File r0 wr0 _) =>
                     bind (put_world (with_fs (<[path := File r0 wr0 severity]> (fs w0)) w0))
                          (fun _ => perform (FileWrite path severity))
                 | _ => raise IOError
                 end)) (with_fs f' w) in
    globs (world_of o) = globs w /\ env (world_of o) = env w
    /\ (forall p, p <> path -> fs (world_of o) !! p = fs w !! p)
    /\ match result_of o with
       | Ok _ =>
           exists r wr severity,
             message !! "severity" = Some severity
             /\ fs (world_of o) !! path = Some (File r wr severity)
             /\ effects_of o = [FileWrite path severity]
       | Raise x => is_storage_exn x = true /\ effects_of o = []
       | Unmodelled => False
       end).
  { intros r wr f'. unfold getitem.
    destruct (message !! "severity") as [severity|]; run.
    - subst f'. rewrite lookup_insert_eq. run. unfold put_world. cbn.
      repeat split.
      + intros p Hp. now rewrite !lookup_insert_ne.
      + exists r, wr, severity. rewrite lookup_insert_eq. auto.
    - cbn. repeat split; auto.
      intros p Hp. subst f'. now rewrite lookup_insert_ne. }
  destruct (fs w !! path) as [[wr|r [|] content]|] eqn:Hfile; run;
    try (now repeat split).
  - apply Hrest.
  - destruct (fs w !! dirname path) as [[[|]|]|]; run; try (now repeat split).
    apply Hrest.
Qed.

(** *** A state file that is ready *)

Lemma dirname_state_file (dir plugin : string) :
  has_slash plugin = false -> dirname (dir +:+ "/" +:+ plugin) = dir.
Proof.
  intros Hp. induction dir as [|c dir IH].
  - rewrite append_empty_l, append_cons, append_empty_l. cbn [dirname].
    rewrite Hp. reflexivity.
  - rewrite append_cons. cbn [dirname].
    assert (H : has_slash (dir +:+ "/" +:+ plugin) = true).
    { clear. unfold has_slash. induction dir as [|d dir IH].
      - rewrite append_empty_l, append_cons. reflexivity.
      - rewrite append_cons. cbn [Py.contains]. rewrite IH. apply orb_true_r. }
    rewrite H, IH. reflexivity.
Qed.

Lemma state_file_ready_file (f : gmap string node) (dir plugin : string) :
  state_file_ready f dir plugin = true -> file_ready f (dir +:+ "/" +:+ plugin) = true.
Proof.
  unfold state_file_ready, file_ready.
  destruct (f !! (dir +:+ "/" +:+ plugin)) as [[wr|r wr content]|]; auto.
  intros H. apply andb_prop in H as [Hp Hd]. apply negb_true_iff in Hp.
  now rewrite (dirname_state_file dir plugin Hp).
Qed.

Lemma last_state_ready (state_file : string) (message : gmap string string)
    (recorded : string) (w : world) :
  file_ready (fs w) state_file = true ->
  message !! "severity" = Some recorded ->
  Collectd.last_state state_file message w =
  (Ok (state_text (classification_of (previous_state (fs w) state_file) recorded)), w, []).
Proof.
  unfold file_ready, Collectd.last_state, os_path_exists, os_access_W_OK,
    previous_state, classification_of, read_first_line.
  intros Hready Hsev. run.
  destruct (fs w !! state_file) as [[wr|[|] [|] content]|] eqn:Hfile;
    try discriminate; run; rewrite ?Hfile; cbn [negb]; run; [|reflexivity].
  rewrite Hfile. run. rewrite (bind_getitem _ _ _ _ _ Hsev), Hready. cbn [negb].
  destruct (Py.contains (Py.readline content) recorded); reflexivity.
Qed.

Lemma write_state_ready (state_file : string) (message : gmap string string)
    (recorded : string) (w : world) :
  file_ready (fs w) state_file = true ->
  message !! "severity" = Some recorded ->
  let o := Collectd.write_state state_file message w in
  result_of o = Ok tt /\ effects_of o = [FileWrite state_file recorded]
  /\ globs (world_of o) = globs w /\ env (world_of o) = env w
  /\ fs (world_of o) !! state_file = Some (File true true recorded)
  /\ (forall p, p <> state_file -> fs (world_of o) !! p = fs w !! p).
Proof.
  unfold file_ready, Collectd.write_state, open_for_writing, fh_write.
  intros Hready Hsev. run.
  destruct (fs w !! state_file) as [[wr|[|] [|] content]|] eqn:Hfile;
    try discriminate; run.
  - rewrite (bind_getitem _ _ _ _ _ Hsev). run. rewrite lookup_insert_eq. run.
    unfold put_world. cbn. rewrite lookup_insert_eq.
    repeat split. intros p Hp. now rewrite !lookup_insert_ne.
  - destruct (fs w !! dirname state_file) as [[[|]|]|]; try discriminate; run.
    rewrite (bind_getitem _ _ _ _ _ Hsev). run. rewrite lookup_insert_eq. run.
    unfold put_world. cbn. rewrite lookup_insert_eq.
    repeat split. intros p Hp. now rewrite !lookup_insert_ne.
Qed.

(** ** The sinks *)

Lemma after_first_failure_app (e : environment) (e1 e2 : list effect) :
  after_first_failure e (e1 ++ e2) =
  match after_first_failure e e1 with
  | Some post => Some (post ++ e2)
  | None => after_first_failure e e2
  end.
Proof.
  induction e1 as [|x e1 IH]; [reflexivity|].
  cbn. destruct (call_succeeds e x); auto.
Qed.

Lemma post_to_url_run (message : gmap string string) (url : string) (w : world) :
  sink_run is_webhook_effect is_url_exn w (Collectd.post_to_url message url w)
  /\ effects_of (Collectd.post_to_url message url w) = [UrlOpen url message].
Proof.
  unfold Collectd.post_to_url, urlopen, sink_run, sink_outcome. run.
  destruct (urlopen_ok (env w)) eqn:Hok; cbn; rewrite Hok; now repeat split.
Qed.

Lemma send_to_email_run (address : string) (message : gmap string string) (w : world) :
  sink_run is_email_effect is_smtp_exn w (Collectd.send_to_email address message w).
Proof.
  unfold Collectd.send_to_email, sink_run, sink_outcome, getitem. run.
  destruct (message !! "host"); run; [|cbn; repeat split; eauto; discriminate].
  destruct (message !! "plugin"); run; [|cbn; repeat split; eauto; discriminate].
  destruct (message !! "message"); run; [|cbn; repeat split; eauto; discriminate].
  destruct (message !! "severity"); run; [|cbn; repeat split; eauto; discriminate].
  destruct (smtp_connect_ok (env w)) eqn:Hc; cbn [negb]; run.
  - destruct (smtp_sendmail_ok (env w)) eqn:Hs; cbn; rewrite Hc, Hs; now repeat split.
  - cbn; rewrite Hc; now repeat split.
Qed.

Lemma sink_run_bind {A B} (kind : effect -> bool) (raises : exn -> bool) (w : world)
    (m : M A) (k : A -> M B) :
  sink_run kind raises w (m w) ->
  (forall a, result_of (m w) = Ok a ->
             sink_run kind raises (world_of (m w)) (k a (world_of (m w)))) ->
  sink_run kind raises w (bind m k w).
Proof.
  intros (He & Hf & Hk & Ho & Hx) Hnext. rewrite bind_run.
  destruct (m w) as [[[a|x|] w1] e1]; cbn [result_of world_of effects_of fst snd] in *.
  - destruct (Hnext a eq_refl) as (He2 & Hf2 & Hk2 & Ho2 & Hx2).
    unfold sink_run. rewrite world_of_prepend, result_of_prepend, effects_of_prepend.
    rewrite He in *. repeat split; try congruence.
    + rewrite forallb_app, Hk, Hk2. reflexivity.
    + unfold sink_outcome in *. rewrite after_first_failure_app, Ho.
      exact Ho2.
  - now repeat split.
  - destruct Ho.
Qed.

Lemma sink_run_weaken {A} (kind kind' : effect -> bool) (raises raises' : exn -> bool)
    (w : world) (o : result A * world * list effect) :
  (forall e, kind e = true -> kind' e = true) ->
  (forall x, raises x = true -> raises' x = true) ->
  sink_run kind raises w o -> sink_run kind' raises' w o.
Proof.
  intros Hkind Hraises (He & Hf & Hk & Ho & Hx).
  repeat split; auto.
  - apply forallb_forall. intros e Hin.
    rewrite forallb_forall in Hk. auto.
  - destruct (result_of o); auto.
Qed.

Lemma sink_run_ret {A} (kind : effect -> bool) (raises : exn -> bool) (w : world) (a : A) :
  sink_run kind raises w (ret a w).
Proof. now repeat split. Qed.

Lemma sink_run_getitem (kind : effect -> bool) (raises : exn -> bool) (w : world)
    (d : gmap string string) (key : string) :
  sink_run kind raises w (getitem d key w).
Proof.
  unfold getitem. destruct (d !! key); [apply sink_run_ret|].
  repeat split; cbn; eauto. discriminate.
Qed.

Lemma ensure_pagerduty_store_sink (w : world) :
  sink_run is_pager_effect is_pager_exn w (Collectd.ensure_pagerduty_store w).
Proof.
  assert (Hstore : forall kind config,
            sink_run is_pager_effect is_pager_exn w
              (Collectd.set_pagerduty_store kind config w)).
  { intros kind config.
    destruct (set_pagerduty_store_run kind config w) as (He & Hf & Heff & Hres).
    unfold sink_run, sink_outcome. rewrite Heff.
    destruct (pd_set_datastore (env w)) eqn:Hds; rewrite Hres; cbn; rewrite Hds;
      now repeat split. }
  unfold Collectd.ensure_pagerduty_store. run.
  destruct (PD_STORAGE_CONFIGURED (globs w)); cbn [negb]; [apply sink_run_ret|].
  destruct (REDIS_CONFIG (globs w)); [apply Hstore|].
  destruct (STATE_DIR (globs w)); [apply Hstore | apply sink_run_ret].
Qed.

Lemma pagerduty_authenticate_sink (key : string) (w : world) :
  sink_run is_pager_effect is_pager_exn w (Collectd.pagerduty_authenticate key w).
Proof.
  unfold Collectd.pagerduty_authenticate, sink_run, sink_outcome. run.
  destruct (pd_authenticate_ok (env w)) eqn:H; cbn; rewrite H; now repeat split.
Qed.

Lemma pagerduty_event_sink (action summary : string) (w : world) :
  sink_run is_pager_effect is_pager_exn w (Collectd.pagerduty_event action summary w).
Proof.
  unfold Collectd.pagerduty_event, sink_run, sink_outcome. run.
  destruct (pd_event_ok (env w)) eqn:H; cbn; rewrite H; now repeat split.
Qed.

Lemma send_to_pagerduty_run (key : string) (message : gmap string string) (w : world) :
  sink_run is_pager_effect is_pager_exn w (Collectd.send_to_pagerduty key message w).
Proof.
  unfold Collectd.send_to_pagerduty.
  apply sink_run_bind; [apply ensure_pagerduty_store_sink | intros _ _].
  apply sink_run_bind; [apply pagerduty_authenticate_sink | intros _ _].
  apply sink_run_bind; [apply sink_run_getitem | intros host _].
  apply sink_run_bind; [apply sink_run_getitem | intros plugin _].
  apply sink_run_bind; [apply sink_run_getitem | intros severity _].
  apply sink_run_bind; [apply sink_run_getitem | intros text _].
  apply sink_run_bind; [apply sink_run_getitem | intros severity' _].
  destruct (Py.contains "okay" severity'); [apply pagerduty_event_sink|].
  cbn [Py.truthy].
  apply sink_run_bind; [apply sink_run_ret | intros cond _].
  destruct cond; [apply pagerduty_event_sink | apply sink_run_ret].
Qed.

Lemma existsb_disjoint (k k' : effect -> bool) (l : list effect) :
  forallb k l = true -> (forall e, k e = true -> k' e = false) -> existsb k' l = false.
Proof.
  intros Hall Hdis. induction l as [|e l IH]; [reflexivity|].
  cbn in *. apply andb_prop in Hall as [He Hl].
  rewrite (Hdis e He), (IH Hl). reflexivity.
Qed.

Lemma existsb_nonempty (k : effect -> bool) (l : list effect) :
  existsb k l = true -> l <> [].
Proof. destruct l; [discriminate | intros _; discriminate]. Qed.

Lemma pager_or_log_not_email (e : effect) :
  is_pager_effect e || is_pd_key_log e = true -> is_email_effect e = false.
Proof. destruct e as [[]| | | | | | | | | | | | |]; cbn; intros; congruence. Qed.

Lemma pager_or_log_not_webhook (e : effect) :
  is_pager_effect e || is_pd_key_log e = true -> is_webhook_effect e = false.
Proof. destruct e as [[]| | | | | | | | | | | | |]; cbn; intros; congruence. Qed.

Lemma email_not_pager (e : effect) : is_email_effect e = true -> is_pager_effect e = false.
Proof. destruct e; cbn; intros; congruence. Qed.

Lemma email_not_webhook (e : effect) : is_email_effect e = true -> is_webhook_effect e = false.
Proof. destruct e; cbn; intros; congruence. Qed.

Lemma webhook_not_pager (e : effect) : is_webhook_effect e = true -> is_pager_effect e = false.
Proof. destruct e; cbn; intros; congruence. Qed.

Lemma webhook_not_email (e : effect) : is_webhook_effect e = true -> is_email_effect e = false.
Proof. destruct e; cbn; intros; congruence. Qed.

Lemma pager_or_log_fan_out (e : effect) :
  is_pager_effect e || is_pd_key_log e = true -> is_fan_out_effect e = true.
Proof.
  unfold is_fan_out_effect, is_sink_effect.
  destruct e as [[]| | | | | | | | | | | | |]; cbn; intros; congruence.
Qed.

Lemma email_fan_out (e : effect) : is_email_effect e = true -> is_fan_out_effect e = true.
Proof. destruct e; cbn; intros; congruence. Qed.

Lemma webhook_fan_out (e : effect) : is_webhook_effect e = true -> is_fan_out_effect e = true.
Proof. destruct e; cbn; intros; congruence. Qed.

Lemma pager_exn_sink (x : exn) : is_pager_exn x = true -> is_sink_exn x = true.
Proof. destruct x; cbn; congruence. Qed.

Lemma smtp_exn_sink (x : exn) : is_smtp_exn x = true -> is_sink_exn x = true.
Proof. destruct x; cbn; congruence. Qed.

Lemma url_exn_sink (x : exn) : is_url_exn x = true -> is_sink_exn x = true.
Proof. destruct x; cbn; congruence. Qed.

(** The pager step of [fan_out]. *)
Lemma fan_out_pager_step (state : string) (message : gmap string string) (page : bool)
    (w : world) :
  let o := (if page && Py.contains "transitioned" state
            then bind get_world (fun w0 =>
                   match PD_KEY (globs w0) with
                   | None => logging ERROR "must call set_pagerduty_key(), first"
                   | Some key => Collectd.send_to_pagerduty key message
                   end)
            else ret tt) w in
  sink_run (fun e => is_pager_effect e || is_pd_key_log e) is_pager_exn w o
  /\ (effects_of o <> [] -> page = true /\ Py.contains "transitioned" state = true).
Proof.
  destruct page, (Py.contains "transitioned" state); cbn [andb];
    try (split; [apply sink_run_ret | intros H; now destruct H]).
  run. split; [|auto].
  destruct (PD_KEY (globs w)) as [key|].
  - eapply sink_run_weaken; [| |apply send_to_pagerduty_run]; auto.
    intros e He. rewrite He. reflexivity.
  - now repeat split.
Qed.

(** The email step. *)
Lemma fan_out_email_step (state : string) (message : gmap string string)
    (email : option string) (w : world) :
  let o := (if Py.truthy_opt email && Py.contains "transitioned" state
            then match email with
                 | Some address => Collectd.send_to_email address message
                 | None => ret tt
                 end
            else ret tt) w in
  sink_run is_email_effect is_smtp_exn w o
  /\ (effects_of o <> [] ->
      Py.truthy_opt email = true /\ Py.contains "transitioned" state = true).
Proof.
  destruct (Py.truthy_opt email), (Py.contains "transitioned" state); cbn [andb];
    try (split; [apply sink_run_ret | intros H; now destruct H]).
  split; [|auto].
  destruct email; [apply send_to_email_run | apply sink_run_ret].
Qed.

(** The webhook step. *)
Lemma fan_out_webhook_step (message : gmap string string) (url : option string) (w : world) :
  let o := (if Py.truthy_opt url
            then match url with
                 | Some u => Collectd.post_to_url message u
                 | None => ret tt
                 end
            else ret tt) w in
  sink_run is_webhook_effect is_url_exn w o
  /\ (Py.truthy_opt url = true ->
      exists u, url = Some u /\ effects_of o = [UrlOpen u message])
  /\ (effects_of o <> [] -> Py.truthy_opt url = true).
Proof.
  destruct url as [u|]; cbn [Py.truthy_opt].
  - destruct (Py.truthy u).
    + destruct (post_to_url_run message u w) as [Hrun Heff].
      split; [exact Hrun|]. split; [intros _; eauto | reflexivity].
    + split; [apply sink_run_ret|]. split; [discriminate | intros H; now destruct H].
  - split; [apply sink_run_ret|]. split; [discriminate | intros H; now destruct H].
Qed.

Lemma fan_out_sink_run (state : string) (message : gmap string string) (page : bool)
    (email url : option string) (w : world) :
  sink_run is_fan_out_effect is_sink_exn w
    (Collectd.fan_out state message page email url w).
Proof.
  unfold Collectd.fan_out.
  apply sink_run_bind.
  { eapply sink_run_weaken;
      [apply pager_or_log_fan_out | apply pager_exn_sink
       | apply (fan_out_pager_step state message page w)]. }
  intros _ _. apply sink_run_bind.
  { eapply sink_run_weaken;
      [apply email_fan_out | apply smtp_exn_sink
       | apply (fan_out_email_step state message email)]. }
  intros _ _.
  eapply sink_run_weaken;
    [apply webhook_fan_out | apply url_exn_sink
     | apply (fan_out_webhook_step message url)].
Qed.

Lemma exn_pager_not_smtp (x : exn) : is_pager_exn x = true -> is_smtp_exn x = true -> False.
Proof. destruct x; discriminate. Qed.

Lemma exn_pager_not_url (x : exn) : is_pager_exn x = true -> is_url_exn x = true -> False.
Proof. destruct x; discriminate. Qed.

Lemma exn_smtp_not_url (x : exn) : is_smtp_exn x = true -> is_url_exn x = true -> False.
Proof. destruct x; discriminate. Qed.

Lemma fan_out_policy (state : string) (message : gmap string string) (page : bool)
    (email url : option string) (w : world) :
  let o := Collectd.fan_out state message page email url w in
  (existsb is_pager_effect (effects_of o) = true ->
   page = true /\ Py.contains "transitioned" state = true)
  /\ (existsb is_email_effect (effects_of o) = true ->
      Py.truthy_opt email = true /\ Py.contains "transitioned" state = true)
  /\ (existsb is_webhook_effect (effects_of o) = true -> Py.truthy_opt url = true)
  /\ (forall a, result_of o = Ok a -> Py.truthy_opt url = true ->
      exists u, url = Some u /\ In (UrlOpen u message) (effects_of o))
  /\ (forall x, result_of o = Raise x -> is_pager_exn x = true ->
      existsb is_email_effect (effects_of o) = false
      /\ existsb is_webhook_effect (effects_of o) = false)
  /\ (forall x, result_of o = Raise x -> is_smtp_exn x = true ->
      existsb is_webhook_effect (effects_of o) = false).
Proof.
  pose proof (fan_out_pager_step state message page w) as HP.
  cbv zeta in *. revert HP.
  unfold Collectd.fan_out. rewrite bind_run.
  match goal with
  | |- context [result_of (?p w)] => destruct (p w) as [[rp wp] ep]
  end.
  cbn [result_of world_of effects_of fst snd].
  intros [(_ & _ & HPk & HPo & HPx) HPe].
  cbn [result_of world_of effects_of fst snd] in *.
  assert (Hp_e : existsb is_email_effect ep = false)
    by (eapply existsb_disjoint; [exact HPk | apply pager_or_log_not_email]).
  assert (Hp_w : existsb is_webhook_effect ep = false)
    by (eapply existsb_disjoint; [exact HPk | apply pager_or_log_not_webhook]).
  assert (Hp_p : existsb is_pager_effect ep = true ->
                 page = true /\ Py.contains "transitioned" state = true)
    by (intros H; apply HPe; eapply existsb_nonempty; eauto).
  destruct rp as [[]|x|]; [| |destruct HPo].
  2:{ cbn [result_of world_of effects_of fst snd].
      repeat split; try congruence; try (intros; congruence);
        try (apply Hp_p; assumption). }
  pose proof (fan_out_email_step state message email wp) as HE.
  cbv zeta in HE. revert HE. rewrite bind_run.
  match goal with
  | |- context [result_of (?p wp)] => destruct (p wp) as [[re we] ee]
  end.
  cbn [result_of world_of effects_of fst snd].
  intros [(_ & _ & HEk & HEo & HEx) HEe].
  cbn [result_of world_of effects_of fst snd] in *.
  assert (He_p : existsb is_pager_effect ee = false)
    by (eapply existsb_disjoint; [exact HEk | apply email_not_pager]).
  assert (He_w : existsb is_webhook_effect ee = false)
    by (eapply existsb_disjoint; [exact HEk | apply email_not_webhook]).
  assert (He_e : existsb is_email_effect ee = true ->
                 Py.truthy_opt email = true /\ Py.contains "transitioned" state = true)
    by (intros H; apply HEe; eapply existsb_nonempty; eauto).
  destruct re as [[]|x|]; [| |destruct HEo].
  2:{ rewrite result_of_prepend, effects_of_prepend.
      cbn [result_of world_of effects_of fst snd].
      rewrite !existsb_app, Hp_e, Hp_w, He_p, He_w, ?orb_false_r, ?orb_false_l.
      repeat split; try congruence; try (intros; congruence);
        try (apply Hp_p; assumption); try (apply He_e; assumption).
      all: exfalso;
        match goal with H : Raise _ = Raise _ |- _ => injection H as <- end;
        destruct x; try discriminate; specialize (HEx eq_refl); discriminate. }
  pose proof (fan_out_webhook_step message url we) as HU.
  cbv zeta in HU. revert HU.
  match goal with
  | |- context [prepend ee (?p we)] => destruct (p we) as [[ru wu] eu]
  end.
  cbn [result_of world_of effects_of fst snd].
  intros ((_ & _ & HUk & HUo & HUx) & HUu & HUe).
  cbn [result_of world_of effects_of fst snd] in *.
  assert (Hu_p : existsb is_pager_effect eu = false)
    by (eapply existsb_disjoint; [exact HUk | apply webhook_not_pager]).
  assert (Hu_e : existsb is_email_effect eu = false)
    by (eapply existsb_disjoint; [exact HUk | apply webhook_not_email]).
  rewrite !result_of_prepend, !effects_of_prepend.
  cbn [result_of world_of effects_of fst snd].
  rewrite !existsb_app, Hp_e, Hp_w, He_p, He_w, Hu_p, Hu_e,
    ?orb_false_r, ?orb_false_l.
  split; [exact Hp_p|]. split; [exact He_e|].
  split; [intros H; apply HUe; eapply existsb_nonempty; eauto|].
  split.
  { intros a _ Hurl. destruct (HUu Hurl) as (u & -> & ->).
    exists u. split; [reflexivity|]. apply in_or_app. right.
    apply in_or_app. right. left. reflexivity. }
  split.
  - intros x -> Hx. exfalso.
    destruct (is_sink_exn x) eqn:Hs.
    + eapply exn_pager_not_url; eauto.
    + destruct x; discriminate.
  - intros x -> Hx. exfalso.
    destruct (is_sink_exn x) eqn:Hs.
    + eapply exn_smtp_not_url; eauto.
    + destruct x; discriminate.
Qed.

Lemma sink_exn_after_call (env0 : environment) (x : exn) (effs : list effect) :
  sink_outcome env0 (Raise x : result unit) effs -> is_sink_exn x = true -> effs <> [].
Proof.
  unfold sink_outcome. intros H Hx. rewrite Hx in H.
  destruct effs; [discriminate | intros; discriminate].
Qed.

(** What the exception a [fan_out] ends with tells about the steps taken. *)
Lemma fan_out_reach (state : string) (message : gmap string string) (page : bool)
    (email url : option string) (w : world) :
  let o := Collectd.fan_out state message page email url w in
  (match result_of o with
   | Ok _ => True
   | Raise x => is_url_exn x = true
   | Unmodelled => False
   end ->
   Py.truthy_opt url = true ->
   exists u, url = Some u /\ In (UrlOpen u message) (effects_of o))
  /\ (forall x, result_of o = Raise x -> is_pager_exn x = true ->
      page = true /\ Py.contains "transitioned" state = true)
  /\ (forall x, result_of o = Raise x -> is_smtp_exn x = true ->
      Py.truthy_opt email = true /\ Py.contains "transitioned" state = true).
Proof.
  pose proof (fan_out_pager_step state message page w) as HP.
  cbv zeta in *. revert HP.
  unfold Collectd.fan_out. rewrite bind_run.
  match goal with
  | |- context [result_of (?p w)] => destruct (p w) as [[rp wp] ep]
  end.
  cbn [result_of world_of effects_of fst snd].
  intros [(_ & _ & _ & HPo & HPx) HPe].
  cbn [result_of world_of effects_of fst snd] in *.
  destruct rp as [[]|x|]; [| |destruct HPo].
  2:{ cbn [result_of world_of effects_of fst snd].
      split; [|split].
      - intros Hx _. exfalso.
        apply (exn_pager_not_url x); [apply HPx; now apply url_exn_sink | exact Hx].
      - intros y [= <-] Hy. apply HPe.
        eapply sink_exn_after_call; [exact HPo | now apply pager_exn_sink].
      - intros y [= <-] Hy. exfalso.
        apply (exn_pager_not_smtp x); [apply HPx; now apply smtp_exn_sink | exact Hy]. }
  pose proof (fan_out_email_step state message email wp) as HE.
  cbv zeta in HE. revert HE. rewrite bind_run.
  match goal with
  | |- context [result_of (?p wp)] => destruct (p wp) as [[re we] ee]
  end.
  cbn [result_of world_of effects_of fst snd].
  intros [(_ & _ & _ & HEo & HEx) HEe].
  cbn [result_of world_of effects_of fst snd] in *.
  destruct re as [[]|x|]; [| |destruct HEo].
  2:{ rewrite result_of_prepend, effects_of_prepend.
      cbn [result_of world_of effects_of fst snd].
      split; [|split].
      - intros Hx _. exfalso.
        apply (exn_smtp_not_url x); [apply HEx; now apply url_exn_sink | exact Hx].
      - intros y [= <-] Hy. exfalso.
        apply (exn_pager_not_smtp x); [exact Hy | apply HEx; now apply pager_exn_sink].
      - intros y [= <-] Hy. apply HEe.
        eapply sink_exn_after_call; [exact HEo | now apply smtp_exn_sink]. }
  pose proof (fan_out_webhook_step message url we) as HU.
  cbv zeta in HU. revert HU.
  match goal with
  | |- context [prepend ee (?p we)] => destruct (p we) as [[ru wu] eu]
  end.
  cbn [result_of world_of effects_of fst snd].
  intros ((_ & _ & _ & HUo & HUx) & HUu & _).
  cbn [result_of world_of effects_of fst snd] in *.
  rewrite !result_of_prepend, !effects_of_prepend.
  cbn [result_of world_of effects_of fst snd].
  split; [|split].
  - intros _ Hurl. destruct (HUu Hurl) as (u & -> & ->).
    exists u. split; [reflexivity|].
    apply in_or_app. right. apply in_or_app. right. left. reflexivity.
  - intros x -> Hx. exfalso.
    apply (exn_pager_not_url x); [exact Hx | apply HUx; now apply pager_exn_sink].
  - intros x -> Hx. exfalso.
    apply (exn_smtp_not_url x); [exact Hx | apply HUx; now apply smtp_exn_sink].
Qed.

(** Where neither the pager step nor the email step runs, [fan_out] is its
    webhook step. *)
Lemma fan_out_webhook_only (state : string) (message : gmap string string)
    (page : bool) (email url : option string) (w : world) :
  Py.contains "transitioned" state = false
  \/ (page = false /\ Py.truthy_opt email = false) ->
  Collectd.fan_out state message page email url w =
  match url with
  | Some u => if Py.truthy u then Collectd.post_to_url message u w else (Ok tt, w, [])
  | None => (Ok tt, w, [])
  end.
Proof.
  intros Hc. unfold Collectd.fan_out.
  assert (Hp : page && Py.contains "transitioned" state = false)
    by (destruct Hc as [-> | [-> _]]; [apply andb_false_r | reflexivity]).
  assert (He : Py.truthy_opt email && Py.contains "transitioned" state = false)
    by (destruct Hc as [-> | [_ ->]]; [apply andb_false_r | reflexivity]).
  rewrite Hp, He. run.
  destruct url as [u|]; cbn [Py.truthy_opt]; [destruct (Py.truthy u)|]; reflexivity.
Qed.

Lemma post_to_url_result (message : gmap string string) (url : string) (w : world) :
  Collectd.post_to_url message url w =
  (if urlopen_ok (env w) then Ok tt else Raise URLError, w, [UrlOpen url message]).
Proof.
  unfold Collectd.post_to_url, urlopen. run.
  destruct (urlopen_ok (env w)); reflexivity.
Qed.

(** The webhook is the last step of [fan_out]: where it was called, the
    run ends normally or with the webhook's own exception. *)
Lemma fan_out_webhook_last (state : string) (message : gmap string string) (page : bool)
    (email url : option string) (w : world) :
  let o := Collectd.fan_out state message page email url w in
  existsb is_webhook_effect (effects_of o) = true ->
  result_of o = Ok tt \/ result_of o = Raise URLError.
Proof.
  pose proof (fan_out_pager_step state message page w) as HP.
  cbv zeta in *. revert HP.
  unfold Collectd.fan_out. rewrite bind_run.
  match goal with
  | |- context [result_of (?p w)] => destruct (p w) as [[rp wp] ep]
  end.
  cbn [result_of world_of effects_of fst snd].
  intros [(_ & _ & HPk & HPo & _) _].
  cbn [result_of world_of effects_of fst snd] in *.
  assert (Hp_w : existsb is_webhook_effect ep = false)
    by (eapply existsb_disjoint; [exact HPk | apply pager_or_log_not_webhook]).
  destruct rp as [[]|x|]; [| |destruct HPo].
  2:{ cbn [result_of world_of effects_of fst snd]. congruence. }
  pose proof (fan_out_email_step state message email wp) as HE.
  cbv zeta in HE. revert HE. rewrite bind_run.
  match goal with
  | |- context [result_of (?p wp)] => destruct (p wp) as [[re we] ee]
  end.
  cbn [result_of world_of effects_of fst snd].
  intros [(_ & _ & HEk & HEo & _) _].
  cbn [result_of world_of effects_of fst snd] in *.
  assert (He_w : existsb is_webhook_effect ee = false)
    by (eapply existsb_disjoint; [exact HEk | apply email_not_webhook]).
  destruct re as [[]|x|]; [| |destruct HEo].
  2:{ rewrite result_of_prepend, effects_of_prepend.
      cbn [result_of world_of effects_of fst snd].
      rewrite existsb_app, Hp_w, He_w. discriminate. }
  rewrite !result_of_prepend.
  intros _.
  destruct url as [u|]; cbn [Py.truthy_opt]; [destruct (Py.truthy u)|];
    try (left; reflexivity).
  rewrite post_to_url_result. cbn [result_of fst].
  destruct (urlopen_ok (env we)); auto.
Qed.

(** ** The ways a dispatch can go *)

Lemma with_state_dir_facts (w : world) :
  env (with_state_dir w) = env w /\ fs (with_state_dir w) = fs w
  /\ STATE_DIR (globs (with_state_dir w)) = Some (state_dir_of w).
Proof.
  unfold with_state_dir, state_dir_of.
  destruct (STATE_DIR (globs w)) eqn:H; [now rewrite H|].
  now repeat split.
Qed.

Lemma ensure_state_dir_run {B} (k : unit -> M B) (w : world) :
  bind (match STATE_DIR (globs w) with
        | None => Collectd.set_state_dir "/tmp"
        | Some _ => ret tt
        end) k w = k tt (with_state_dir w).
Proof.
  unfold with_state_dir.
  destruct (STATE_DIR (globs w)); [apply bind_ret|].
  unfold Collectd.set_state_dir, Collectd.set_globals. run. reflexivity.
Qed.

Lemma dir_check_run {B} (dir : string) (k : bool -> bool -> M B) (w : world) :
  bind (os_path_exists dir) (fun dir_exists =>
    bind (if dir_exists then os_access_W_OK dir else ret false) (fun dir_writable =>
      k dir_exists dir_writable)) w =
  match fs w !! dir with
  | Some (Dir wr) => k true wr w
  | Some (File _ wr _) => k true wr w
  | None => k false false w
  end.
Proof.
  unfold os_path_exists, os_access_W_OK. run.
  destruct (fs w !! dir) as [[wr|r wr c]|] eqn:H; run; rewrite ?H; reflexivity.
Qed.

(** Every run of [dispatch_alert] has one of these shapes. *)
Lemma dispatch_alert_cases (severity text : string) (page : bool)
    (email url : option string) (w : world)
    (P : result unit * world * list effect -> Prop) :
  (Json.loads (event_source w severity text) = Json.Malformed ->
   P (Raise ValueError, w, [])) ->
  (Json.loads (event_source w severity text) = Json.Beyond ->
   P (Unmodelled, w, [])) ->
  (forall message x,
     Json.loads (event_source w severity text) = Json.Scanned message ->
     result_of (Collectd.alerts_disabled message w) = Raise x ->
     P (Raise x, w, effects_of (Collectd.alerts_disabled message w))) ->
  (forall message,
     Json.loads (event_source w severity text) = Json.Scanned message ->
     result_of (Collectd.alerts_disabled message w) = Unmodelled ->
     P (Unmodelled, w, effects_of (Collectd.alerts_disabled message w))) ->
  (forall message key,
     Json.loads (event_source w severity text) = Json.Scanned message ->
     result_of (Collectd.alerts_disabled message w) = Ok true ->
     message !! key = None -> key = "host" \/ key = "plugin" ->
     P (Raise (KeyError key), w, effects_of (Collectd.alerts_disabled message w))) ->
  (forall message host plugin,
     Json.loads (event_source w severity text) = Json.Scanned message ->
     result_of (Collectd.alerts_disabled message w) = Ok true ->
     message !! "host" = Some host -> message !! "plugin" = Some plugin ->
     P (Ok tt, w, effects_of (Collectd.alerts_disabled message w)
                  ++ [Logging INFO (suppression_message host plugin)])) ->
  (forall message,
     Json.loads (event_source w severity text) = Json.Scanned message ->
     result_of (Collectd.alerts_disabled message w) = Ok false ->
     message !! "plugin" = None ->
     P (Raise (KeyError "plugin"), with_state_dir w,
        effects_of (Collectd.alerts_disabled message w))) ->
  (forall message plugin,
     Json.loads (event_source w severity text) = Json.Scanned message ->
     result_of (Collectd.alerts_disabled message w) = Ok false ->
     message !! "plugin" = Some plugin ->
     dir_usable (fs w) (state_dir_of w) = false ->
     P (Ok tt, with_state_dir w,
        effects_of (Collectd.alerts_disabled message w)
        ++ [Logging ERROR state_dir_message])) ->
  (forall message plugin,
     Json.loads (event_source w severity text) = Json.Scanned message ->
     result_of (Collectd.alerts_disabled message w) = Ok false ->
     message !! "plugin" = Some plugin ->
     dir_usable (fs w) (state_dir_of w) = true ->
     let d := Collectd.alerts_disabled message w in
     let ls := Collectd.last_state (state_file_of w plugin) message (with_state_dir w) in
     match result_of ls with
     | Ok state =>
         let ws := Collectd.write_state (state_file_of w plugin) message (world_of ls) in
         match result_of ws with
         | Ok _ =>
             P (prepend (effects_of d ++ effects_of ls ++ effects_of ws)
                  (Collectd.fan_out state message page email url (world_of ws)))
         | Raise x =>
             P (Raise x, world_of ws, effects_of d ++ effects_of ls ++ effects_of ws)
         | Unmodelled =>
             P (Unmodelled, world_of ws, effects_of d ++ effects_of ls ++ effects_of ws)
         end
     | Raise x => P (Raise x, world_of ls, effects_of d ++ effects_of ls)
     | Unmodelled => P (Unmodelled, world_of ls, effects_of d ++ effects_of ls)
     end) ->
  P (Collectd.dispatch_alert severity text page email url w).
Proof.
  intros Hmal Hbey Hraise Hunm Hkey Hsup Hnoplugin Hdir Hgo.
  unfold Collectd.dispatch_alert. rewrite bind_get_world.
  fold (event_source w severity text).
  unfold json_loads.
  destruct (Json.loads (event_source w severity text)) as [message| |] eqn:Hload;
    [|apply Hmal; reflexivity | apply Hbey; reflexivity].
  rewrite bind_ret, bind_run.
  destruct (alerts_disabled_run message w) as (Hw & _ & _).
  specialize (Hraise message). specialize (Hunm message eq_refl).
  specialize (Hkey message). specialize (Hsup message).
  specialize (Hnoplugin message eq_refl). specialize (Hdir message).
  specialize (Hgo message).
  cbv zeta in Hw. rewrite Hw.
  destruct (result_of (Collectd.alerts_disabled message w)) as [[|]|x|];
    [| |apply Hraise; reflexivity | apply Hunm; reflexivity].
  - (* suppressed *)
    unfold getitem.
    destruct (message !! "host") as [host|] eqn:Hh.
    2:{ rewrite bind_raise, prepend_triple, app_nil_r. apply (Hkey "host"); auto. }
    rewrite bind_ret.
    destruct (message !! "plugin") as [plugin|] eqn:Hp.
    2:{ rewrite bind_raise, prepend_triple, app_nil_r. apply (Hkey "plugin"); auto. }
    rewrite bind_ret, run_logging, prepend_triple.
    apply (Hsup host plugin); auto.
  - (* not suppressed *)
    rewrite ensure_state_dir_run, bind_get_world.
    destruct (with_state_dir_facts w) as (He1 & Hf1 & Hsd). rewrite Hsd.
    unfold getitem at 1.
    destruct (message !! "plugin") as [plugin|] eqn:Hp.
    2:{ rewrite bind_raise, prepend_triple, app_nil_r. apply Hnoplugin; auto. }
    rewrite bind_ret. cbv zeta.
    rewrite dir_check_run, Hf1.
    specialize (Hdir plugin eq_refl eq_refl eq_refl).
    specialize (Hgo plugin eq_refl eq_refl eq_refl).
    unfold dir_usable in Hdir, Hgo.
    assert (Hdeliver :
      match fs w !! state_dir_of w with
      | Some (Dir true) | Some (File _ true _) => True
      | _ => False
      end ->
      P (prepend (effects_of (Collectd.alerts_disabled message w))
           (bind (Collectd.last_state (state_dir_of w +:+ "/" +:+ plugin) message)
              (fun state =>
                 bind (Collectd.write_state (state_dir_of w +:+ "/" +:+ plugin) message)
                   (fun _ => Collectd.fan_out state message page email url))
              (with_state_dir w)))).
    { intros Husable.
      assert (Hgo' := Hgo).
      assert (Hu : match fs w !! state_dir_of w with
                   | Some (Dir wr) | Some (File _ wr _) => wr
                   | None => false
                   end = true)
        by (destruct (fs w !! state_dir_of w) as [[[|]|? [|] ?]|];
            first [reflexivity | destruct Husable]).
      specialize (Hgo' Hu). cbv zeta in Hgo'.
      fold (state_file_of w plugin).
      rewrite bind_run.
      destruct (Collectd.last_state (state_file_of w plugin) message (with_state_dir w))
        as [[[state|x|] wl] el]; cbn [result_of world_of effects_of fst snd] in *;
        rewrite ?prepend_triple; try exact Hgo'.
      rewrite bind_run.
      destruct (Collectd.write_state (state_file_of w plugin) message wl)
        as [[[[]|x|] ww] ew]; cbn [result_of world_of effects_of fst snd] in *;
        rewrite ?prepend_triple, ?prepend_prepend, <- ?List.app_assoc;
        exact Hgo'. }
    destruct (fs w !! state_dir_of w) as [[[|]|r [|] c]|];
      cbn [negb orb]; rewrite ?run_logging, ?prepend_triple;
      first [apply Hdeliver; exact I | apply Hdir; reflexivity].
Qed.

Lemma startswith_append (p s : string) : Py.startswith p (p +:+ s) = true.
Proof.
  induction p as [|c p IH]; [apply startswith_empty|].
  rewrite append_cons. cbn. now rewrite Ascii.eqb_refl.
Qed.

Lemma suppression_logged (effs : list effect) (host plugin : string) :
  suppressed (effs ++ [Logging INFO (suppression_message host plugin)]) = true.
Proof.
  unfold suppressed. rewrite existsb_app. apply orb_true_iff. right.
  cbn [existsb is_suppression_log]. unfold suppression_message.
  now rewrite startswith_append.
Qed.

Lemma storage_abort_logged (effs : list effect) :
  storage_aborted (effs ++ [Logging ERROR state_dir_message]) = true.
Proof.
  unfold storage_aborted. rewrite existsb_app. apply orb_true_iff. right.
  reflexivity.
Qed.

Lemma loads_functional (text : string) (a b : gmap string string) :
  Json.loads text = Json.Scanned a -> Json.loads text = Json.Scanned b -> a = b.
Proof. intros Ha Hb. rewrite Ha in Hb. now injection Hb. Qed.

(** ** Event construction *)

Lemma dispatch_alert_malformed (severity text : string) (page : bool)
    (email url : option string) (w : world) :
  Json.loads (event_source w severity text) = Json.Malformed ->
  Collectd.dispatch_alert severity text page email url w = (Raise ValueError, w, []).
Proof.
  intros Hload. unfold Collectd.dispatch_alert. rewrite bind_get_world.
  fold (event_source w severity text). unfold json_loads. rewrite Hload.
  apply bind_raise.
Qed.

Lemma value_error_only_from_json (severity text : string) (page : bool)
    (email url : option string) (w : world) :
  let o := Collectd.dispatch_alert severity text page email url w in
  result_of o = Raise ValueError ->
  Json.loads (event_source w severity text) = Json.Malformed
  /\ world_of o = w /\ effects_of o = [].
Proof.
  cbv zeta. apply dispatch_alert_cases; cbn [result_of world_of effects_of fst snd];
    try discriminate.
  - auto.
  - intros message x _ Hd [= ->].
    destruct (alerts_disabled_run message w) as (_ & _ & Hr).
    cbv zeta in Hr. rewrite Hd in Hr. discriminate.
  - intros message plugin _ _ _ _.
    pose proof (last_state_run (state_file_of w plugin) message (with_state_dir w))
      as (_ & _ & _ & _ & Hl).
    cbv zeta in *.
    destruct (Collectd.last_state _ message (with_state_dir w)) as [[[state|x|] wl] el];
      cbn [result_of world_of effects_of fst snd] in *;
      [|intros [= ->]; discriminate | discriminate].
    pose proof (write_state_run (state_file_of w plugin) message wl) as (_ & _ & _ & Hw).
    cbv zeta in *.
    destruct (Collectd.write_state _ message wl) as [[[[]|x|] ww] ew];
      cbn [result_of world_of effects_of fst snd] in *;
      [|intros [= ->]; destruct Hw; discriminate | discriminate].
    rewrite result_of_prepend. intros Hfo.
    destruct (fan_out_sink_run state message page email url ww) as (_ & _ & _ & Ho & _).
    rewrite Hfo in Ho. cbn in Ho. destruct Ho as [_ [k Hk]]. discriminate.
Qed.

(** C10 (as amended).  A JSON-decoding error in [dispatch_alert] is raised
    while the event is built: the process is left as it was and nothing has
    been done, neither suppression check, nor state write, nor delivery.
    The message made of one double quote raises it.  A message made of
    printable ASCII characters other than the double quote and the
    backslash never does: the event is built with the message as given. *)
Theorem json_error_before_any_effect :
  forall (w : world) (severity text : string) (page : bool) (email url : option string),
    json_plain (Collectd.short_hostname (FQDN (globs w))) = true ->
    json_plain (CALLER (globs w)) = true ->
    json_plain severity = true ->
    let o := Collectd.dispatch_alert severity text page email url w in
    (result_of o = Raise ValueError -> world_of o = w /\ effects_of o = [])
    /\ Collectd.dispatch_alert severity (String Py.dquote EmptyString) page email url w
       = (Raise ValueError, w, [])
    /\ (json_plain text = true ->
        result_of o <> Raise ValueError
        /\ exists message,
             Json.loads (event_source w severity text) = Json.Scanned message
             /\ message !! "host" = Some (Collectd.short_hostname (FQDN (globs w)))
             /\ message !! "plugin" = Some (CALLER (globs w))
             /\ message !! "severity" = Some severity
             /\ message !! "message" = Some text).
Proof.
  intros w severity text page email url Hh Hp Hs o.
  split; [|split].
  - intros Hr. apply (value_error_only_from_json severity text page email url w Hr).
  - apply dispatch_alert_malformed. apply loads_lone_quote; assumption.
  - intros Ht.
    pose proof (loads_event _ _ _ _ Hh Hp Hs Ht) as Hload.
    split.
    + intros Hr.
      destruct (value_error_only_from_json severity text page email url w Hr) as [Hm _].
      unfold event_source in Hm. rewrite Hload in Hm. discriminate.
    + eexists. split; [exact Hload|]. apply event_fields.
Qed.

Lemma json_error_before_any_effect_witness :
  result_of (Collectd.dispatch_alert "failure" "disk full" false None None Sample.fresh)
  <> Raise ValueError.
Proof.
  exact (proj1 (proj2 (proj2
           (json_error_before_any_effect Sample.fresh "failure" "disk full"
              false None None eq_refl eq_refl eq_refl)) eq_refl)).
Defined.

(** C10 as stated fails: a message with a backslash that starts a JSON
    escape, or with double quotes that close the field and open another,
    decodes, and [failure] runs to completion. *)
Lemma messages_with_backslash_or_quote_that_decode :
  Py.contains (String Py.backslash EmptyString) Sample.windows_path = true
  /\ result_of (Collectd.failure Sample.windows_path false None None Sample.fresh) = Ok tt
  /\ Py.contains (String Py.dquote EmptyString) Sample.quoting = true
  /\ result_of (Collectd.failure Sample.quoting false None None Sample.fresh) = Ok tt.
Proof. repeat split; vm_compute; reflexivity. Qed.

(** ** Classification *)

(** C2 (as amended).  The [state] that [dispatch_alert] computes is that
    of the class of the pair (previous state, current severity):
    first observation when no state file exists for the plugin; unchanged
    when the first line of the state file is contained in the severity's
    text, compared as it stands, case included; transitioned otherwise.
    Without a state file the computation always ends, and so it does on a
    state file that can be read and written and starts with ASCII text. *)
Theorem classification_by_state_file :
  forall (w : world) (state_file : string) (message : gmap string string)
         (severity : string),
    message !! "severity" = Some severity ->
    let o := Collectd.last_state state_file message w in
    (forall state, result_of o = Ok state ->
       state = state_text (classification_of (previous_state (fs w) state_file) severity))
    /\ (fs w !! state_file = None ->
        classification_of (previous_state (fs w) state_file) severity
        = Spec.FirstObservation
        /\ result_of o = Ok "new")
    /\ (forall content,
          fs w !! state_file = Some (File true true content) ->
          Py.is_ascii (Py.readline content) = true ->
          classification_of (previous_state (fs w) state_file) severity
          = (if Py.contains (Py.readline content) severity
             then Spec.Unchanged else Spec.Transitioned)
          /\ result_of o =
             Ok (if Py.contains (Py.readline content) severity
                 then "new" else "transitioned")).
Proof.
  intros w state_file message severity Hs o.
  split; [|split].
  - intros state Hr.
    pose proof (last_state_run state_file message w) as (_ & _ & _ & _ & Hl).
    fold o in Hl. rewrite Hr in Hl. auto.
  - intros Hnone. unfold previous_state. rewrite Hnone. split; [reflexivity|].
    subst o. unfold Collectd.last_state, os_path_exists. run.
    rewrite Hnone. reflexivity.
  - intros content Hfile Hascii. unfold previous_state. rewrite Hfile.
    split; [reflexivity|].
    subst o. unfold Collectd.last_state, os_path_exists, os_access_W_OK, read_first_line.
    run. rewrite Hfile. run. rewrite Hfile. cbn [negb]. run. rewrite Hfile. run.
    rewrite (bind_getitem _ _ _ _ _ Hs), Hascii. cbn [negb].
    destruct (Py.contains (Py.readline content) severity); reflexivity.
Qed.

Lemma classification_by_state_file_witness :
  result_of (Collectd.last_state "/tmp/check_disk.py"
               (Sample.event "web1" "check_disk.py" "failure" "disk full")
               Sample.after_ok) = Ok "transitioned".
Proof.
  exact (proj2 (proj2 (proj2
           (classification_by_state_file Sample.after_ok "/tmp/check_disk.py"
              (Sample.event "web1" "check_disk.py" "failure" "disk full")
              "failure" eq_refl)) "okay" eq_refl eq_refl)).
Defined.

(** C2 as stated fails on a previous state that differs from the severity
    by case only: the specification's rule says unchanged, the dispatch
    treats it as a transition and pages. *)
Lemma classification_is_case_sensitive :
  Spec.classify (Some "OKAY") "okay" = Spec.Unchanged
  /\ result_of (Collectd.last_state "/tmp/check_disk.py"
                  (Sample.event "web1" "check_disk.py" "okay" "fine")
                  Sample.after_OKAY) = Ok "transitioned"
  /\ "transitioned" <> state_text (Spec.classify (Some "OKAY") "okay")
  /\ existsb is_pager_effect
       (effects_of (Collectd.ok "fine" true None None Sample.after_OKAY)) = true.
Proof.
  split; [reflexivity|]. split; [vm_compute; reflexivity|].
  split; [discriminate | vm_compute; reflexivity].
Qed.

(** ** Kinds of effects *)

Lemma lookup_effect_quiet (e : effect) : is_lookup_effect e = true -> is_quiet e = true.
Proof.
  destruct e as [[] text| | | | | | | | | | | | |]; cbn; try congruence.
  intros H. apply String.eqb_eq in H. subst. reflexivity.
Qed.

Lemma popen_quiet (e : effect) : is_popen e = true -> is_quiet e = true.
Proof. destruct e; cbn; congruence. Qed.

Lemma quiet_forallb (k : effect -> bool) (l : list effect) :
  (forall e, k e = true -> is_quiet e = true) ->
  forallb k l = true -> forallb is_quiet l = true.
Proof.
  intros Hk Hl. apply forallb_forall. intros e Hin.
  rewrite forallb_forall in Hl. auto.
Qed.

Lemma non_sink_call_succeeds (env0 : environment) (e : effect) :
  is_sink_effect e = false -> call_succeeds env0 e = true.
Proof. destruct e; cbn; congruence. Qed.

Lemma quiet_facts (env0 : environment) (l : list effect) :
  forallb is_quiet l = true ->
  existsb is_sink_effect l = false /\ existsb is_file_write l = false
  /\ suppressed l = false /\ storage_aborted l = false
  /\ existsb is_pager_effect l = false /\ existsb is_email_effect l = false
  /\ existsb is_webhook_effect l = false
  /\ after_first_failure env0 l = None.
Proof.
  unfold suppressed, storage_aborted.
  induction l as [|e l IH]; [now repeat split|].
  cbn [forallb]. intros H. apply andb_prop in H as [He Hl].
  destruct (IH Hl) as (H1 & H2 & H3 & H4 & H5 & H6 & H7 & H8).
  cbn [existsb after_first_failure].
  rewrite H1, H2, H3, H4, H5, H6, H7, H8.
  unfold is_quiet in He.
  apply andb_prop in He as [He Hd]. apply andb_prop in He as [He Hs].
  apply andb_prop in He as [Hk Hf].
  apply negb_true_iff in Hd, Hs, Hk, Hf.
  rewrite Hd, Hs, Hk, Hf, (non_sink_call_succeeds env0 e Hk).
  unfold is_sink_effect in Hk.
  apply orb_false_elim in Hk as [Hk Hw]. apply orb_false_elim in Hk as [Hp Hm].
  rewrite Hp, Hm, Hw. now repeat split.
Qed.

Lemma fan_out_effect_not_write (e : effect) :
  is_fan_out_effect e = true ->
  is_file_write e = false /\ is_suppression_log e = false /\ is_state_dir_log e = false.
Proof.
  destruct e as [[] text| | | | | | | | | | | | |];
    cbn [is_fan_out_effect is_sink_effect is_pager_effect is_email_effect
         is_webhook_effect orb is_file_write is_suppression_log is_state_dir_log];
    try discriminate; try (now repeat split).
  intros H. apply String.eqb_eq in H. subst. now repeat split.
Qed.

Lemma fan_out_effect_facts (l : list effect) :
  forallb is_fan_out_effect l = true ->
  existsb is_file_write l = false /\ suppressed l = false /\ storage_aborted l = false.
Proof.
  unfold suppressed, storage_aborted.
  induction l as [|e l IH]; [now repeat split|].
  cbn [forallb]. intros H. apply andb_prop in H as [He Hl].
  destruct (IH Hl) as (H1 & H2 & H3).
  destruct (fan_out_effect_not_write e He) as (E1 & E2 & E3).
  cbn [existsb]. rewrite H1, H2, H3, E1, E2, E3. now repeat split.
Qed.

Lemma transitioned_state (c : Spec.classification) :
  Py.contains "transitioned" (state_text c) = true -> c = Spec.Transitioned.
Proof. destruct c; cbn; congruence. Qed.

Lemma lookup_effects_quiet (message : gmap string string) (w : world) :
  forallb is_quiet (effects_of (Collectd.alerts_disabled message w)) = true.
Proof.
  destruct (alerts_disabled_run message w) as (_ & H & _).
  eapply quiet_forallb; [apply lookup_effect_quiet | exact H].
Qed.

Lemma lookup_raise_not_io (message : gmap string string) (w : world) (x : exn) :
  result_of (Collectd.alerts_disabled message w) = Raise x ->
  is_lookup_exn x = true.
Proof.
  intros H. destruct (alerts_disabled_run message w) as (_ & _ & Hr).
  cbv zeta in Hr. now rewrite H in Hr.
Qed.

Lemma lookup_exn_not_sink (x : exn) : is_lookup_exn x = true -> is_sink_exn x = false.
Proof. destruct x; cbn; congruence. Qed.

Lemma storage_exn_not_sink (x : exn) : is_storage_exn x = true -> is_sink_exn x = false.
Proof. destruct x; cbn; congruence. Qed.

Lemma in_existsb (k : effect -> bool) (e : effect) (l : list effect) :
  In e l -> k e = true -> existsb k l = true.
Proof. intros Hin Hk. apply existsb_exists. eauto. Qed.

(** ** Dispatches that come through the lookup and the storage steps *)

Lemma sink_effect_kinds (l : list effect) :
  existsb is_pager_effect l = true \/ existsb is_email_effect l = true
  \/ existsb is_webhook_effect l = true ->
  existsb is_sink_effect l = true.
Proof.
  intros H. apply existsb_exists.
  destruct H as [H|[H|H]]; apply existsb_exists in H as (e & Hin & He);
    exists e; split; auto; unfold is_sink_effect; rewrite He;
    rewrite ?orb_true_r; reflexivity.
Qed.

(** A dispatch that called a sink, or came through the suppression and the
    storage steps, has decoded its event and written its state, and has
    called no sink before that. *)
Lemma dispatch_passed_storage (w : world) (severity text : string) (page : bool)
    (email url : option string) :
  let o := Collectd.dispatch_alert severity text page email url w in
  existsb is_sink_effect (effects_of o) = true
  \/ match result_of o with
     | Ok _ => suppressed (effects_of o) = false /\ storage_aborted (effects_of o) = false
     | Raise x => is_sink_exn x = true
     | Unmodelled => False
     end ->
  exists message plugin recorded r wr pre post,
    Json.loads (event_source w severity text) = Json.Scanned message
    /\ message !! "plugin" = Some plugin
    /\ message !! "severity" = Some recorded
    /\ fs (world_of o) !! state_file_of w plugin = Some (File r wr recorded)
    /\ effects_of o = pre ++ FileWrite (state_file_of w plugin) recorded :: post
    /\ existsb is_sink_effect pre = false
    /\ existsb is_file_write pre = false
    /\ existsb is_file_write post = false
    /\ suppressed (effects_of o) = false
    /\ storage_aborted (effects_of o) = false.
Proof.
  cbv zeta.
  apply dispatch_alert_cases; cbn [result_of world_of effects_of fst snd].
  - intros _ [Hx|Hx]; discriminate.
  - intros _ [Hx|[]]; discriminate.
  - intros m x _ Hd.
    destruct (quiet_facts (env w) _ (lookup_effects_quiet m w)) as (-> & _).
    rewrite (lookup_exn_not_sink x (lookup_raise_not_io m w x Hd)).
    intros [Hx|Hx]; discriminate.
  - intros m _ _.
    destruct (quiet_facts (env w) _ (lookup_effects_quiet m w)) as (-> & _).
    intros [Hx|[]]; discriminate.
  - intros m key _ _ _ _.
    destruct (quiet_facts (env w) _ (lookup_effects_quiet m w)) as (-> & _).
    intros [Hx|Hx]; discriminate.
  - intros m h p _ _ _ _.
    destruct (quiet_facts (env w) _ (lookup_effects_quiet m w)) as (Hq & _).
    rewrite existsb_app, Hq, suppression_logged.
    intros [Hx|[Hx _]]; discriminate.
  - intros m _ _ _.
    destruct (quiet_facts (env w) _ (lookup_effects_quiet m w)) as (-> & _).
    intros [Hx|Hx]; discriminate.
  - intros m p _ _ _ _.
    destruct (quiet_facts (env w) _ (lookup_effects_quiet m w)) as (Hq & _).
    rewrite existsb_app, Hq, storage_abort_logged.
    intros [Hx|[_ Hx]]; discriminate.
  - intros message plugin Hm Hd Hp Husable.
    destruct (quiet_facts (env w) _ (lookup_effects_quiet message w))
      as (Hqs & Hqf & Hqu & Hqa & _).
    pose proof (last_state_run (state_file_of w plugin) message (with_state_dir w))
      as (_ & _ & _ & Hpopen & Hl).
    cbv zeta in *.
    destruct (Collectd.last_state _ message (with_state_dir w)) as [[[state|x|] wl] el];
      cbn [result_of world_of effects_of fst snd] in *.
    all: destruct (quiet_facts (env w) el (quiet_forallb _ _ popen_quiet Hpopen))
           as (Hls & Hlf & Hlu & Hla & _).
    2:{ rewrite existsb_app, Hqs, Hls, (storage_exn_not_sink x Hl).
        intros [Hx|Hx]; discriminate. }
    2:{ rewrite existsb_app, Hqs, Hls. intros [Hx|[]]; discriminate. }
    pose proof (write_state_run (state_file_of w plugin) message wl) as (_ & _ & _ & Hw).
    cbv zeta in *.
    destruct (Collectd.write_state _ message wl) as [[[[]|x|] ww] ew];
      cbn [result_of world_of effects_of fst snd] in *.
    2:{ destruct Hw as [Hw ->].
        rewrite !existsb_app, Hqs, Hls, (storage_exn_not_sink x Hw).
        intros [Hx|Hx]; discriminate. }
    2:{ destruct Hw. }
    destruct Hw as (r & wr & sev & Hsev' & Hfile & ->).
    destruct (fan_out_sink_run state message page email url ww)
      as (_ & Hfs & Hkind & _).
    destruct (fan_out_effect_facts _ Hkind) as (Hfw & Hfu & Hfa).
    rewrite world_of_prepend, effects_of_prepend, Hfs.
    intros _.
    exists message, plugin, sev, r, wr,
           (effects_of (Collectd.alerts_disabled message w) ++ el),
           (effects_of (Collectd.fan_out state message page email url ww)).
    unfold suppressed, storage_aborted in *.
    rewrite !existsb_app, Hqs, Hqf, Hls, Hlf, Hfw, Hqu, Hqa, Hlu, Hla, Hfu, Hfa.
    repeat split; auto. now rewrite <- !List.app_assoc.
Qed.

(** A dispatch whose event decodes, whose lookup answers that alerts are
    not disabled, and whose state directory and state file are ready, is
    the lookup, the state write and the sinks, in this order. *)
Lemma dispatch_alert_ready (w : world) (severity text : string) (page : bool)
    (email url : option string) (message : gmap string string)
    (plugin recorded : string) :
  Json.loads (event_source w severity text) = Json.Scanned message ->
  message !! "plugin" = Some plugin ->
  message !! "severity" = Some recorded ->
  result_of (Collectd.alerts_disabled message w) = Ok false ->
  dir_usable (fs w) (state_dir_of w) = true ->
  state_file_ready (fs w) (state_dir_of w) plugin = true ->
  exists ws,
    env ws = env w
    /\ fs ws !! state_file_of w plugin = Some (File true true recorded)
    /\ (forall p, p <> state_file_of w plugin -> fs ws !! p = fs w !! p)
    /\ Collectd.dispatch_alert severity text page email url w =
       prepend (effects_of (Collectd.alerts_disabled message w)
                ++ [FileWrite (state_file_of w plugin) recorded])
         (Collectd.fan_out
            (state_text (classification_of
                           (previous_state (fs w) (state_file_of w plugin)) recorded))
            message page email url ws).
Proof.
  intros Hload Hplugin Hsev Hdis Hdir Hready.
  apply state_file_ready_file in Hready. fold (state_file_of w plugin) in Hready.
  destruct (with_state_dir_facts w) as (He1 & Hfs1 & _).
  apply dispatch_alert_cases;
    try solve [ intros; try congruence;
                match goal with
                | Hm : Json.loads _ = Json.Scanned ?m |- _ =>
                    rewrite (loads_functional _ _ _ Hm Hload) in *
                end; congruence ].
  intros m p Hm _ Hp _.
  rewrite (loads_functional _ _ _ Hm Hload) in *. clear m Hm.
  assert (p = plugin) as -> by congruence.
  cbv zeta.
  rewrite (last_state_ready _ _ recorded) by (rewrite ?Hfs1; assumption).
  cbn [result_of world_of effects_of fst snd].
  destruct (write_state_ready (state_file_of w plugin) message recorded
              (with_state_dir w)) as (Hr & Heff & _ & Hwe & Hwf & Hwo);
    [rewrite Hfs1; assumption | assumption |].
  rewrite Hr, Heff, Hfs1. cbn [app].
  eexists. split; [|split; [|split; [|reflexivity]]].
  - rewrite Hwe. exact He1.
  - exact Hwf.
  - intros q Hq. rewrite (Hwo q Hq), Hfs1. reflexivity.
Qed.

(** The same dispatch without a usable state directory. *)
Lemma unusable_state_dir_logged (w : world) (severity text : string) (page : bool)
    (email url : option string) (message : gmap string string) (plugin : string) :
  dir_usable (fs w) (state_dir_of w) = false ->
  Json.loads (event_source w severity text) = Json.Scanned message ->
  message !! "plugin" = Some plugin ->
  result_of (Collectd.alerts_disabled message w) = Ok false ->
  Collectd.dispatch_alert severity text page email url w =
  (Ok tt, with_state_dir w,
   effects_of (Collectd.alerts_disabled message w) ++ [Logging ERROR state_dir_message]).
Proof.
  intros Hdir Hload Hplugin Hdis.
  apply dispatch_alert_cases;
    try solve [ intros; try congruence;
                match goal with
                | Hm : Json.loads _ = Json.Scanned ?m |- _ =>
                    rewrite (loads_functional _ _ _ Hm Hload) in *
                end; congruence ].
Qed.

(** ** Storage failure *)

(** What a dispatch without a usable state directory leaves undone, and
    what it does when no suppression store is configured. *)
Lemma dispatch_alert_without_state_dir :
  forall (w : world) (severity text : string) (page : bool) (email url : option string),
    dir_usable (fs w) (state_dir_of w) = false ->
    let o := Collectd.dispatch_alert severity text page email url w in
    fs (world_of o) = fs w
    /\ existsb is_file_write (effects_of o) = false
    /\ existsb is_sink_effect (effects_of o) = false
    /\ result_of o <> Raise IOError
    /\ (forall a, result_of o = Ok a ->
        suppressed (effects_of o) = true \/ storage_aborted (effects_of o) = true)
    /\ (Collectd.datastore_is_redis (DATASTORE (globs w)) = false ->
        forall message plugin,
          Json.loads (event_source w severity text) = Json.Scanned message ->
          message !! "plugin" = Some plugin ->
          o = (Ok tt, with_state_dir w, [Logging ERROR state_dir_message])).
Proof.
  intros w severity text page email url Hdir o. subst o.
  destruct (with_state_dir_facts w) as (_ & Hfs & _).
  apply dispatch_alert_cases; cbn [result_of world_of effects_of fst snd].
  - intros Hload. repeat split; try discriminate.
    intros _ message plugin Hm. congruence.
  - intros Hload. repeat split; try discriminate.
    intros _ message plugin Hm. congruence.
  - intros message x Hload Hd.
    destruct (quiet_facts (env w) _ (lookup_effects_quiet message w))
      as (Hs & Hf & _).
    pose proof (lookup_raise_not_io message w x Hd) as Hx.
    repeat split; auto; try discriminate.
    + intros [= ->]. discriminate.
    + intros Hredis m p _ _.
      rewrite (alerts_disabled_without_redis message w Hredis) in Hd. discriminate.
  - intros message Hload Hd.
    destruct (quiet_facts (env w) _ (lookup_effects_quiet message w))
      as (Hs & Hf & _).
    repeat split; auto; try discriminate.
    intros Hredis m p _ _.
    rewrite (alerts_disabled_without_redis message w Hredis) in Hd. discriminate.
  - intros message key Hload Hd Hk _.
    destruct (quiet_facts (env w) _ (lookup_effects_quiet message w))
      as (Hs & Hf & _).
    repeat split; auto; try discriminate.
    intros Hredis m p _ _.
    rewrite (alerts_disabled_without_redis message w Hredis) in Hd. discriminate.
  - intros message host plugin Hload Hd Hh Hp.
    destruct (quiet_facts (env w) _ (lookup_effects_quiet message w))
      as (Hs & Hf & _).
    rewrite !existsb_app, Hs, Hf.
    repeat split; auto; try discriminate.
    + intros _ _. left. apply suppression_logged.
    + intros Hredis m p _ _.
      rewrite (alerts_disabled_without_redis message w Hredis) in Hd. discriminate.
  - intros message Hload Hd Hp.
    destruct (quiet_facts (env w) _ (lookup_effects_quiet message w))
      as (Hs & Hf & _).
    repeat split; auto; try discriminate.
    intros Hredis m p Hm Hmp.
    rewrite (loads_functional _ _ _ Hm Hload) in Hmp. congruence.
  - intros message plugin Hload Hd Hp _.
    destruct (quiet_facts (env w) _ (lookup_effects_quiet message w))
      as (Hs & Hf & _).
    rewrite !existsb_app, Hs, Hf.
    repeat split; auto; try discriminate.
    + intros _ _. right. apply storage_abort_logged.
    + intros Hredis m p _ _.
      rewrite (alerts_disabled_without_redis message w Hredis). reflexivity.
  - intros message plugin Hload Hd Hp Husable. congruence.
Qed.

(** C4 (as amended).  In every dispatch in which the state directory does
    not exist or is not writable, no state record is written and no sink
    is invoked; the files are left as they were, and no storage error is
    raised.  When the event decodes and the suppression lookup answers
    that alerts are not disabled (as it does when no suppression store is
    configured), the dispatch logs the error line and returns [None], as a
    completed dispatch returns [None]: the caller is not told.  Whenever
    such a dispatch returns, it has logged that line or the line of a
    suppressed dispatch. *)
Theorem unusable_state_dir_aborts_silently :
  forall (w : world) (severity text : string) (page : bool) (email url : option string),
    dir_usable (fs w) (state_dir_of w) = false ->
    let o := Collectd.dispatch_alert severity text page email url w in
    fs (world_of o) = fs w
    /\ existsb is_file_write (effects_of o) = false
    /\ existsb is_sink_effect (effects_of o) = false
    /\ result_of o <> Raise IOError
    /\ (forall a, result_of o = Ok a ->
        suppressed (effects_of o) = true \/ storage_aborted (effects_of o) = true)
    /\ (forall message plugin,
          Json.loads (event_source w severity text) = Json.Scanned message ->
          message !! "plugin" = Some plugin ->
          result_of (Collectd.alerts_disabled message w) = Ok false ->
          o = (Ok tt, with_state_dir w,
               effects_of (Collectd.alerts_disabled message w)
               ++ [Logging ERROR state_dir_message])
          /\ storage_aborted (effects_of o) = true)
    /\ (Collectd.datastore_is_redis (DATASTORE (globs w)) = false ->
        forall message plugin,
          Json.loads (event_source w severity text) = Json.Scanned message ->
          message !! "plugin" = Some plugin ->
          o = (Ok tt, with_state_dir w, [Logging ERROR state_dir_message])).
Proof.
  intros w severity text page email url Hdir o.
  destruct (dispatch_alert_without_state_dir w severity text page email url Hdir)
    as (H1 & H2 & H3 & H4 & H5 & H6).
  repeat (split; [assumption|]).
  split; [|exact H6].
  intros message plugin Hload Hplugin Hdis.
  subst o.
  rewrite (unusable_state_dir_logged w severity text page email url message plugin
             Hdir Hload Hplugin Hdis).
  split; [reflexivity|]. apply storage_abort_logged.
Qed.

Lemma unusable_state_dir_aborts_silently_witness :
  Collectd.dispatch_alert "failure" "disk full" true (Some "ops@example.com")
    (Some "http://hooks.example.com/alerts") Sample.no_state_dir
  = (Ok tt, with_state_dir Sample.no_state_dir, [Logging ERROR state_dir_message]).
Proof.
  exact (proj1
           (proj1 (proj2 (proj2 (proj2 (proj2 (proj2
              (unusable_state_dir_aborts_silently Sample.no_state_dir "failure"
                 "disk full" true (Some "ops@example.com")
                 (Some "http://hooks.example.com/alerts") eq_refl))))))
              (Sample.event "web1" "check_disk.py" "failure" "disk full")
              "check_disk.py" eq_refl eq_refl eq_refl)).
Defined.

(** C4 as stated fails on its last part: without a state directory
    [failure] returns [None], the very value it returns after a dispatch
    that wrote the state and called the webhook; nothing is raised. *)
Lemma unusable_state_dir_returns_like_success :
  dir_usable (fs Sample.no_state_dir) (state_dir_of Sample.no_state_dir) = false
  /\ result_of (Collectd.failure "disk full" false None
                  (Some "http://hooks.example.com/alerts") Sample.no_state_dir) = Ok tt
  /\ result_of (Collectd.failure "disk full" false None
                  (Some "http://hooks.example.com/alerts") Sample.fresh) = Ok tt
  /\ existsb is_webhook_effect
       (effects_of (Collectd.failure "disk full" false None
                      (Some "http://hooks.example.com/alerts") Sample.fresh)) = true.
Proof. repeat split; vm_compute; reflexivity. Qed.

(** ** State written before delivery *)

(** C3 (as amended).  In every dispatch whose event decodes, whose
    suppression lookup answers that alerts are not disabled, whose state
    directory is usable and whose state file is ready (a readable and
    writable file whose first line is ASCII, or no file yet, for a plugin
    name without a slash, in a state directory that is a writable
    directory), the state file of the event's plugin holds the event's
    severity afterwards: it is written once, whatever the classification,
    and no sink effect comes before the write.  The same holds of every
    dispatch that calls a sink, of every dispatch that returns without one
    of the two log lines of the early returns, and of every dispatch that
    ends with a sink's exception: its event was decoded and its state
    written before any sink was called.  A dispatch that ends with an
    exception that is neither a sink's nor a [KeyError] has written
    nothing. *)
Theorem state_written_before_delivery :
  forall (w : world) (severity text : string) (page : bool) (email url : option string),
    let o := Collectd.dispatch_alert severity text page email url w in
    (forall message plugin recorded,
       Json.loads (event_source w severity text) = Json.Scanned message ->
       message !! "plugin" = Some plugin ->
       message !! "severity" = Some recorded ->
       result_of (Collectd.alerts_disabled message w) = Ok false ->
       dir_usable (fs w) (state_dir_of w) = true ->
       state_file_ready (fs w) (state_dir_of w) plugin = true ->
       fs (world_of o) !! state_file_of w plugin = Some (File true true recorded)
       /\ exists pre post,
            effects_of o = pre ++ FileWrite (state_file_of w plugin) recorded :: post
            /\ existsb is_sink_effect pre = false
            /\ existsb is_file_write pre = false
            /\ existsb is_file_write post = false)
    /\ (existsb is_sink_effect (effects_of o) = true
        \/ match result_of o with
           | Ok _ =>
               suppressed (effects_of o) = false /\ storage_aborted (effects_of o) = false
           | Raise x => is_sink_exn x = true
           | Unmodelled => False
           end ->
        exists message plugin recorded r wr pre post,
          Json.loads (event_source w severity text) = Json.Scanned message
          /\ message !! "plugin" = Some plugin
          /\ message !! "severity" = Some recorded
          /\ fs (world_of o) !! state_file_of w plugin = Some (File r wr recorded)
          /\ effects_of o = pre ++ FileWrite (state_file_of w plugin) recorded :: post
          /\ existsb is_sink_effect pre = false
          /\ existsb is_file_write pre = false
          /\ existsb is_file_write post = false
          /\ suppressed (effects_of o) = false
          /\ storage_aborted (effects_of o) = false)
    /\ (forall x, result_of o = Raise x -> is_sink_exn x = false ->
        (forall key, x <> KeyError key) ->
        existsb is_file_write (effects_of o) = false).
Proof.
  intros w severity text page email url o.
  split; [|split].
  - intros message plugin recorded Hload Hplugin Hsev Hdis Hdir Hready.
    destruct (dispatch_alert_ready w severity text page email url message plugin
                recorded Hload Hplugin Hsev Hdis Hdir Hready)
      as (ws & _ & Hfile & _ & Hshape).
    subst o. rewrite Hshape, world_of_prepend, effects_of_prepend.
    destruct (fan_out_sink_run
                (state_text (classification_of
                               (previous_state (fs w) (state_file_of w plugin)) recorded))
                message page email url ws) as (_ & Hfs & Hkind & _).
    destruct (fan_out_effect_facts _ Hkind) as (Hfw & _).
    destruct (quiet_facts (env w) _ (lookup_effects_quiet message w))
      as (Hqs & Hqf & _).
    rewrite Hfs. split; [exact Hfile|].
    eexists _, _. split; [|split; [exact Hqs|split; [exact Hqf|exact Hfw]]].
    rewrite <- List.app_assoc. reflexivity.
  - apply dispatch_passed_storage.
  - subst o.
    apply dispatch_alert_cases; cbn [result_of world_of effects_of fst snd].
    + reflexivity.
    + discriminate.
    + intros m x _ _ y _ _ _.
      now destruct (quiet_facts (env w) _ (lookup_effects_quiet m w)) as (_ & H & _).
    + discriminate.
    + intros m key _ _ _ _ y [= <-] _ Hk. now destruct (Hk key).
    + discriminate.
    + intros m _ _ _ y [= <-] _ Hk. now destruct (Hk "plugin").
    + discriminate.
    + intros m p Hm Hd Hp Husable.
      destruct (quiet_facts (env w) _ (lookup_effects_quiet m w)) as (_ & Hqf & _).
      pose proof (last_state_run (state_file_of w p) m (with_state_dir w))
        as (_ & _ & _ & Hpopen & _).
      cbv zeta in *.
      destruct (Collectd.last_state _ m (with_state_dir w)) as [[[state|x|] wl] el];
        cbn [result_of world_of effects_of fst snd] in *.
      all: destruct (quiet_facts (env w) el (quiet_forallb _ _ popen_quiet Hpopen))
             as (_ & Hlf & _).
      2:{ intros y _ _ _. now rewrite existsb_app, Hqf, Hlf. }
      2:{ discriminate. }
      pose proof (write_state_run (state_file_of w p) m wl) as (_ & _ & _ & Hw).
      cbv zeta in *.
      destruct (Collectd.write_state _ m wl) as [[[[]|x|] ww] ew];
        cbn [result_of world_of effects_of fst snd] in *.
      2:{ destruct Hw as [_ ->]. intros y _ _ _.
          now rewrite !existsb_app, Hqf, Hlf. }
      2:{ destruct Hw. }
      destruct (fan_out_sink_run state m page email url ww) as (_ & _ & _ & Ho & _).
      rewrite result_of_prepend. intros y Hy Hsink Hk. exfalso.
      unfold sink_outcome in Ho. rewrite Hy, Hsink in Ho.
      destruct Ho as (_ & k & ->). now destruct (Hk k).
Qed.

Lemma state_written_before_delivery_witness :
  fs (world_of (Collectd.dispatch_alert "failure" "disk full" true
                  (Some "ops@example.com") (Some "http://hooks.example.com/alerts")
                  Sample.fresh))
  !! state_file_of Sample.fresh "check_disk.py"
  = Some (File true true "failure").
Proof.
  exact (proj1
           (proj1
              (state_written_before_delivery Sample.fresh "failure" "disk full"
                 true (Some "ops@example.com") (Some "http://hooks.example.com/alerts"))
              (Sample.event "web1" "check_disk.py" "failure" "disk full")
              "check_disk.py" "failure" eq_refl eq_refl eq_refl eq_refl eq_refl eq_refl)).
Defined.

(** C3 as stated fails when the suppression lookup raises: the dispatch
    is neither suppressed nor aborted at a usable state directory, and no
    state is written. *)
Lemma state_not_written_when_lookup_raises :
  let w := Sample.with_store false ∅ in
  let o := Collectd.failure "disk full" false None
             (Some "http://hooks.example.com/alerts") w in
  suppressed (effects_of o) = false
  /\ storage_aborted (effects_of o) = false
  /\ dir_usable (fs w) (state_dir_of w) = true
  /\ result_of o = Raise RedisError
  /\ fs (world_of o) !! state_file_of w "diskcheck" = None
  /\ existsb is_file_write (effects_of o) = false
  /\ existsb is_sink_effect (effects_of o) = false.
Proof. repeat split; vm_compute; reflexivity. Qed.

(** ** Which sinks a dispatch invokes *)

(** The sinks a dispatch invokes, by the way it ends and by the
    classification. *)
Lemma dispatch_alert_sinks :
  forall (w : world) (severity text : string) (page : bool) (email url : option string)
         (message : gmap string string) (plugin recorded : string),
    Json.loads (event_source w severity text) = Json.Scanned message ->
    message !! "plugin" = Some plugin ->
    message !! "severity" = Some recorded ->
    let o := Collectd.dispatch_alert severity text page email url w in
    let class :=
      classification_of (previous_state (fs w) (state_file_of w plugin)) recorded in
    (suppressed (effects_of o) = false ->
     storage_aborted (effects_of o) = false ->
     match result_of o with
     | Ok _ => True
     | Raise x => is_url_exn x = true
     | Unmodelled => False
     end ->
     Py.truthy_opt url = true ->
     exists u, url = Some u /\ In (UrlOpen u message) (effects_of o))
    /\ (class <> Spec.Transitioned ->
        suppressed (effects_of o) = false ->
        storage_aborted (effects_of o) = false ->
        match result_of o with
        | Ok _ => True
        | Raise x => is_sink_exn x = true
        | Unmodelled => False
        end ->
        Py.truthy_opt url = true ->
        exists u, url = Some u /\ In (UrlOpen u message) (effects_of o))
    /\ (existsb is_pager_effect (effects_of o) = true ->
        page = true /\ class = Spec.Transitioned)
    /\ (existsb is_email_effect (effects_of o) = true ->
        Py.truthy_opt email = true /\ class = Spec.Transitioned).
Proof.
  intros w severity text page email url message plugin recorded Hload Hplugin Hsev
    o class.
  subst o.
  assert (Hquiet : forall m,
            existsb is_pager_effect (effects_of (Collectd.alerts_disabled m w)) = false
            /\ existsb is_email_effect (effects_of (Collectd.alerts_disabled m w)) = false).
  { intros m.
    destruct (quiet_facts (env w) _ (lookup_effects_quiet m w))
      as (_ & _ & _ & _ & Hp & He & _). auto. }
  assert (Hurl_sink : forall x, is_url_exn x = true -> is_sink_exn x = true)
    by apply url_exn_sink.
  apply dispatch_alert_cases; cbn [result_of world_of effects_of fst snd].
  - congruence.
  - congruence.
  - intros m x _ Hd. destruct (Hquiet m) as [-> ->].
    pose proof (lookup_exn_not_sink x (lookup_raise_not_io m w x Hd)) as Hx.
    repeat split; try discriminate; intros; exfalso;
      repeat match goal with
             | H : is_url_exn x = true |- _ => apply Hurl_sink in H
             end; congruence.
  - intros m _ _. destruct (Hquiet m) as [-> ->].
    repeat split; try discriminate; intros; contradiction.
  - intros m key _ _ _ _. destruct (Hquiet m) as [-> ->].
    repeat split; discriminate.
  - intros m h p _ _ _ _. rewrite !existsb_app. destruct (Hquiet m) as [-> ->].
    rewrite suppression_logged. repeat split; discriminate.
  - intros m _ _ _. destruct (Hquiet m) as [-> ->]. repeat split; discriminate.
  - intros m p _ _ _ _. rewrite !existsb_app. destruct (Hquiet m) as [-> ->].
    rewrite storage_abort_logged. repeat split; discriminate.
  - intros m p Hm Hd Hp Husable.
    rewrite (loads_functional _ _ _ Hm Hload) in *. clear m Hm.
    assert (p = plugin) as -> by congruence.
    destruct (Hquiet message) as [Hdp Hde].
    destruct (with_state_dir_facts w) as (_ & Hfs1 & _).
    pose proof (last_state_run (state_file_of w plugin) message (with_state_dir w))
      as (_ & _ & _ & Hpopen & Hl).
    cbv zeta in *.
    destruct (Collectd.last_state _ message (with_state_dir w)) as [[[state|x|] wl] el];
      cbn [result_of world_of effects_of fst snd] in *.
    all: destruct (quiet_facts (env w) el (quiet_forallb _ _ popen_quiet Hpopen))
           as (_ & _ & _ & _ & Hlp & Hle & _).
    2:{ rewrite !existsb_app, Hdp, Hde, Hlp, Hle.
        pose proof (storage_exn_not_sink x Hl) as Hx.
        repeat split; try discriminate; intros; exfalso;
          repeat match goal with
                 | H : is_url_exn x = true |- _ => apply Hurl_sink in H
                 end; congruence. }
    2:{ rewrite !existsb_app, Hdp, Hde, Hlp, Hle.
        repeat split; try discriminate; intros; contradiction. }
    specialize (Hl recorded Hsev). rewrite Hfs1 in Hl. fold class in Hl.
    pose proof (write_state_run (state_file_of w plugin) message wl) as (_ & _ & _ & Hw).
    cbv zeta in *.
    destruct (Collectd.write_state _ message wl) as [[[[]|x|] ww] ew];
      cbn [result_of world_of effects_of fst snd] in *.
    2:{ destruct Hw as [Hw ->].
        rewrite !existsb_app, Hdp, Hde, Hlp, Hle.
        pose proof (storage_exn_not_sink x Hw) as Hx.
        repeat split; try discriminate; intros; exfalso;
          repeat match goal with
                 | H : is_url_exn x = true |- _ => apply Hurl_sink in H
                 end; congruence. }
    2:{ destruct Hw. }
    destruct Hw as (r & wr & sev & _ & _ & ->).
    destruct (fan_out_policy state message page email url ww)
      as (Hpager & Hemail & _).
    destruct (fan_out_reach state message page email url ww)
      as (Hreach & Hpx & Hsx).
    cbv zeta in *.
    rewrite result_of_prepend, effects_of_prepend.
    rewrite !existsb_app, Hdp, Hde, Hlp, Hle.
    cbn [existsb is_pager_effect is_email_effect orb].
    assert (Hweb : match result_of (Collectd.fan_out state message page email url ww) with
                   | Ok _ => True
                   | Raise x => is_url_exn x = true
                   | Unmodelled => False
                   end ->
                   Py.truthy_opt url = true ->
                   exists u, url = Some u
                     /\ In (UrlOpen u message)
                          ((effects_of (Collectd.alerts_disabled message w)
                            ++ el ++ [FileWrite (state_file_of w plugin) sev])
                           ++ effects_of (Collectd.fan_out state message page email url ww))).
    { intros Hr Hu. destruct (Hreach Hr Hu) as (u & -> & Hin).
      exists u. split; [reflexivity|]. apply in_or_app. right. exact Hin. }
    split; [|split; [|split]].
    + intros _ _. exact Hweb.
    + intros Hclass _ _ Hr. apply Hweb.
      destruct (result_of (Collectd.fan_out state message page email url ww))
        as [[]|x|] eqn:Hres; auto.
      destruct x; try discriminate; try reflexivity; exfalso; apply Hclass;
        apply transitioned_state; rewrite <- Hl.
      * apply (Hpx PagerDutyError eq_refl eq_refl).
      * apply (Hsx SMTPError eq_refl eq_refl).
    + intros H. destruct (Hpager H) as [-> Ht]. split; [reflexivity|].
      apply transitioned_state. now rewrite <- Hl.
    + intros H. destruct (Hemail H) as [-> Ht]. split; [reflexivity|].
      apply transitioned_state. now rewrite <- Hl.
Qed.

(** C1 (as amended).  In every dispatch that gets as far as its sinks (the
    event decodes, the suppression lookup answers that alerts are not
    disabled, the state directory is usable and the state file is ready)
    and is given a url, the webhook is called exactly when the dispatch
    returns or ends with the webhook's own exception, that is, when neither
    the pager step nor the email step raises; this is so whatever the
    classification.  On a first observation and on an unchanged state,
    and whatever the classification when neither a page nor an email was
    asked for, neither of these steps runs: the dispatch does the lookup,
    writes the state and calls the webhook.  In every dispatch the pager
    and the email sink are invoked only when the classification is
    transitioned (and a page, an email, was asked for).  And every
    dispatch that returns without one of the two log lines of the early
    returns, or ends with the webhook's exception, has called the webhook
    when it was given a url. *)
Theorem webhook_unless_earlier_sink_raises :
  forall (w : world) (severity text : string) (page : bool) (email url : option string),
    let o := Collectd.dispatch_alert severity text page email url w in
    (forall message plugin recorded u,
       Json.loads (event_source w severity text) = Json.Scanned message ->
       message !! "plugin" = Some plugin ->
       message !! "severity" = Some recorded ->
       result_of (Collectd.alerts_disabled message w) = Ok false ->
       dir_usable (fs w) (state_dir_of w) = true ->
       state_file_ready (fs w) (state_dir_of w) plugin = true ->
       url = Some u -> Py.truthy u = true ->
       (In (UrlOpen u message) (effects_of o) <->
        result_of o = Ok tt \/ result_of o = Raise URLError)
       /\ (classification_of (previous_state (fs w) (state_file_of w plugin)) recorded
           <> Spec.Transitioned
           \/ (page = false /\ Py.truthy_opt email = false) ->
           effects_of o =
           effects_of (Collectd.alerts_disabled message w)
           ++ [FileWrite (state_file_of w plugin) recorded; UrlOpen u message]))
    /\ (existsb is_pager_effect (effects_of o) = true
        \/ existsb is_email_effect (effects_of o) = true ->
        exists message plugin recorded,
          Json.loads (event_source w severity text) = Json.Scanned message
          /\ message !! "plugin" = Some plugin
          /\ message !! "severity" = Some recorded
          /\ classification_of (previous_state (fs w) (state_file_of w plugin)) recorded
             = Spec.Transitioned
          /\ (existsb is_pager_effect (effects_of o) = true -> page = true)
          /\ (existsb is_email_effect (effects_of o) = true ->
              Py.truthy_opt email = true))
    /\ (match result_of o with
        | Ok _ =>
            suppressed (effects_of o) = false /\ storage_aborted (effects_of o) = false
        | Raise x => is_url_exn x = true
        | Unmodelled => False
        end ->
        Py.truthy_opt url = true ->
        exists message u,
          Json.loads (event_source w severity text) = Json.Scanned message
          /\ url = Some u /\ In (UrlOpen u message) (effects_of o)).
Proof.
  intros w severity text page email url o.
  split; [|split].
  - intros message plugin recorded u Hload Hplugin Hsev Hdis Hdir Hready -> Hurl.
    destruct (dispatch_alert_ready w severity text page email (Some u) message plugin
                recorded Hload Hplugin Hsev Hdis Hdir Hready)
      as (ws & _ & _ & _ & Hshape).
    set (class := classification_of
                    (previous_state (fs w) (state_file_of w plugin)) recorded) in *.
    subst o. rewrite Hshape, result_of_prepend, effects_of_prepend.
    destruct (quiet_facts (env w) _ (lookup_effects_quiet message w))
      as (_ & _ & _ & _ & _ & _ & Hqw & _).
    destruct (fan_out_reach (state_text class) message page email (Some u) ws)
      as (Hreach & _).
    pose proof (fan_out_webhook_last (state_text class) message page email (Some u) ws)
      as Hlast.
    cbv zeta in Hreach, Hlast.
    split; [split|].
    + intros Hin. apply Hlast.
      apply in_app_or in Hin as [Hin|Hin].
      * apply in_app_or in Hin as [Hin|[Hin|[]]]; [|discriminate].
        rewrite (in_existsb is_webhook_effect _ _ Hin eq_refl) in Hqw. discriminate.
      * apply (in_existsb is_webhook_effect _ _ Hin eq_refl).
    + intros Hres. apply in_or_app. right.
      destruct Hreach as (u' & [= <-] & Hin); auto.
      destruct Hres as [-> | ->]; [exact I | reflexivity].
    + intros Hclass.
      rewrite fan_out_webhook_only.
      * rewrite Hurl, post_to_url_result.
        cbn [effects_of snd]. rewrite <- List.app_assoc. reflexivity.
      * destruct Hclass as [Hclass|Hnone]; [left|right; exact Hnone].
        destruct class; cbn; try reflexivity. now destruct Hclass.
  - intros Hsome.
    destruct (dispatch_passed_storage w severity text page email url)
      as (m & p & sev & _ & _ & _ & _ & Hm & Hp & Hv & _).
    { left. fold o. apply sink_effect_kinds. tauto. }
    destruct (dispatch_alert_sinks w severity text page email url m p sev Hm Hp Hv)
      as (_ & _ & Hpager & Hemail).
    exists m, p, sev. repeat (split; [assumption|]).
    fold o in Hpager, Hemail. cbv zeta in Hpager, Hemail.
    split; [|split].
    + destruct Hsome as [H|H]; [apply Hpager in H | apply Hemail in H]; tauto.
    + intros H. apply Hpager in H. tauto.
    + intros H. apply Hemail in H. tauto.
  - intros Hres Hurl.
    destruct (dispatch_passed_storage w severity text page email url)
      as (m & p & sev & _ & _ & _ & _ & Hm & Hp & Hv & _ & _ & _ & _ & _ & Hs & Ha).
    { right. fold o. destruct (result_of o); auto. now apply url_exn_sink. }
    destruct (dispatch_alert_sinks w severity text page email url m p sev Hm Hp Hv)
      as (Hweb & _).
    fold o in Hweb, Hs, Ha. cbv zeta in Hweb.
    destruct (Hweb Hs Ha) as (u & Hu & Hin); eauto.
    destruct (result_of o); tauto.
Qed.

Lemma webhook_unless_earlier_sink_raises_witness :
  effects_of (Collectd.dispatch_alert "okay" "fine" true (Some "ops@example.com")
                (Some "http://hooks.example.com/alerts") Sample.after_ok) =
  [FileWrite "/tmp/check_disk.py" "okay";
   UrlOpen "http://hooks.example.com/alerts"
     (Sample.event "web1" "check_disk.py" "okay" "fine")].
Proof.
  assert (Hclass : classification_of
                     (previous_state (fs Sample.after_ok)
                        (state_file_of Sample.after_ok "check_disk.py")) "okay"
                   <> Spec.Transitioned) by (vm_compute; discriminate).
  exact (proj2
           (proj1
              (webhook_unless_earlier_sink_raises Sample.after_ok "okay" "fine" true
                 (Some "ops@example.com") (Some "http://hooks.example.com/alerts"))
              (Sample.event "web1" "check_disk.py" "okay" "fine")
              "check_disk.py" "okay" "http://hooks.example.com/alerts"
              eq_refl eq_refl eq_refl eq_refl eq_refl eq_refl eq_refl eq_refl)
           (or_introl Hclass)).
Defined.

(** C1 as stated fails on a transition whose mail cannot be sent: the
    dispatch is neither suppressed nor aborted on a storage error, the
    state is written, a url was given, and the webhook is not called. *)
Lemma webhook_skipped_when_email_raises :
  let o := Collectd.warning "load is high" false (Some "oncall@example.com")
             (Some "http://hooks.example.com/alerts") Sample.after_ok_no_smtp in
  suppressed (effects_of o) = false
  /\ storage_aborted (effects_of o) = false
  /\ effects_of o = [FileWrite "/tmp/check_disk.py" "warning";
                     Print "emailing:  oncall@example.com"; SmtpConnect "localhost"]
  /\ result_of o = Raise SMTPError
  /\ existsb is_webhook_effect (effects_of o) = false.
Proof. repeat split; vm_compute; reflexivity. Qed.

(** The same happens when the pager service refuses the key. *)
Lemma webhook_skipped_when_pager_raises :
  let o := Collectd.dispatch_alert "failure" "disk full" true None
             (Some "http://hooks.example.com/alerts") Sample.after_ok_pager_down in
  suppressed (effects_of o) = false
  /\ storage_aborted (effects_of o) = false
  /\ existsb is_file_write (effects_of o) = true
  /\ result_of o = Raise PagerDutyError
  /\ existsb is_webhook_effect (effects_of o) = false.
Proof. repeat split; vm_compute; reflexivity. Qed.

(** ** Sink failures *)

Lemma non_sink_effects (env0 : environment) (l : list effect) :
  existsb is_sink_effect l = false ->
  after_first_failure env0 l = None
  /\ existsb is_email_effect l = false /\ existsb is_webhook_effect l = false.
Proof.
  induction l as [|e l IH]; [now repeat split|].
  cbn [existsb after_first_failure]. intros H.
  apply orb_false_elim in H as [He Hl].
  destruct (IH Hl) as (-> & -> & ->).
  rewrite (non_sink_call_succeeds env0 e He).
  unfold is_sink_effect in He.
  apply orb_false_elim in He as [He Hw]. apply orb_false_elim in He as [_ He].
  rewrite He, Hw. now repeat split.
Qed.

Lemma no_failure_in_early_effects (w : world) (m : gmap string string)
    (tail : list effect) :
  existsb is_sink_effect tail = false ->
  after_first_failure (env w) (effects_of (Collectd.alerts_disabled m w) ++ tail) = None
  /\ existsb is_email_effect (effects_of (Collectd.alerts_disabled m w) ++ tail) = false
  /\ existsb is_webhook_effect (effects_of (Collectd.alerts_disabled m w) ++ tail) = false.
Proof.
  intros Htail. apply non_sink_effects.
  destruct (quiet_facts (env w) _ (lookup_effects_quiet m w)) as (Hs & _).
  now rewrite existsb_app, Hs, Htail.
Qed.

(** Where a dispatch stops when a sink's call does not go through. *)
Lemma dispatch_alert_sink_failure :
  forall (w : world) (severity text : string) (page : bool) (email url : option string),
    let o := Collectd.dispatch_alert severity text page email url w in
    (forall post, after_first_failure (env w) (effects_of o) = Some post ->
       post = [] /\ exists x, result_of o = Raise x /\ is_sink_exn x = true)
    /\ (forall x, result_of o = Raise x -> is_sink_exn x = true ->
        after_first_failure (env w) (effects_of o) = Some [])
    /\ (forall x, result_of o = Raise x -> is_pager_exn x = true ->
        existsb is_email_effect (effects_of o) = false
        /\ existsb is_webhook_effect (effects_of o) = false)
    /\ (forall x, result_of o = Raise x -> is_smtp_exn x = true ->
        existsb is_webhook_effect (effects_of o) = false).
Proof.
  intros w severity text page email url o. subst o.
  assert (Hnil : forall m,
            after_first_failure (env w) (effects_of (Collectd.alerts_disabled m w)) = None
            /\ existsb is_email_effect (effects_of (Collectd.alerts_disabled m w)) = false
            /\ existsb is_webhook_effect (effects_of (Collectd.alerts_disabled m w)) = false).
  { intros m. pose proof (no_failure_in_early_effects w m [] eq_refl) as H.
    now rewrite app_nil_r in H. }
  apply dispatch_alert_cases; cbn [result_of world_of effects_of fst snd].
  - intros _. repeat split; try discriminate; intros x [= <-]; discriminate.
  - intros _. repeat split; discriminate.
  - intros m x _ Hd. destruct (Hnil m) as (-> & -> & ->).
    pose proof (lookup_exn_not_sink x (lookup_raise_not_io m w x Hd)) as Hx.
    repeat split; try discriminate; intros y [= <-] Hy;
      try congruence; destruct x; discriminate.
  - intros m _ _. destruct (Hnil m) as (-> & -> & ->). repeat split; discriminate.
  - intros m key _ _ _ _. destruct (Hnil m) as (-> & -> & ->).
    repeat split; try discriminate; intros y [= <-]; discriminate.
  - intros m h p _ _ _ _.
    destruct (no_failure_in_early_effects w m
                [Logging INFO (suppression_message h p)] eq_refl) as (-> & -> & ->).
    repeat split; discriminate.
  - intros m _ _ _. destruct (Hnil m) as (-> & -> & ->).
    repeat split; try discriminate; intros y [= <-]; discriminate.
  - intros m p _ _ _ _.
    destruct (no_failure_in_early_effects w m
                [Logging ERROR state_dir_message] eq_refl) as (-> & -> & ->).
    repeat split; discriminate.
  - intros m p Hm Hd Hp Husable.
    destruct (with_state_dir_facts w) as (He1 & _ & _).
    pose proof (last_state_run (state_file_of w p) m (with_state_dir w))
      as (_ & Hel & _ & Hpopen & Hl).
    cbv zeta in *.
    destruct (Collectd.last_state _ m (with_state_dir w)) as [[[state|x|] wl] el];
      cbn [result_of world_of effects_of fst snd] in *.
    all: destruct (quiet_facts (env w) el (quiet_forallb _ _ popen_quiet Hpopen))
           as (Hq & _).
    2:{ destruct (no_failure_in_early_effects w m el Hq) as (-> & -> & ->).
        pose proof (storage_exn_not_sink x Hl) as Hx.
        repeat split; try discriminate; intros y [= <-] Hy;
          try congruence; destruct x; discriminate. }
    2:{ destruct (no_failure_in_early_effects w m el Hq) as (-> & -> & ->).
        repeat split; discriminate. }
    pose proof (write_state_run (state_file_of w p) m wl) as (_ & Hew & _ & Hw).
    cbv zeta in *.
    destruct (Collectd.write_state _ m wl) as [[[[]|x|] ww] ew];
      cbn [result_of world_of effects_of fst snd] in *.
    2:{ destruct Hw as [Hw ->]. rewrite app_nil_r.
        destruct (no_failure_in_early_effects w m el Hq) as (-> & -> & ->).
        pose proof (storage_exn_not_sink x Hw) as Hx.
        repeat split; try discriminate; intros y [= <-] Hy;
          try congruence; destruct x; discriminate. }
    2:{ destruct Hw. }
    destruct Hw as (r & wr & sev & _ & _ & ->).
    assert (Hq' : existsb is_sink_effect
                    (el ++ [FileWrite (state_file_of w p) sev]) = false)
      by (rewrite existsb_app, Hq; reflexivity).
    destruct (no_failure_in_early_effects w m _ Hq') as (Ha & Hee & Hew').
    destruct (fan_out_sink_run state m page email url ww) as (_ & _ & _ & Ho & _).
    destruct (fan_out_policy state m page email url ww)
      as (_ & _ & _ & _ & Hpager & Hsmtp).
    cbv zeta in *.
    assert (Henv : env ww = env w) by congruence.
    rewrite Henv in Ho.
    rewrite result_of_prepend, effects_of_prepend.
    set (pre := effects_of (Collectd.alerts_disabled m w)
                ++ el ++ [FileWrite (state_file_of w p) sev]) in *.
    rewrite after_first_failure_app, !existsb_app, Ha, Hee, Hew'.
    cbn [orb].
    unfold sink_outcome in Ho.
    destruct (result_of (Collectd.fan_out state m page email url ww)) as [[]|x|];
      [| |destruct Ho].
    + rewrite Ho. repeat split; discriminate.
    + split; [|split; [|split]].
      * intros post Hpost. destruct (is_sink_exn x) eqn:Hx.
        -- rewrite Ho in Hpost. injection Hpost as <-. eauto.
        -- destruct Ho as [Ho _]. congruence.
      * intros y [= <-] Hy. now rewrite Hy in Ho.
      * intros y [= <-] Hy. apply (Hpager x eq_refl Hy).
      * intros y [= <-] Hy. apply (Hsmtp x eq_refl Hy).
Qed.

(** C5 (as amended).  A failure raised by a delivery sink is not caught:
    the failing call is the last thing the dispatch does, and the sink's
    exception reaches the caller of [ok], [warning] or [failure].  The
    sinks that come after it in the order pager, email, webhook are not
    attempted.  Conversely a sink's exception reaches the caller only
    after such a failing call.  By then the state file of the event's
    plugin holds the event's severity, written before any sink was
    called. *)
Theorem sink_failure_ends_dispatch :
  forall (w : world) (severity text : string) (page : bool) (email url : option string),
    let o := Collectd.dispatch_alert severity text page email url w in
    (forall post, after_first_failure (env w) (effects_of o) = Some post ->
       post = [] /\ exists x, result_of o = Raise x /\ is_sink_exn x = true)
    /\ (forall x, result_of o = Raise x -> is_sink_exn x = true ->
        after_first_failure (env w) (effects_of o) = Some [])
    /\ (forall x, result_of o = Raise x -> is_pager_exn x = true ->
        existsb is_email_effect (effects_of o) = false
        /\ existsb is_webhook_effect (effects_of o) = false)
    /\ (forall x, result_of o = Raise x -> is_smtp_exn x = true ->
        existsb is_webhook_effect (effects_of o) = false)
    /\ (forall x, result_of o = Raise x -> is_sink_exn x = true ->
        exists message plugin recorded r wr pre post,
          Json.loads (event_source w severity text) = Json.Scanned message
          /\ message !! "plugin" = Some plugin
          /\ message !! "severity" = Some recorded
          /\ fs (world_of o) !! state_file_of w plugin = Some (File r wr recorded)
          /\ effects_of o = pre ++ FileWrite (state_file_of w plugin) recorded :: post
          /\ existsb is_sink_effect pre = false).
Proof.
  intros w severity text page email url o.
  destruct (dispatch_alert_sink_failure w severity text page email url)
    as (H1 & H2 & H3 & H4).
  repeat (split; [assumption|]).
  intros x Hres Hx.
  destruct (dispatch_passed_storage w severity text page email url)
    as (m & p & sev & r & wr & pre & post & Hm & Hp & Hv & Hfile & Heff & Hpre & _).
  { right. fold o. rewrite Hres. exact Hx. }
  exists m, p, sev, r, wr, pre, post. auto 10.
Qed.

Lemma sink_failure_ends_dispatch_witness :
  existsb is_webhook_effect
    (effects_of (Collectd.dispatch_alert "failure" "disk full" false
                   (Some "ops@example.com") (Some "http://hooks.example.com/alerts")
                   Sample.after_ok_no_smtp)) = false.
Proof.
  exact (proj1 (proj2 (proj2 (proj2
           (sink_failure_ends_dispatch Sample.after_ok_no_smtp "failure" "disk full"
              false (Some "ops@example.com") (Some "http://hooks.example.com/alerts")))))
           SMTPError eq_refl eq_refl).
Defined.

(** C5 as stated fails: on a host without a mail server the email sink
    raises, [failure] passes the exception on to its caller, nothing is
    logged, and the webhook that was asked for is never called. *)
Lemma email_failure_reaches_caller_and_skips_webhook :
  let o := Collectd.failure "disk full" false (Some "ops@example.com")
             (Some "http://hooks.example.com/alerts") Sample.after_ok_no_smtp in
  result_of o = Raise SMTPError
  /\ existsb is_logging (effects_of o) = false
  /\ existsb is_webhook_effect (effects_of o) = false
  /\ effects_of o = [FileWrite "/tmp/check_disk.py" "failure";
                     Print "emailing:  ops@example.com"; SmtpConnect "localhost"].
Proof. repeat split; vm_compute; reflexivity. Qed.
